(** * QuantumFlow: the plan executor, the planner, the project manifest, the
      agent registry and the plan state files, embedded from the Go sources

    Sources embedded here:
      - internal/agent/plan_types.go   (ExecutionPlan, Phase, Task, ExecutionState,
                                        Checkpoint and the status constants)
      - internal/agent/project_state.go (ProjectManifest)
      - the executor (Executor.Execute, executePhase, processFileBlocks,
        processCommandBlocks, isDangerousCommand, buildPhaseQuery,
        initProjectStructure, areDependenciesMet, createCheckpoint, rollback)
      - the approval workflow (RequestApproval, SavePlanState, LoadPlanState)
      - the planner (Planner.Generate, generateFileStructure,
        generatePhasesCompact, parsePlanResponse) and
        internal/agent/classifier.go (normalizeAgentType)
      - internal/agent/orchestrator.go (RegisterAgent, GetAgents)
      - the command line's handleExecuteCommand

    Conventions.
      - A Go [string] is a [string] of bytes; [int] is [Z] (every index the
        executor computes is bounded by [len(plan.Phases)], so no 64-bit
        wrap-around can occur); a slice is a [list] (the code only takes
        [len], ranges and appends, so a nil slice and an empty one behave
        alike); a [map[string][]string] is an association list with distinct
        keys whose order stands for the order in which the Go runtime happens
        to range over it; a nil map is [None].
      - Pointers that the executor mutates are threaded as explicit state: the
        plan, the executor's checkpoint table and the outside world (clock,
        file system, commands run, requests sent to agents).
      - [manifest.FileStructure] may be the very map object of
        [plan.FileStructure] (SetExpectedStructure stores the reference): the
        manifest then holds [PlanStructure] and reads and writes go to the plan.
        It may also be a map of the manifest's own, or nil.
      - [plan.State.StartedAt] and [plan.State.CompletedAt] are pointers to
        times, and the state records the time each points to. Execute stores
        the address of its local variable [now] in both, and assigns [now]
        again between the two: the assignment changes the time a StartedAt
        set by the same call points to. No other code assigns through
        these pointers.
      - The world records what the program itself does: the files it writes
        with os.WriteFile, the directories it makes with os.MkdirAll, the
        commands it hands to bash. What a command then does to the file
        system is outside the model.
      - An executor is one NewExecutor has made: its checkpoint table is a
        map that is there. An agent's Execute and the planner's GenerateSync
        return a response or an error, never a nil response with a nil
        error. The plan handed to Execute is not a nil pointer.
      - A run-time panic (index out of range, write to a nil map) is the
        result [Panic].
      - Console output ([fmt.Printf]) is not modelled.
      - Functions of Go's standard library whose definition is not part of the
        repository (Unicode trimming, lexical path cleaning, regular
        expressions, the operating system, the text layer of encoding/json)
        are fields of a [Runtime] record over which every definition and
        theorem is parametric. *)

From Stdlib Require Import ZArith List String Ascii Bool Lia DecimalString DecimalZ DecimalPos Permutation.
Import ListNotations.
Open Scope string_scope.
Open Scope Z_scope.

(* ================================================================== *)
(** ** Strings: the byte-level functions of package [strings] *)

Module Strings.

Definition nl : string := String (ascii_of_nat 10) EmptyString.
Definition dq : string := String (ascii_of_nat 34) EmptyString.

(** strings.HasPrefix *)
Definition HasPrefix (s p : string) : bool := String.prefix p s.

(** strings.Contains *)
Fixpoint Contains (s sub : string) : bool :=
  String.prefix sub s ||
  match s with
  | EmptyString => false
  | String _ t => Contains t sub
  end.

(** strings.TrimSuffix *)
Fixpoint TrimSuffix (s suf : string) : string :=
  if String.eqb s suf then EmptyString
  else match s with
       | EmptyString => EmptyString
       | String c t => String c (TrimSuffix t suf)
       end.

(** strings.Split for a non-empty separator: [skip] counts the bytes of a
    separator just recognised that are still to be dropped, [cur] is the
    piece being read. *)
Fixpoint split_from (sep : string) (skip : nat) (cur s : string) : list string :=
  match s with
  | EmptyString => [cur]
  | String c t =>
      match skip with
      | S k => split_from sep k cur t
      | O =>
          if String.prefix sep s
          then cur :: split_from sep (String.length sep - 1) EmptyString t
          else split_from sep O (cur ++ String c EmptyString) t
      end
  end.

Definition Split (s sep : string) : list string := split_from sep O EmptyString s.

(** fmt's %d *)
Definition dec (z : Z) : string := NilZero.string_of_int (Z.to_int z).

End Strings.
Import Strings.

(* ================================================================== *)
(** ** Data model (plan_types.go, project_state.go) *)

Definition Time := Z.
Definition AgentType := string.

Definition PhaseStatus := string.
Definition PhaseStatusPending : PhaseStatus := "pending".
Definition PhaseStatusInProgress : PhaseStatus := "in_progress".
Definition PhaseStatusCompleted : PhaseStatus := "completed".
Definition PhaseStatusFailed : PhaseStatus := "failed".
Definition PhaseStatusSkipped : PhaseStatus := "skipped".

Definition ExecutionStatus := string.
Definition ExecutionStatusPending : ExecutionStatus := "pending".
Definition ExecutionStatusApproved : ExecutionStatus := "approved".
Definition ExecutionStatusRunning : ExecutionStatus := "running".
Definition ExecutionStatusCompleted : ExecutionStatus := "completed".
Definition ExecutionStatusFailed : ExecutionStatus := "failed".
Definition ExecutionStatusCancelled : ExecutionStatus := "cancelled".

Record Task := {
  Task_ID : string;
  Task_Description : string;
  Task_Completed : bool;
  Task_Result : string;
  Task_Error : string
}.

Record Phase := {
  Phase_ID : string;
  Phase_Name : string;
  Phase_Agent : AgentType;
  Phase_Tasks : list Task;
  Phase_SuccessCriteria : string;
  Phase_EstimatedTime : string;
  Phase_Dependencies : list string;
  Phase_Status : PhaseStatus
}.

Record ExecutionState := {
  State_Status : ExecutionStatus;
  CurrentPhase : Z;
  CompletedPhases : list Z;
  FailedPhases : list Z;
  LastCheckpoint : string;
  StartedAt : option Time;
  CompletedAt : option Time
}.

Record Checkpoint := {
  Checkpoint_ID : string;
  Checkpoint_PlanID : string;
  PhaseIndex : Z;
  Timestamp : Time;
  GitStash : string;
  Metadata : list (string * string)
}.

Record FileEntry := {
  Path : string;
  Entry_Phase : string;
  Purpose : string;
  Size : Z;
  Entry_CreatedAt : Time
}.

(** map[string][]string *)
Definition DirMap := list (string * list string).

(** Where a manifest's FileStructure lives: in the plan's own map object
    (after SetExpectedStructure(plan.FileStructure)) or in a map of its own;
    or it is nil (the zero value of the field). *)
Inductive MapRef :=
| PlanStructure
| OwnMap (m : DirMap)
| NilMap.

Record ProjectManifest := {
  ProjectName : string;
  BaseDir : string;
  CreatedFiles : list FileEntry;
  Manifest_FileStructure : MapRef
}.

Record ExecutionPlan := {
  ID : string;
  Title : string;
  Description : string;
  FileStructure : option DirMap;
  Phases : list Phase;
  State : ExecutionState;
  Manifest : option ProjectManifest;
  CreatedAt : Time;
  UpdatedAt : Time
}.

(** *** Field updates (Go assignments through a pointer) *)

Definition set_Completed_Result (t : Task) (r : string) : Task :=
  {| Task_ID := Task_ID t; Task_Description := Task_Description t;
     Task_Completed := true; Task_Result := r; Task_Error := Task_Error t |}.

Definition set_Phase_Status (p : Phase) (s : PhaseStatus) : Phase :=
  {| Phase_ID := Phase_ID p; Phase_Name := Phase_Name p; Phase_Agent := Phase_Agent p;
     Phase_Tasks := Phase_Tasks p; Phase_SuccessCriteria := Phase_SuccessCriteria p;
     Phase_EstimatedTime := Phase_EstimatedTime p;
     Phase_Dependencies := Phase_Dependencies p; Phase_Status := s |}.

Definition set_Phase_Tasks (p : Phase) (ts : list Task) : Phase :=
  {| Phase_ID := Phase_ID p; Phase_Name := Phase_Name p; Phase_Agent := Phase_Agent p;
     Phase_Tasks := ts; Phase_SuccessCriteria := Phase_SuccessCriteria p;
     Phase_EstimatedTime := Phase_EstimatedTime p;
     Phase_Dependencies := Phase_Dependencies p; Phase_Status := Phase_Status p |}.

Definition set_State_Status (s : ExecutionState) (v : ExecutionStatus) : ExecutionState :=
  {| State_Status := v; CurrentPhase := CurrentPhase s;
     CompletedPhases := CompletedPhases s; FailedPhases := FailedPhases s;
     LastCheckpoint := LastCheckpoint s; StartedAt := StartedAt s;
     CompletedAt := CompletedAt s |}.

Definition set_CurrentPhase (s : ExecutionState) (v : Z) : ExecutionState :=
  {| State_Status := State_Status s; CurrentPhase := v;
     CompletedPhases := CompletedPhases s; FailedPhases := FailedPhases s;
     LastCheckpoint := LastCheckpoint s; StartedAt := StartedAt s;
     CompletedAt := CompletedAt s |}.

Definition set_CompletedPhases (s : ExecutionState) (v : list Z) : ExecutionState :=
  {| State_Status := State_Status s; CurrentPhase := CurrentPhase s;
     CompletedPhases := v; FailedPhases := FailedPhases s;
     LastCheckpoint := LastCheckpoint s; StartedAt := StartedAt s;
     CompletedAt := CompletedAt s |}.

Definition set_FailedPhases (s : ExecutionState) (v : list Z) : ExecutionState :=
  {| State_Status := State_Status s; CurrentPhase := CurrentPhase s;
     CompletedPhases := CompletedPhases s; FailedPhases := v;
     LastCheckpoint := LastCheckpoint s; StartedAt := StartedAt s;
     CompletedAt := CompletedAt s |}.

Definition set_StartedAt (s : ExecutionState) (v : option Time) : ExecutionState :=
  {| State_Status := State_Status s; CurrentPhase := CurrentPhase s;
     CompletedPhases := CompletedPhases s; FailedPhases := FailedPhases s;
     LastCheckpoint := LastCheckpoint s; StartedAt := v;
     CompletedAt := CompletedAt s |}.

Definition set_CompletedAt (s : ExecutionState) (v : option Time) : ExecutionState :=
  {| State_Status := State_Status s; CurrentPhase := CurrentPhase s;
     CompletedPhases := CompletedPhases s; FailedPhases := FailedPhases s;
     LastCheckpoint := LastCheckpoint s; StartedAt := StartedAt s;
     CompletedAt := v |}.

Definition set_State (p : ExecutionPlan) (s : ExecutionState) : ExecutionPlan :=
  {| ID := ID p; Title := Title p; Description := Description p;
     FileStructure := FileStructure p; Phases := Phases p; State := s;
     Manifest := Manifest p; CreatedAt := CreatedAt p; UpdatedAt := UpdatedAt p |}.

Definition set_Phases (p : ExecutionPlan) (ps : list Phase) : ExecutionPlan :=
  {| ID := ID p; Title := Title p; Description := Description p;
     FileStructure := FileStructure p; Phases := ps; State := State p;
     Manifest := Manifest p; CreatedAt := CreatedAt p; UpdatedAt := UpdatedAt p |}.

Definition set_Manifest (p : ExecutionPlan) (m : option ProjectManifest) : ExecutionPlan :=
  {| ID := ID p; Title := Title p; Description := Description p;
     FileStructure := FileStructure p; Phases := Phases p; State := State p;
     Manifest := m; CreatedAt := CreatedAt p; UpdatedAt := UpdatedAt p |}.

Definition set_FileStructure (p : ExecutionPlan) (fs : option DirMap) : ExecutionPlan :=
  {| ID := ID p; Title := Title p; Description := Description p;
     FileStructure := fs; Phases := Phases p; State := State p;
     Manifest := Manifest p; CreatedAt := CreatedAt p; UpdatedAt := UpdatedAt p |}.

Definition set_CreatedFiles (m : ProjectManifest) (fs : list FileEntry) : ProjectManifest :=
  {| ProjectName := ProjectName m; BaseDir := BaseDir m; CreatedFiles := fs;
     Manifest_FileStructure := Manifest_FileStructure m |}.

Definition set_Manifest_FileStructure (m : ProjectManifest) (r : MapRef) : ProjectManifest :=
  {| ProjectName := ProjectName m; BaseDir := BaseDir m; CreatedFiles := CreatedFiles m;
     Manifest_FileStructure := r |}.

(** *** Slices and maps *)

(** [s[i]] for a Go int [i]: [None] is the index-out-of-range panic. *)
Definition index {A} (s : list A) (i : Z) : option A :=
  if i <? 0 then None else nth_error s (Z.to_nat i).

(** [s[i] = v] for an index in range. *)
Fixpoint store_nat {A} (s : list A) (n : nat) (v : A) : list A :=
  match s, n with
  | [], _ => []
  | _ :: r, O => v :: r
  | x :: r, S k => x :: store_nat r k v
  end.

Definition store {A} (s : list A) (i : Z) (v : A) : list A :=
  if i <? 0 then s else store_nat s (Z.to_nat i) v.

Definition len {A} (s : list A) : Z := Z.of_nat (List.length s).

(** [m[k]] (the zero value, an empty slice, when the key is absent). *)
Fixpoint map_get (m : DirMap) (k : string) : list string :=
  match m with
  | [] => []
  | (k', v) :: r => if String.eqb k' k then v else map_get r k
  end.

(** [m[k] = v] *)
Fixpoint map_set (m : DirMap) (k : string) (v : list string) : DirMap :=
  match m with
  | [] => [(k, v)]
  | (k', v') :: r => if String.eqb k' k then (k', v) :: r else (k', v') :: map_set r k v
  end.

(** The integers [lo], [lo+1], ..., [hi-1]: the values a loop
    [for i := lo; i < hi; i++] gives to [i]. *)
Definition range (lo hi : Z) : list Z :=
  map (fun k => lo + Z.of_nat k) (seq 0 (Z.to_nat (hi - lo))).

(* ================================================================== *)
(** ** The outside world and Go's run-time library *)

Record Request := {
  Request_ID : string;
  Query : string;
  Timeout : Z
}.

Record Response := {
  AgentName : string;
  Response_AgentType : AgentType;
  Answer : string
}.

(** A JSON document as encoding/json sees it between the Go value and the
    text: a time is a leaf of its own (Time.MarshalJSON prints it as an RFC
    3339 string, Time.UnmarshalJSON reads it back). *)
Unset Elimination Schemes.
Inductive JSON :=
| JNull
| JBool (b : bool)
| JNumber (z : Z)
| JString (s : string)
| JTime (t : Time)
| JArray (items : list JSON)
| JObject (members : list (string * JSON)).
Set Elimination Schemes.

(** What the executor can observe of, and do to, its environment. [files]
    and [dirs] hold what the program has written and made itself; a command
    is recorded as started, and what it does to files and directories is not
    followed. *)
Record World := {
  clock : Time;                       (* what time.Now() returns next *)
  files : list (string * string);     (* files written by os.WriteFile, latest first *)
  dirs : list string;                 (* directories made by os.MkdirAll *)
  ran : list string;                  (* commands handed to bash -c, oldest first *)
  asked : list Request                (* requests sent to agents, oldest first *)
}.

(** The library functions the code calls and the repository does not define.
    The failure of a system call is decided by the world's history. *)
Record Runtime := {
  TrimSpace : string -> string;                               (* strings.TrimSpace *)
  Clean : string -> string;                                   (* filepath.Clean *)
  Dir : string -> string;                                     (* filepath.Dir *)
  Base : string -> string;                                    (* filepath.Base *)
  FindAllStringSubmatch : string -> string -> list (list string);
                                       (* regexp.MustCompile(p).FindAllStringSubmatch(s, -1) *)
  MkdirAll_error : World -> string -> option string;          (* os.MkdirAll *)
  WriteFile_error : World -> string -> string -> option string; (* os.WriteFile *)
  Run_error : World -> string -> option string;               (* exec.Cmd.Run *)
  UserHomeDir : string;                                       (* os.UserHomeDir *)
  json_MarshalIndent : JSON -> string + string;
                         (* the text json.MarshalIndent(v, "", "  ") prints, or its error *)
  json_parse : string -> JSON + string
                         (* the document json.Unmarshal reads, or its syntax error *)
}.

(** An agent (interface Agent): its kind, and what Execute answers to a
    request in a given world, a response or an error. *)
Record Agent := {
  Agent_Name : string;
  Agent_Type : AgentType;
  Agent_Execute : World -> Request -> Response + string
}.

(** Executor: the orchestrator's agents in the order GetAgents lists them,
    and the checkpoint table. *)
Record Executor := {
  orchestrator : list Agent;
  checkpoints : list (string * Checkpoint)
}.

(** What a Go function leaves its caller with: a nil error, an error, or a
    panic unwinding the stack. *)
Inductive result :=
| Nil
| Err (msg : string)
| Panic.

(** A loop over [xs] whose body may return from the enclosing function:
    [None] is falling through to the next iteration. *)
Fixpoint for_each {A S : Type} (body : A -> S -> S * option result)
    (xs : list A) (s : S) : S * option result :=
  match xs with
  | [] => (s, None)
  | x :: r =>
      match body x s with
      | (s', None) => for_each body r s'
      | (s', Some res) => (s', Some res)
      end
  end.

Definition set_clock (w : World) (t : Time) : World :=
  {| clock := t; files := files w; dirs := dirs w; ran := ran w; asked := asked w |}.

(** time.Now() *)
Definition time_Now (w : World) : Time * World := (clock w, set_clock w (clock w + 1)).

Fixpoint lookup {V} (l : list (string * V)) (k : string) : option V :=
  match l with
  | [] => None
  | (k', v) :: r => if String.eqb k' k then Some v else lookup r k
  end.

(** os.Stat(path).Size(), when the file is there *)
Definition os_Stat (w : World) (path : string) : option Z :=
  match lookup (files w) path with
  | Some data => Some (Z.of_nat (String.length data))
  | None => None
  end.

(** os.ReadFile *)
Definition os_ReadFile (w : World) (path : string) : string + string :=
  match lookup (files w) path with
  | Some data => inl data
  | None => inr ("open " ++ path ++ ": no such file or directory")
  end.

Section WithRuntime.

Variable rt : Runtime.

Definition os_MkdirAll (w : World) (path : string) : World * option string :=
  match MkdirAll_error rt w path with
  | Some e => (w, Some e)
  | None => ({| clock := clock w; files := files w; dirs := path :: dirs w;
                ran := ran w; asked := asked w |}, None)
  end.

Definition os_WriteFile (w : World) (path data : string) : World * option string :=
  match WriteFile_error rt w path data with
  | Some e => (w, Some e)
  | None => ({| clock := clock w; files := (path, data) :: files w; dirs := dirs w;
                ran := ran w; asked := asked w |}, None)
  end.

(** exec.Command("bash", "-c", cmdStr).Run(): the command is started in
    either case. Only the start is recorded: [files] and [dirs] keep the
    program's own writes and say nothing of what the command did. *)
Definition cmd_Run (w : World) (cmdStr : string) : World * option string :=
  ({| clock := clock w; files := files w; dirs := dirs w;
      ran := ran w ++ [cmdStr]; asked := asked w |}, Run_error rt w cmdStr).

(** targetAgent.Execute(ctx, request) *)
Definition agent_call (a : Agent) (w : World) (req : Request) : World * (Response + string) :=
  ({| clock := clock w; files := files w; dirs := dirs w; ran := ran w;
      asked := asked w ++ [req] |}, Agent_Execute a w req).

(* ================================================================ *)
(** ** ProjectManifest (project_state.go) *)

Definition NewProjectManifest (projectName baseDir : string) : ProjectManifest :=
  {| ProjectName := projectName; BaseDir := baseDir; CreatedFiles := [];
     Manifest_FileStructure := OwnMap [] |}.

(** The map a manifest's FileStructure denotes; [None] is a nil map. *)
Definition structure_of (plan_fs : option DirMap) (m : ProjectManifest) : option DirMap :=
  match Manifest_FileStructure m with
  | PlanStructure => plan_fs
  | OwnMap d => Some d
  | NilMap => None
  end.

(** plan.Manifest.SetExpectedStructure(plan.FileStructure) *)
Definition SetExpectedStructure (m : ProjectManifest) : ProjectManifest :=
  set_Manifest_FileStructure m PlanStructure.

Fixpoint FileExists_in (fs : list FileEntry) (path : string) : bool :=
  match fs with
  | [] => false
  | f :: r => if String.eqb (Path f) path then true else FileExists_in r path
  end.

Definition FileExists (m : ProjectManifest) (path : string) : bool :=
  FileExists_in (CreatedFiles m) path.

(** m.AddFile(path, phase, purpose) for the manifest [m] of [plan]. The
    boolean is false when the assignment [m.FileStructure[dir] = ...] hits
    a nil map. *)
Definition AddFile (w : World) (plan : ExecutionPlan) (m : ProjectManifest)
    (path phase purpose : string) : World * ExecutionPlan * bool :=
  let size := match os_Stat w path with Some n => n | None => 0 end in
  let '(now, w1) := time_Now w in
  let m1 := set_CreatedFiles m
              (CreatedFiles m ++
               [{| Path := path; Entry_Phase := phase; Purpose := purpose;
                   Size := size; Entry_CreatedAt := now |}]) in
  let dir0 := Dir rt path in
  let dir := if String.eqb dir0 "" || String.eqb dir0 "." then BaseDir m else dir0 in
  match Manifest_FileStructure m with
  | OwnMap d =>
      let d' := map_set d dir (map_get d dir ++ [Base rt path]) in
      (w1, set_Manifest plan (Some (set_Manifest_FileStructure m1 (OwnMap d'))), true)
  | PlanStructure =>
      match FileStructure plan with
      | Some d =>
          let d' := map_set d dir (map_get d dir ++ [Base rt path]) in
          (w1, set_FileStructure (set_Manifest plan (Some m1)) (Some d'), true)
      | None => (w1, set_Manifest plan (Some m1), false)
      end
  | NilMap => (w1, set_Manifest plan (Some m1), false)
  end.

Definition GetCreatedFilesForContext (m : ProjectManifest) : string :=
  if len (CreatedFiles m) =? 0 then ""
  else fold_left
         (fun acc f => acc ++ "  - " ++ Path f ++ " (phase: " ++ Entry_Phase f ++ ")" ++ nl)
         (CreatedFiles m)
         ("ALREADY CREATED FILES (do NOT overwrite):" ++ nl).

Definition GetFileStructureForContext (plan_fs : option DirMap) (m : ProjectManifest) : string :=
  let d := match structure_of plan_fs m with Some d => d | None => [] end in
  if len d =? 0 then ""
  else fold_left
         (fun acc (e : string * list string) =>
            fold_left (fun acc2 f => acc2 ++ "    - " ++ f ++ nl) (snd e)
                      (acc ++ "  " ++ fst e ++ "/" ++ nl))
         d
         ("PROJECT FILE STRUCTURE:" ++ nl).

End WithRuntime.

(* ================================================================== *)
(** ** The executor *)

Section Executor.

Variable rt : Runtime.

(** NewExecutor *)
Definition NewExecutor (agents : list Agent) : Executor :=
  {| orchestrator := agents; checkpoints := [] |}.

(** isDangerousCommand *)
Definition dangerous : list string := ["rm -rf /"; "rm -rf ~"; ":(){ :|:& };:"].

Fixpoint contains_any (cmd : string) (ds : list string) : bool :=
  match ds with
  | [] => false
  | d :: r => if Contains cmd d then true else contains_any cmd r
  end.

Definition isDangerousCommand (cmd : string) : bool := contains_any cmd dangerous.

(** *** processFileBlocks *)

(** The two patterns, as the characters the Go string literals denote. *)
Definition patterns : list string :=
  [ "(?s)```(\w+)\s+([\w./-]+)\s*" ++ nl ++ "(.*?)```";
    "(?s)```(\w+)\s*" ++ nl ++ "#\s*([\w./-]+)\s*" ++ nl ++ "(.*?)```" ].

(** The variables the loops of processFileBlocks work on. *)
Definition FileState := (World * ExecutionPlan * list string)%type.

(** The body of [for _, match := range matches]. *)
Definition processFileMatch (phaseName : string) (mt : list string) (s : FileState)
    : FileState * option result :=
  let '(w, plan, filesCreated) := s in
  if len mt <? 4 then (s, None)
  else
    let filename := TrimSpace rt (nth 2 mt "") in
    let content := TrimSpace rt (nth 3 mt "") in
    if String.eqb content "" then (s, None)
    else
      let cleanPath := Clean rt filename in
      if HasPrefix cleanPath ".." || HasPrefix cleanPath "/" then (s, None)
      else if match Manifest plan with
              | Some m => FileExists m cleanPath
              | None => false
              end
      then (s, None)
      else
        let dir := Dir rt cleanPath in
        let '(w1, mkdirErr) :=
          if negb (String.eqb dir ".") && negb (String.eqb dir "")
          then os_MkdirAll rt w dir
          else (w, None) in
        match mkdirErr with
        | Some e =>
            ((w1, plan, filesCreated),
             Some (Err ("failed to create directory for " ++ filename ++ ": " ++ e)))
        | None =>
            match os_WriteFile rt w1 cleanPath content with
            | (w2, Some e) =>
                ((w2, plan, filesCreated),
                 Some (Err ("failed to write " ++ filename ++ ": " ++ e)))
            | (w2, None) =>
                match Manifest plan with
                | Some m =>
                    match AddFile rt w2 plan m cleanPath phaseName "" with
                    | (w3, plan3, true) => ((w3, plan3, (filesCreated ++ [cleanPath])%list), None)
                    | (w3, plan3, false) => ((w3, plan3, filesCreated), Some Panic)
                    end
                | None => ((w2, plan, (filesCreated ++ [cleanPath])%list), None)
                end
            end
        end.

(** The body of [for _, pattern := range patterns]. *)
Definition processFilePattern (response phaseName pattern : string) (s : FileState)
    : FileState * option result :=
  for_each (processFileMatch phaseName) (FindAllStringSubmatch rt pattern response) s.

(** processFileBlocks: the files created, the error returned, and what
    became of the world and the plan. *)
Definition processFileBlocks (response : string) (w : World) (plan : ExecutionPlan)
    (phaseName : string) : FileState * result :=
  match for_each (processFilePattern response phaseName) patterns (w, plan, []) with
  | (s, None) => (s, Nil)
  | (s, Some r) => (s, r)
  end.

(** *** processCommandBlocks *)

Definition commandPattern : string :=
  "(?m)^```(bash|sh|shell)\s*\n([\s\S]*?)^```".

Definition CommandState := (World * list string)%type.

(** The body of [for _, cmdStr := range lines]. *)
Definition processCommandLine (line : string) (s : CommandState)
    : CommandState * option result :=
  let '(w, commandsExecuted) := s in
  let cmdStr := TrimSpace rt line in
  if String.eqb cmdStr "" || HasPrefix cmdStr "#" then (s, None)
  else if isDangerousCommand cmdStr then (s, None)
  else
    match cmd_Run rt w cmdStr with
    | (w1, Some e) =>
        ((w1, commandsExecuted),
         Some (Err ("failed to execute '" ++ cmdStr ++ "': " ++ e)))
    | (w1, None) => ((w1, (commandsExecuted ++ [cmdStr])%list), None)
    end.

(** The body of [for _, match := range matches]. *)
Definition processCommandMatch (mt : list string) (s : CommandState)
    : CommandState * option result :=
  if len mt <? 3 then (s, None)
  else
    let script := TrimSpace rt (nth 2 mt "") in
    if String.eqb script "" then (s, None)
    else for_each processCommandLine (Split script nl) s.

Definition processCommandBlocks (response : string) (w : World) : CommandState * result :=
  match for_each processCommandMatch (FindAllStringSubmatch rt commandPattern response)
                 (w, []) with
  | (s, None) => (s, Nil)
  | (s, Some r) => (s, r)
  end.

(** *** buildPhaseQuery *)

Definition fileOutputFormat : string :=
  nl ++ nl ++
  "FILE OUTPUT FORMAT - You MUST use this EXACT format to create files:" ++ nl ++
  "```python ecommerce_api/routes/products.py" ++ nl ++
  "from fastapi import APIRouter" ++ nl ++
  "router = APIRouter()" ++ nl ++
  nl ++
  "@router.get(" ++ dq ++ "/products" ++ dq ++ ")" ++ nl ++
  "def list_products():" ++ nl ++
  "    return {" ++ dq ++ "products" ++ dq ++ ": []}" ++ nl ++
  "```" ++ nl ++
  nl ++
  "RULES:" ++ nl ++
  "1. Every code block MUST have the file path on the SAME LINE as the language" ++ nl ++
  "2. Include ACTUAL CODE in the block, not placeholders" ++ nl ++
  "3. Use FULL relative paths like: ecommerce_api/models/product.py" ++ nl ++
  "4. One file per code block" ++ nl.

Fixpoint taskLines (i : Z) (ts : list Task) : string :=
  match ts with
  | [] => ""
  | t :: r => dec (i + 1) ++ ". " ++ Task_Description t ++ nl ++ taskLines (i + 1) r
  end.

Definition buildPhaseQuery (plan : ExecutionPlan) (phase : Phase) : string :=
  ("Phase: " ++ Phase_Name phase ++ nl ++ nl) ++
  match Manifest plan with
  | Some m =>
      let structureCtx := GetFileStructureForContext (FileStructure plan) m in
      let filesCtx := GetCreatedFilesForContext m in
      (if String.eqb structureCtx "" then "" else structureCtx ++ nl) ++
      (if String.eqb filesCtx "" then "" else filesCtx ++ nl)
  | None => ""
  end ++
  ("Please complete the following tasks:" ++ nl ++ nl) ++
  taskLines 0 (Phase_Tasks phase) ++
  (nl ++ nl ++ "Success Criteria: " ++ Phase_SuccessCriteria phase ++ nl) ++
  fileOutputFormat.

(** *** initProjectStructure *)

Definition initProjectDir (e : string * list string) (w : World) : World * option result :=
  let dir := fst e in
  if String.eqb dir "." || String.eqb dir "" then (w, None)
  else
    let cleanDir := TrimSuffix dir "/" in
    match os_MkdirAll rt w cleanDir with
    | (w1, Some err) => (w1, Some (Err ("failed to create " ++ cleanDir ++ ": " ++ err)))
    | (w1, None) => (w1, None)
    end.

Definition initProjectStructure (w : World) (plan : ExecutionPlan) : World * result :=
  match FileStructure plan with
  | None => (w, Nil)
  | Some d =>
      if len d =? 0 then (w, Nil)
      else match for_each initProjectDir d w with
           | (w1, None) => (w1, Nil)
           | (w1, Some r) => (w1, r)
           end
  end.

(** *** areDependenciesMet *)

(** The inner loop over plan.State.CompletedPhases; [None] is the panic of
    [plan.Phases[completedIdx]] out of range. *)
Fixpoint depCompleted (phases : list Phase) (completed : list Z) (depID : string)
    : option bool :=
  match completed with
  | [] => Some false
  | completedIdx :: r =>
      match index phases completedIdx with
      | None => None
      | Some completedPhase =>
          if String.eqb (Phase_ID completedPhase) depID
             || String.eqb (Phase_Name completedPhase) depID
          then Some true
          else depCompleted phases r depID
      end
  end.

Fixpoint allDepsCompleted (phases : list Phase) (completed : list Z) (deps : list string)
    : option bool :=
  match deps with
  | [] => Some true
  | depID :: r =>
      match depCompleted phases completed depID with
      | None => None
      | Some false => Some false
      | Some true => allDepsCompleted phases completed r
      end
  end.

Definition areDependenciesMet (plan : ExecutionPlan) (phase : Phase) : option bool :=
  if len (Phase_Dependencies phase) =? 0 then Some true
  else allDepsCompleted (Phases plan) (CompletedPhases (State plan))
                        (Phase_Dependencies phase).

(** *** createCheckpoint, rollback *)

Fixpoint table_set {V} (m : list (string * V)) (k : string) (v : V) : list (string * V) :=
  match m with
  | [] => [(k, v)]
  | (k', v') :: r => if String.eqb k' k then (k', v) :: r else (k', v') :: table_set r k v
  end.

Definition createCheckpoint (e : Executor) (w : World) (planID : string) (phaseIndex : Z)
    : Executor * World * Checkpoint * option string :=
  let '(now, w1) := time_Now w in
  let checkpoint :=
    {| Checkpoint_ID := "checkpoint-" ++ planID ++ "-phase-" ++ dec phaseIndex;
       Checkpoint_PlanID := planID; PhaseIndex := phaseIndex; Timestamp := now;
       GitStash := ""; Metadata := [] |} in
  ({| orchestrator := orchestrator e;
      checkpoints := table_set (checkpoints e) (Checkpoint_ID checkpoint) checkpoint |},
   w1, checkpoint, None).

Definition rollback (checkpoint : Checkpoint) : option string := None.

(** *** executePhase *)

(** [phase.f = v] for the pointer [phase := &plan.Phases[i]] *)
Definition update_phase (plan : ExecutionPlan) (i : Z) (f : Phase -> Phase) : ExecutionPlan :=
  match index (Phases plan) i with
  | Some ph => set_Phases plan (store (Phases plan) i (f ph))
  | None => plan
  end.

Fixpoint find_agent (agents : list Agent) (t : AgentType) : option Agent :=
  match agents with
  | [] => None
  | a :: r => if String.eqb (Agent_Type a) t then Some a else find_agent r t
  end.

(** executePhase(ctx, plan, &plan.Phases[i]) *)
Definition executePhase (e : Executor) (w : World) (plan : ExecutionPlan) (i : Z)
    : World * ExecutionPlan * result :=
  let plan1 := update_phase plan i (fun ph => set_Phase_Status ph PhaseStatusInProgress) in
  match index (Phases plan1) i with
  | None => (w, plan1, Panic)
  | Some phase =>
      match find_agent (orchestrator e) (Phase_Agent phase) with
      | None => (w, plan1, Err ("agent " ++ Phase_Agent phase ++ " not found"))
      | Some targetAgent =>
          let query := buildPhaseQuery plan1 phase in
          let request :=
            {| Request_ID := ID plan1 ++ "-phase-" ++ Phase_ID phase;
               Query := query;
               Timeout := 10 * 60000000000 |} in
          match agent_call targetAgent w request with
          | (w1, inr err) => (w1, plan1, Err err)
          | (w1, inl response) =>
              match processFileBlocks (Answer response) w1 plan1 (Phase_Name phase) with
              | (s2, Panic) => (fst (fst s2), snd (fst s2), Panic)
              | ((w2, plan2, filesCreated), _) =>
                  match processCommandBlocks (Answer response) w2 with
                  | ((w3, _), Panic) => (w3, plan2, Panic)
                  | ((w3, commandsExecuted), _) =>
                      (w3,
                       update_phase plan2 i
                         (fun ph => set_Phase_Tasks ph
                            (map (fun t => set_Completed_Result t (Answer response))
                                 (Phase_Tasks ph))),
                       Nil)
                  end
              end
          end
      end
  end.

(** *** Execute *)

(** The objects Execute works on. *)
Record Machine := {
  executor : Executor;
  world : World;
  plan : ExecutionPlan
}.

Definition update_State (p : ExecutionPlan) (f : ExecutionState -> ExecutionState)
    : ExecutionPlan := set_State p (f (State p)).

(** The body of [for i := plan.State.CurrentPhase; i < len(plan.Phases); i++]. *)
Definition runPhase (i : Z) (m : Machine) : Machine * option result :=
  match index (Phases (plan m)) i with
  | None => (m, Some Panic)
  | Some phase =>
      match areDependenciesMet (plan m) phase with
      | None => (m, Some Panic)
      | Some false => (m, Some (Err ("dependencies not met for phase " ++ Phase_Name phase)))
      | Some true =>
          match createCheckpoint (executor m) (world m) (ID (plan m)) i with
          | (e1, w1, checkpoint, Some err) =>
              ({| executor := e1; world := w1; plan := plan m |},
               Some (Err ("failed to create checkpoint: " ++ err)))
          | (e1, w1, checkpoint, None) =>
              match executePhase e1 w1 (plan m) i with
              | (w2, plan2, Panic) =>
                  ({| executor := e1; world := w2; plan := plan2 |}, Some Panic)
              | (w2, plan2, Err err) =>
                  match rollback checkpoint with
                  | Some rollbackErr =>
                      ({| executor := e1; world := w2; plan := plan2 |},
                       Some (Err ("phase failed and rollback failed: " ++ rollbackErr)))
                  | None =>
                      let plan3 :=
                        update_State plan2 (fun s => set_State_Status s ExecutionStatusFailed) in
                      let plan4 :=
                        update_State plan3
                          (fun s => set_FailedPhases s (FailedPhases s ++ [i])%list) in
                      ({| executor := e1; world := w2; plan := plan4 |},
                       Some (Err ("phase " ++ dec (i + 1) ++ " failed: " ++ err)))
                  end
              | (w2, plan2, Nil) =>
                  let plan3 :=
                    update_State plan2
                      (fun s => set_CompletedPhases s (CompletedPhases s ++ [i])%list) in
                  let plan4 := update_State plan3 (fun s => set_CurrentPhase s (i + 1)) in
                  let plan5 :=
                    update_phase plan4 i
                      (fun ph => set_Phase_Status ph PhaseStatusCompleted) in
                  ({| executor := e1; world := w2; plan := plan5 |}, None)
              end
          end
      end
  end.

(** Execute up to the phase loop: status, StartedAt, CurrentPhase, the
    manifest, the project directories. *)
Definition startup (m : Machine) : Machine :=
  let '(now, w1) := time_Now (world m) in
  let p1 := update_State (plan m) (fun s => set_State_Status s ExecutionStatusRunning) in
  let p2 := match StartedAt (State p1) with
            | None => update_State p1 (fun s => set_StartedAt s (Some now))
            | Some _ => p1
            end in
  let p3 := if CurrentPhase (State p2) <? 0
            then update_State p2 (fun s => set_CurrentPhase s 0)
            else p2 in
  let p4 := match Manifest p3 with
            | None =>
                let mf := NewProjectManifest (Title p3) "." in
                match FileStructure p3 with
                | Some _ => set_Manifest p3 (Some (SetExpectedStructure mf))
                | None => set_Manifest p3 (Some mf)
                end
            | Some _ => p3
            end in
  let '(w2, _) := initProjectStructure w1 p4 in
  {| executor := executor m; world := w2; plan := p4 |}.

(** Execute after the phase loop: [now = time.Now()], the status and
    [CompletedAt = &now]. [started_here] says that StartedAt holds [&now]
    too, the call having found it nil: the time it points to is then the
    one just assigned. *)
Definition finish (started_here : bool) (m : Machine) : Machine :=
  let '(now, w1) := time_Now (world m) in
  let p0 := if started_here
            then update_State (plan m) (fun s => set_StartedAt s (Some now))
            else plan m in
  let p1 := update_State p0 (fun s => set_State_Status s ExecutionStatusCompleted) in
  let p2 := update_State p1 (fun s => set_CompletedAt s (Some now)) in
  {| executor := executor m; world := w1; plan := p2 |}.

(** The phase loop, over the values [i] takes. *)
Definition phaseLoop (m : Machine) : Machine * option result :=
  for_each runPhase
    (range (CurrentPhase (State (plan m))) (len (Phases (plan m)))) m.

(** Executor.Execute(ctx, plan) *)
Definition Execute (m : Machine) : Machine * result :=
  let started_here := match StartedAt (State (plan m)) with
                      | None => true      (* StartedAt = &now *)
                      | Some _ => false
                      end in
  match phaseLoop (startup m) with
  | (m1, Some r) => (m1, r)
  | (m1, None) =>
      let m2 := finish started_here m1 in
      match StartedAt (State (plan m2)) with
      | None => (m2, Panic)            (* *plan.State.StartedAt *)
      | Some _ =>                      (* time.Since reads the clock *)
          ({| executor := executor m2; world := snd (time_Now (world m2));
              plan := plan m2 |}, Nil)
      end
  end.

End Executor.

(* ================================================================== *)
(** ** Plan state files (SavePlanState, LoadPlanState) *)

(** *** The Go value as a JSON document, by the struct tags of plan_types.go

    A slice is written as an array (a nil slice, which the model does not
    tell from an empty one, is written null and read back as nil). A map is
    written with its keys sorted; the order of the members does not matter to
    the reader and the order of a [DirMap] stands for an unspecified iteration
    order, so the members are listed in the order of the [DirMap]. *)

Definition omitempty (empty : bool) (k : string) (v : JSON) : list (string * JSON) :=
  if empty then [] else [(k, v)].

Definition marshal_strings (l : list string) : JSON := JArray (map JString l).

Definition marshal_ints (l : list Z) : JSON := JArray (map JNumber l).

Definition marshal_Task (t : Task) : JSON :=
  JObject ([("id", JString (Task_ID t));
            ("description", JString (Task_Description t));
            ("completed", JBool (Task_Completed t))]
           ++ omitempty (String.eqb (Task_Result t) "") "result" (JString (Task_Result t))
           ++ omitempty (String.eqb (Task_Error t) "") "error" (JString (Task_Error t)))%list.

Definition marshal_Phase (ph : Phase) : JSON :=
  JObject [("id", JString (Phase_ID ph));
           ("name", JString (Phase_Name ph));
           ("agent", JString (Phase_Agent ph));
           ("tasks", JArray (map marshal_Task (Phase_Tasks ph)));
           ("success_criteria", JString (Phase_SuccessCriteria ph));
           ("estimated_time", JString (Phase_EstimatedTime ph));
           ("dependencies", marshal_strings (Phase_Dependencies ph));
           ("status", JString (Phase_Status ph))].

Definition marshal_time_ptr (k : string) (t : option Time) : list (string * JSON) :=
  match t with
  | Some v => [(k, JTime v)]
  | None => []
  end.

Definition marshal_ExecutionState (s : ExecutionState) : JSON :=
  JObject ([("status", JString (State_Status s));
            ("current_phase", JNumber (CurrentPhase s));
            ("completed_phases", marshal_ints (CompletedPhases s));
            ("failed_phases", marshal_ints (FailedPhases s))]
           ++ omitempty (String.eqb (LastCheckpoint s) "") "last_checkpoint"
                        (JString (LastCheckpoint s))
           ++ marshal_time_ptr "started_at" (StartedAt s)
           ++ marshal_time_ptr "completed_at" (CompletedAt s))%list.

Definition marshal_DirMap (d : DirMap) : JSON :=
  JObject (map (fun e => (fst e, marshal_strings (snd e))) d).

(** The manifest has the tag "-" and is left out. *)
Definition marshal_ExecutionPlan (p : ExecutionPlan) : JSON :=
  JObject ([("id", JString (ID p));
            ("title", JString (Title p));
            ("description", JString (Description p))]
           ++ match FileStructure p with
              | Some d => omitempty (len d =? 0) "file_structure" (marshal_DirMap d)
              | None => []
              end
           ++ [("phases", JArray (map marshal_Phase (Phases p)));
               ("state", marshal_ExecutionState (State p));
               ("created_at", JTime (CreatedAt p));
               ("updated_at", JTime (UpdatedAt p))])%list.

(** *** Reading a document into a fresh Go value

    [None] is an error of json.Unmarshal. A member that is absent or null
    leaves the zero value. (Unmarshal also accepts member names that differ
    in case from the tag; the documents written above have none.) *)

Definition bind {A B} (x : option A) (f : A -> option B) : option B :=
  match x with
  | Some a => f a
  | None => None
  end.

Notation "'do' x <- e ; k" := (bind e (fun x => k))
  (at level 10, x name, e at level 100, k at level 200).

Definition is_int (z : Z) : bool := (- 2 ^ 63 <=? z) && (z <? 2 ^ 63).

Definition dec_string (j : option JSON) : option string :=
  match j with
  | None | Some JNull => Some ""
  | Some (JString s) => Some s
  | _ => None
  end.

Definition dec_bool (j : option JSON) : option bool :=
  match j with
  | None | Some JNull => Some false
  | Some (JBool b) => Some b
  | _ => None
  end.

Definition dec_int (j : option JSON) : option Z :=
  match j with
  | None | Some JNull => Some 0
  | Some (JNumber z) => if is_int z then Some z else None
  | _ => None
  end.

(** The zero time.Time is instant 0. *)
Definition dec_time (j : option JSON) : option Time :=
  match j with
  | None | Some JNull => Some 0
  | Some (JTime t) => Some t
  | _ => None
  end.

Definition dec_time_ptr (j : option JSON) : option (option Time) :=
  match j with
  | None | Some JNull => Some None
  | Some (JTime t) => Some (Some t)
  | _ => None
  end.

Fixpoint dec_items {A} (f : option JSON -> option A) (items : list JSON) : option (list A) :=
  match items with
  | [] => Some []
  | x :: r => do a <- f (Some x); do l <- dec_items f r; Some (a :: l)
  end.

Definition dec_list {A} (f : option JSON -> option A) (j : option JSON) : option (list A) :=
  match j with
  | None | Some JNull => Some []
  | Some (JArray items) => dec_items f items
  | _ => None
  end.

Fixpoint dec_members (ms : list (string * JSON)) (acc : DirMap) : option DirMap :=
  match ms with
  | [] => Some acc
  | (k, v) :: r => do l <- dec_list dec_string (Some v); dec_members r (map_set acc k l)
  end.

Definition dec_DirMap (j : option JSON) : option (option DirMap) :=
  match j with
  | None | Some JNull => Some None
  | Some (JObject ms) => do d <- dec_members ms []; Some (Some d)
  | _ => None
  end.

Definition zero_Task : Task :=
  {| Task_ID := ""; Task_Description := ""; Task_Completed := false;
     Task_Result := ""; Task_Error := "" |}.

Definition dec_Task (j : option JSON) : option Task :=
  match j with
  | None | Some JNull => Some zero_Task
  | Some (JObject o) =>
      do id <- dec_string (lookup o "id");
      do description <- dec_string (lookup o "description");
      do completed <- dec_bool (lookup o "completed");
      do result <- dec_string (lookup o "result");
      do error <- dec_string (lookup o "error");
      Some {| Task_ID := id; Task_Description := description; Task_Completed := completed;
              Task_Result := result; Task_Error := error |}
  | _ => None
  end.

Definition zero_Phase : Phase :=
  {| Phase_ID := ""; Phase_Name := ""; Phase_Agent := ""; Phase_Tasks := [];
     Phase_SuccessCriteria := ""; Phase_EstimatedTime := ""; Phase_Dependencies := [];
     Phase_Status := "" |}.

Definition dec_Phase (j : option JSON) : option Phase :=
  match j with
  | None | Some JNull => Some zero_Phase
  | Some (JObject o) =>
      do id <- dec_string (lookup o "id");
      do name <- dec_string (lookup o "name");
      do agent <- dec_string (lookup o "agent");
      do tasks <- dec_list dec_Task (lookup o "tasks");
      do criteria <- dec_string (lookup o "success_criteria");
      do estimated <- dec_string (lookup o "estimated_time");
      do dependencies <- dec_list dec_string (lookup o "dependencies");
      do status <- dec_string (lookup o "status");
      Some {| Phase_ID := id; Phase_Name := name; Phase_Agent := agent; Phase_Tasks := tasks;
              Phase_SuccessCriteria := criteria; Phase_EstimatedTime := estimated;
              Phase_Dependencies := dependencies; Phase_Status := status |}
  | _ => None
  end.

Definition zero_ExecutionState : ExecutionState :=
  {| State_Status := ""; CurrentPhase := 0; CompletedPhases := []; FailedPhases := [];
     LastCheckpoint := ""; StartedAt := None; CompletedAt := None |}.

Definition dec_ExecutionState (j : option JSON) : option ExecutionState :=
  match j with
  | None | Some JNull => Some zero_ExecutionState
  | Some (JObject o) =>
      do status <- dec_string (lookup o "status");
      do current <- dec_int (lookup o "current_phase");
      do completed <- dec_list dec_int (lookup o "completed_phases");
      do failed <- dec_list dec_int (lookup o "failed_phases");
      do checkpoint <- dec_string (lookup o "last_checkpoint");
      do started <- dec_time_ptr (lookup o "started_at");
      do finished <- dec_time_ptr (lookup o "completed_at");
      Some {| State_Status := status; CurrentPhase := current; CompletedPhases := completed;
              FailedPhases := failed; LastCheckpoint := checkpoint; StartedAt := started;
              CompletedAt := finished |}
  | _ => None
  end.

Definition zero_ExecutionPlan : ExecutionPlan :=
  {| ID := ""; Title := ""; Description := ""; FileStructure := None; Phases := [];
     State := zero_ExecutionState; Manifest := None; CreatedAt := 0; UpdatedAt := 0 |}.

(** json.Unmarshal(data, &plan) for [var plan ExecutionPlan] *)
Definition unmarshal_ExecutionPlan (j : JSON) : option ExecutionPlan :=
  match j with
  | JNull => Some zero_ExecutionPlan
  | JObject o =>
      do id <- dec_string (lookup o "id");
      do title <- dec_string (lookup o "title");
      do description <- dec_string (lookup o "description");
      do structure <- dec_DirMap (lookup o "file_structure");
      do phases <- dec_list dec_Phase (lookup o "phases");
      do state <- dec_ExecutionState (lookup o "state");
      do created <- dec_time (lookup o "created_at");
      do updated <- dec_time (lookup o "updated_at");
      Some {| ID := id; Title := title; Description := description;
              FileStructure := structure; Phases := phases; State := state;
              Manifest := None; CreatedAt := created; UpdatedAt := updated |}
  | _ => None
  end.

Section PlanState.

Variable rt : Runtime.

(** ApprovalWorkflow.SavePlanState *)
Definition SavePlanState (w : World) (plan : ExecutionPlan) : World * option string :=
let homeDir := UserHomeDir rt in
let stateDir := homeDir ++ "/.quantumflow/state" in
let '(w1, _) := os_MkdirAll rt w stateDir in
let stateFile := stateDir ++ "/" ++ ID plan ++ ".json" in
match json_MarshalIndent rt (marshal_ExecutionPlan plan) with
| inr err => (w1, Some err)
| inl data => os_WriteFile rt w1 stateFile data
end.

(** ApprovalWorkflow.LoadPlanState *)
Definition LoadPlanState (w : World) (planID : string) : ExecutionPlan + string :=
let homeDir := UserHomeDir rt in
let stateFile := homeDir ++ "/.quantumflow/state/" ++ planID ++ ".json" in
match os_ReadFile w stateFile with
| inr err => inr err
| inl data =>
    match json_parse rt data with
    | inr err => inr err
    | inl j =>
        match unmarshal_ExecutionPlan j with
        | None => inr "json: cannot unmarshal into Go value of type agent.ExecutionPlan"
        | Some plan => inl plan
        end
    end
end.

End PlanState.

(* ================================================================== *)
(** ** A concrete runtime, for running the model on examples *)

Module Scenario.

(** ASCII white space: tab, line feed, vertical tab, form feed, carriage
    return, space. *)
Definition isSpace (c : ascii) : bool :=
  let n := nat_of_ascii c in
  ((9 <=? n)%nat && (n <=? 13)%nat) || (n =? 32)%nat.

Fixpoint trimLeft (s : string) : string :=
  match s with
  | EmptyString => EmptyString
  | String c t => if isSpace c then trimLeft t else s
  end.

Fixpoint trimRight (s : string) : string :=
  match s with
  | EmptyString => EmptyString
  | String c t =>
      match trimRight t with
      | EmptyString => if isSpace c then EmptyString else String c EmptyString
      | t' => String c t'
      end
  end.

(** strings.TrimSpace on strings whose white space is ASCII. *)
Definition trimSpace (s : string) : string := trimRight (trimLeft s).

(** What precedes and what follows the last slash of a path. *)
Fixpoint splitLast (s : string) : option (string * string) :=
  match s with
  | EmptyString => None
  | String c t =>
      match splitLast t with
      | Some (d, b) => Some (String c d, b)
      | None => if Ascii.eqb c "/" then Some (EmptyString, t) else None
      end
  end.

(** filepath.Dir and filepath.Base on clean relative paths. *)
Definition dir (p : string) : string :=
  match splitLast p with
  | Some (d, _) => d
  | None => "."
  end.

Definition base (p : string) : string :=
  match splitLast p with
  | Some (_, b) => b
  | None => p
  end.

(** A regular-expression engine given by its table: the matches of each
    (pattern, subject) pair that occurs, none elsewhere. *)
Fixpoint matches_of (tbl : list (string * string * list (list string)))
    (pattern subject : string) : list (list string) :=
  match tbl with
  | [] => []
  | (p, s, ms) :: r =>
      if String.eqb p pattern && String.eqb s subject then ms
      else matches_of r pattern subject
  end.

(** A runtime: [filepath.Clean] is the identity (right on paths that are
    already clean, the only ones used below); system calls fail on the
    listed paths and commands. *)
Definition runtime (tbl : list (string * string * list (list string)))
    (badDirs badFiles badCommands : list string) : Runtime :=
  {| TrimSpace := trimSpace;
     Clean := fun p => p;
     Dir := dir;
     Base := base;
     FindAllStringSubmatch := matches_of tbl;
     MkdirAll_error := fun _ p =>
       if existsb (String.eqb p) badDirs then Some "permission denied" else None;
     WriteFile_error := fun _ p _ =>
       if existsb (String.eqb p) badFiles then Some "permission denied" else None;
     Run_error := fun _ c =>
       if existsb (String.eqb c) badCommands then Some "exit status 1" else None;
     UserHomeDir := "/home/user";
     json_MarshalIndent := fun _ => inr "json: unsupported value";
     json_parse := fun _ => inr "unexpected end of JSON input" |}.

(** The same runtime with a JSON text layer that knows one document, [doc],
    and its text. *)
Definition with_document (rt : Runtime) (doc : JSON) (text : string) : Runtime :=
  {| TrimSpace := TrimSpace rt; Clean := Clean rt; Dir := Dir rt; Base := Base rt;
     FindAllStringSubmatch := FindAllStringSubmatch rt;
     MkdirAll_error := MkdirAll_error rt; WriteFile_error := WriteFile_error rt;
     Run_error := Run_error rt; UserHomeDir := UserHomeDir rt;
     json_MarshalIndent := fun _ => inl text;
     json_parse := fun s =>
       if String.eqb s text then inl doc else inr "invalid character" |}.

Definition world0 : World :=
  {| clock := 1000; files := []; dirs := []; ran := []; asked := [] |}.

(** An agent of kind code that answers every request with [answer]. *)
Definition stub (answer : string) : Agent :=
  {| Agent_Name := "CodeAgent"; Agent_Type := "code";
     Agent_Execute := fun _ _ =>
       inl {| AgentName := "CodeAgent"; Response_AgentType := "code"; Answer := answer |} |}.

(** An agent whose first call is cancelled and whose later calls answer. *)
Definition flaky (answer : string) : Agent :=
  {| Agent_Name := "CodeAgent"; Agent_Type := "code";
     Agent_Execute := fun w _ =>
       match asked w with
       | [] => inr "context canceled"
       | _ => inl {| AgentName := "CodeAgent"; Response_AgentType := "code";
                     Answer := answer |}
       end |}.

Definition state0 : ExecutionState :=
  {| State_Status := ExecutionStatusPending; CurrentPhase := 0;
     CompletedPhases := []; FailedPhases := []; LastCheckpoint := "";
     StartedAt := None; CompletedAt := None |}.

Definition task (id description : string) : Task :=
  {| Task_ID := id; Task_Description := description; Task_Completed := false;
     Task_Result := ""; Task_Error := "" |}.

Definition phase (id name : string) (deps : list string) : Phase :=
  {| Phase_ID := id; Phase_Name := name; Phase_Agent := "code";
     Phase_Tasks := [task "t" "echo"]; Phase_SuccessCriteria := "";
     Phase_EstimatedTime := ""; Phase_Dependencies := deps;
     Phase_Status := PhaseStatusPending |}.

Definition plan_of (phases : list Phase) : ExecutionPlan :=
  {| ID := "p1"; Title := "demo"; Description := ""; FileStructure := None;
     Phases := phases; State := state0; Manifest := None;
     CreatedAt := 0; UpdatedAt := 0 |}.

Definition machine (a : Agent) (p : ExecutionPlan) : Machine :=
  {| executor := NewExecutor [a]; world := world0; plan := p |}.

Definition fence : string := "```".

End Scenario.

(* ================================================================== *)
(** ** The vocabulary of the properties *)

(** File extraction touches the manifest and the file structure only. *)
Definition same_core (p p' : ExecutionPlan) : Prop :=
  State p' = State p /\ Phases p' = Phases p /\ ID p' = ID p.

(** The state after phase [i] completed, and after it failed. *)
Definition state_completed (s : ExecutionState) (i : Z) : ExecutionState :=
  set_CurrentPhase (set_CompletedPhases s (CompletedPhases s ++ [i])%list) (i + 1).

Definition state_failed (s : ExecutionState) (i : Z) : ExecutionState :=
  set_FailedPhases (set_State_Status s ExecutionStatusFailed) (FailedPhases s ++ [i])%list.

(** The ways an iteration can go. *)
Inductive runPhase_case (i : Z) (m m' : Machine) (r : option result) : Prop :=
| rp_index_panic :
    index (Phases (plan m)) i = None -> m' = m -> r = Some Panic ->
    runPhase_case i m m' r
| rp_deps_panic ph :
    index (Phases (plan m)) i = Some ph ->
    areDependenciesMet (plan m) ph = None -> m' = m -> r = Some Panic ->
    runPhase_case i m m' r
| rp_deps_unmet ph :
    index (Phases (plan m)) i = Some ph ->
    areDependenciesMet (plan m) ph = Some false -> m' = m ->
    r = Some (Err ("dependencies not met for phase " ++ Phase_Name ph)) ->
    runPhase_case i m m' r
| rp_ran ph ph' :
    index (Phases (plan m)) i = Some ph ->
    areDependenciesMet (plan m) ph = Some true ->
    ID (plan m') = ID (plan m) ->
    orchestrator (executor m') = orchestrator (executor m) ->
    Phases (plan m') = store (Phases (plan m)) i ph' ->
    Phase_ID ph' = Phase_ID ph -> Phase_Name ph' = Phase_Name ph ->
    Phase_Dependencies ph' = Phase_Dependencies ph ->
    (r = None /\ State (plan m') = state_completed (State (plan m)) i /\
     Phase_Status ph' = PhaseStatusCompleted
     \/ (exists err, r = Some (Err ("phase " ++ dec (i + 1) ++ " failed: " ++ err))) /\
        State (plan m') = state_failed (State (plan m)) i /\
        ph' = set_Phase_Status ph PhaseStatusInProgress
     \/ r = Some Panic /\ State (plan m') = State (plan m) /\
        Phase_Status ph' = PhaseStatusInProgress) ->
    runPhase_case i m m' r.

(** The state after Execute's start-up, entered at time [now]. *)
Definition state_started (s : ExecutionState) (now : Time) : ExecutionState :=
  {| State_Status := ExecutionStatusRunning;
     CurrentPhase := Z.max 0 (CurrentPhase s);
     CompletedPhases := CompletedPhases s;
     FailedPhases := FailedPhases s;
     LastCheckpoint := LastCheckpoint s;
     StartedAt := match StartedAt s with Some t => Some t | None => Some now end;
     CompletedAt := CompletedAt s |}.

(** Every index in completedPhases and failedPhases is an index of phases. *)
Definition valid_indices (p : ExecutionPlan) : Prop :=
  forall i, In i (CompletedPhases (State p) ++ FailedPhases (State p))%list ->
            0 <= i < len (Phases p).

(** completedPhases and failedPhases share no index. *)
Definition disjoint_lists (p : ExecutionPlan) : Prop :=
  forall i, In i (CompletedPhases (State p)) -> In i (FailedPhases (State p)) -> False.

(** Every recorded index is below [c]. *)
Definition indices_below (c : Z) (p : ExecutionPlan) : Prop :=
  forall i, In i (CompletedPhases (State p) ++ FailedPhases (State p))%list -> i < c.

(** The machine states a call of Execute on [m] goes through: after start-up
    and after each iteration of the phase loop ([k] iterations, or fewer when
    the loop has returned before), and the state it returns with. (Within an
    iteration the two index lists change once, by the append that ends it.) *)
Inductive observable (rt : Runtime) (m : Machine) : Machine -> Prop :=
| obs_loop (k : nat) :
    observable rt m
      (fst (for_each (runPhase rt)
              (firstn k (range (CurrentPhase (State (plan (startup rt m))))
                               (len (Phases (plan (startup rt m))))))
              (startup rt m)))
| obs_returned : observable rt m (fst (Execute rt m)).

(** Machine states reached by calling Execute again and again, each call on a
    state of the previous one (its final state, or an earlier one when the
    process was interrupted and the plan reloaded), under any runtime. *)
Inductive runs (m : Machine) : Machine -> Prop :=
| runs_none : runs m m
| runs_more rt m1 m2 : runs m m1 -> observable rt m1 m2 -> runs m m2.

(** [l] is [c], [c+1], [c+2], ... *)
Fixpoint consecutive_from (c : Z) (l : list Z) : Prop :=
  match l with
  | [] => True
  | x :: r => x = c /\ consecutive_from (c + 1) r
  end.

(** The path test of processFileBlocks. *)
Definition unsafe_path (p : string) : bool := HasPrefix p ".." || HasPrefix p "/".

(** manifest.CreatedFiles, empty when there is no manifest. *)
Definition created (p : ExecutionPlan) : list FileEntry :=
  match Manifest p with
  | Some m => CreatedFiles m
  | None => []
  end.

(** [w'] is [w] with more files written, all at safe paths, and more commands
    run, none of them dangerous. *)
Definition world_ext (w w' : World) : Prop :=
  (exists nf, files w' = (nf ++ files w)%list /\
              Forall (fun f => unsafe_path (fst f) = false) nf) /\
  (exists nc, ran w' = (ran w ++ nc)%list /\
              Forall (fun c => isDangerousCommand c = false) nc).

(** [p'] is [p] with more entries in the manifest, at safe paths that differ
    from one another and from the paths recorded in [p]. *)
Definition manifest_ext (p p' : ExecutionPlan) : Prop :=
  exists ne, created p' = (created p ++ ne)%list /\
             NoDup (map Path ne) /\
             Forall (fun e => FileExists_in (created p) (Path e) = false /\
                              unsafe_path (Path e) = false) ne.

(** The relation of the two extensions, on the variables of the file loops. *)
Definition file_ext (s s' : FileState) : Prop :=
  world_ext (fst (fst s)) (fst (fst s')) /\ manifest_ext (snd (fst s)) (snd (fst s')).

(** The same on the variables of the command loops, and on machines. *)
Definition command_ext (s s' : CommandState) : Prop := world_ext (fst s) (fst s').

Definition machine_ext (m m' : Machine) : Prop :=
  world_ext (world m) (world m') /\ manifest_ext (plan m) (plan m').

(** Every byte of [s] satisfies [P]. *)
Fixpoint all_bytes (P : ascii -> bool) (s : string) : bool :=
  match s with
  | EmptyString => true
  | String c t => P c && all_bytes P t
  end.

(** The last byte of [s], [d] when [s] is empty. *)
Fixpoint last_byte (s : string) (d : ascii) : ascii :=
  match s with
  | EmptyString => d
  | String c t => last_byte t c
  end.

(** The bytes white space is made of in UTF-8: the ASCII white space and the
    bytes above 127. *)
Definition space_byte (c : ascii) : bool :=
  let n := nat_of_ascii c in
  ((9 <=? n)%nat && (n <=? 13)%nat) || (n =? 32)%nat || (128 <=? n)%nat.

(** Dependency [D] is matched by a completed phase, by id or by name. *)
Definition dep_matched (p : ExecutionPlan) (D : string) : Prop :=
  exists j cp, In j (CompletedPhases (State p)) /\ index (Phases p) j = Some cp /\
               (Phase_ID cp = D \/ Phase_Name cp = D).

(** The request executePhase sends for phase [ph] of plan [p] carries this id. *)
Definition request_for (p : ExecutionPlan) (ph : Phase) (r : Request) : Prop :=
  Request_ID r = ID p ++ "-phase-" ++ Phase_ID ph.



(** The statuses of [m'] are those of [m], but for phases now in progress or
    completed. *)
Definition status_step (m m' : Machine) : Prop :=
  forall j ph',
    index (Phases (plan m')) j = Some ph' ->
    exists ph, index (Phases (plan m)) j = Some ph /\
      (Phase_Status ph' = Phase_Status ph \/
       Phase_Status ph' = PhaseStatusInProgress \/
       Phase_Status ph' = PhaseStatusCompleted).

(** The Go values the model's plans stand for: every int is a 64-bit int and
    the keys of a map are distinct. *)
Definition representable (p : ExecutionPlan) : Prop :=
  is_int (CurrentPhase (State p)) = true /\
  Forall (fun z => is_int z = true) (CompletedPhases (State p)) /\
  Forall (fun z => is_int z = true) (FailedPhases (State p)) /\
  match FileStructure p with
  | Some d => NoDup (map fst d)
  | None => True
  end.

(** The plan as it comes back from its state file: no manifest, and a nil
    file structure in place of an empty one. *)
Definition reloaded (p : ExecutionPlan) : ExecutionPlan :=
  {| ID := ID p; Title := Title p; Description := Description p;
     FileStructure := match FileStructure p with
                      | Some [] => None
                      | fs => fs
                      end;
     Phases := Phases p; State := State p; Manifest := None;
     CreatedAt := CreatedAt p; UpdatedAt := UpdatedAt p |}.

(* ================================================================== *)
(** ** More vocabulary: well-formed entry states, returned lists *)

(** The world in which the phase of an iteration is run: createCheckpoint
    has read the clock. *)
Definition call_world (m : Machine) : World := snd (time_Now (world m)).

(** The request executePhase sends for phase [ph] of plan [p]. *)
Definition phase_request (p : ExecutionPlan) (ph : Phase) : Request :=
  {| Request_ID := ID p ++ "-phase-" ++ Phase_ID ph;
     Query := buildPhaseQuery p ph;
     Timeout := 10 * 60000000000 |}.

(** Plan [p] with its phase [i], [ph], in progress. *)
Definition started (p : ExecutionPlan) (i : Z) (ph : Phase) : ExecutionPlan :=
  set_Phases p (store (Phases p) i (set_Phase_Status ph PhaseStatusInProgress)).

(** The world once the request for [ph] has been sent. *)
Definition answered_world (m : Machine) (ph : Phase) : World :=
  {| clock := clock (call_world m); files := files (call_world m);
     dirs := dirs (call_world m); ran := ran (call_world m);
     asked := (asked (call_world m) ++ [phase_request (plan m) ph])%list |}.

(** The two extraction steps of executePhase for phase [i], [ph], of the
    machine [m], on the response [resp]: what processFileBlocks returns, and
    what processCommandBlocks returns after it. *)
Definition file_extraction (rt : Runtime) (m : Machine) (i : Z) (ph : Phase)
    (resp : Response) : FileState * result :=
  processFileBlocks rt (Answer resp) (answered_world m ph) (started (plan m) i ph)
                    (Phase_Name ph).

Definition command_extraction (rt : Runtime) (m : Machine) (i : Z) (ph : Phase)
    (resp : Response) : CommandState * result :=
  processCommandBlocks rt (Answer resp) (fst (fst (fst (file_extraction rt m i ph resp)))).

(** The manifest's file structure, its own or the plan's, is a map that is
    there: AddFile then never writes to a nil map. *)
Definition manifest_ok (p : ExecutionPlan) : Prop :=
  match Manifest p with
  | Some m =>
      match Manifest_FileStructure m with
      | PlanStructure => FileStructure p <> None
      | OwnMap _ => True
      | NilMap => False
      end
  | None => True
  end.

(** Every index in completedPhases is an index of phases. *)
Definition completed_valid (p : ExecutionPlan) : Prop :=
  forall j, In j (CompletedPhases (State p)) -> 0 <= j < len (Phases p).

(** What the loops of processCommandBlocks keep while they go on: the
    commands run are the commands returned, and nothing else has changed. *)
Definition commands_logged (w : World) (s : CommandState) : Prop :=
  ran (fst s) = (ran w ++ snd s)%list /\
  files (fst s) = files w /\ dirs (fst s) = dirs w.

(** What they leave when they return: an error after one more command, which
    failed. *)
Definition commands_failed (w : World) (s : CommandState) (r : result) : Prop :=
  files (fst s) = files w /\ dirs (fst s) = dirs w /\
  exists c e, ran (fst s) = (ran w ++ snd s ++ [c])%list /\
              r = Err ("failed to execute '" ++ c ++ "': " ++ e).

(** What the loops of processFileBlocks keep while they go on and when they
    return an error: the files written are the files returned, newest first
    in the file system, and they are the paths recorded in the manifest when
    there is one. *)
Definition files_logged (w : World) (p : ExecutionPlan) (s : FileState) : Prop :=
  map fst (files (fst (fst s))) = (rev (snd s) ++ map fst (files w))%list /\
  ran (fst (fst s)) = ran w /\
  (Manifest p = None -> Manifest (snd (fst s)) = None) /\
  (Manifest p <> None ->
   Manifest (snd (fst s)) <> None /\
   map Path (created (snd (fst s))) = (map Path (created p) ++ snd s)%list) /\
  (manifest_ok p -> manifest_ok (snd (fst s))).

(** Phase [ph] after a run that succeeded on the answer [answer]: every task
    is completed and carries the answer, the status is completed, the rest
    is as it was. *)
Definition phase_completed (ph : Phase) (answer : string) : Phase :=
  set_Phase_Status
    (set_Phase_Tasks ph (map (fun t => set_Completed_Result t answer) (Phase_Tasks ph)))
    PhaseStatusCompleted.

(** Phase [j] of [m'] is phase [j] of [m] completed on the answer the agent
    registered for it gave to the request for it. *)
Definition phase_done (m m' : Machine) (j : Z) : Prop :=
  exists ph a w req resp,
    index (Phases (plan m)) j = Some ph /\
    find_agent (orchestrator (executor m)) (Phase_Agent ph) = Some a /\
    request_for (plan m) ph req /\
    Agent_Execute a w req = inl resp /\
    index (Phases (plan m')) j = Some (phase_completed ph (Answer resp)).

(** Dependency [D] names, by id or by name, a phase that was completed when
    Execute was entered at phase [c], or a phase from [c] on that comes
    before phase [j]. *)
Definition dep_available (p : ExecutionPlan) (c j : Z) (D : string) : Prop :=
  exists k cp,
    (In k (CompletedPhases (State p)) \/ c <= k < j) /\
    index (Phases p) k = Some cp /\
    (Phase_ID cp = D \/ Phase_Name cp = D).

(** The key createCheckpoint files the checkpoint of phase [i] under. *)
Definition checkpoint_key (planID : string) (i : Z) : string :=
  "checkpoint-" ++ planID ++ "-phase-" ++ dec i.

(** An agent that answers every request. *)
Definition answers (a : Agent) : Prop :=
  forall w req, exists resp, Agent_Execute a w req = inl resp.

(** Phase [ph], at index [j] of a plan entered at phase [c], can be run: an
    agent is registered for its type and answers, and its dependencies are
    completed or come before it in the run. *)
Definition runnable (m : Machine) (c j : Z) (ph : Phase) : Prop :=
  (exists a, find_agent (orchestrator (executor m)) (Phase_Agent ph) = Some a /\
             answers a) /\
  forall D, In D (Phase_Dependencies ph) -> dep_available (plan m) c j D.

(** The line GetCreatedFilesForContext prints for a file of the manifest. *)
Definition created_line (f : FileEntry) : string :=
  "  - " ++ Path f ++ " (phase: " ++ Entry_Phase f ++ ")" ++ nl.

(** The directory AddFile files [path] under in manifest [m]. *)
Definition listed_dir (rt : Runtime) (m : ProjectManifest) (path : string) : string :=
  if String.eqb (Dir rt path) "" || String.eqb (Dir rt path) "."
  then BaseDir m else Dir rt path.

(* ================================================================== *)
(** ** The execute command (handleExecuteCommand of main.go,
       RequestApproval of approval.go)

    What the command prints is not followed; what it reads is. *)

(** Package strings on what is typed at the terminal. *)
Record Text := {
  ToLower : string -> string;                     (* strings.ToLower *)
  Fields : string -> list string                  (* strings.Fields *)
}.

(** Standard input: what the calls of ReadString('\n') return, one after the
    other, the text read and the error; io.EOF when nothing is left. *)
Definition Stdin := list (string * option string).

Definition ReadString (stdin : Stdin) : string * option string * Stdin :=
  match stdin with
  | [] => ("", Some "EOF", [])
  | (line, err) :: rest => (line, err, rest)
  end.

(** How handleExecuteCommand can end. *)
Inductive Outcome :=
| Usage                          (* fewer than two fields *)
| LoadFailed (err : string)      (* LoadPlanState returned an error *)
| NotRestarted                   (* a finished plan, and no restart *)
| ApprovalFailed (err : string)  (* RequestApproval returned an error *)
| NotApproved                    (* RequestApproval returned false *)
| Executed (r : result).         (* Execute was called and returned r *)

(** The executor, the world and the input when the command ends, with the
    plan it held, if it had loaded one. *)
Record Session := {
  session_executor : Executor;
  session_world : World;
  session_stdin : Stdin;
  session_plan : option ExecutionPlan;
  session_outcome : Outcome
}.

Section Command.

Variable rt : Runtime.
Variable tx : Text.

(** [response == "y" || response == "yes"] after
    [response = strings.TrimSpace(strings.ToLower(response))] *)
Definition yes (response : string) : bool :=
  let response := TrimSpace rt (ToLower tx response) in
  String.eqb response "y" || String.eqb response "yes".

(** ApprovalWorkflow.RequestApproval *)
Definition RequestApproval (stdin : Stdin) (plan : ExecutionPlan)
    : Stdin * ExecutionPlan * (bool * option string) :=
  let '(response, err, stdin1) := ReadString stdin in
  match err with
  | Some e => (stdin1, plan, (false, Some e))
  | None =>
      let response := TrimSpace rt (ToLower tx response) in
      if String.eqb response "y" || String.eqb response "yes" then
        (stdin1, update_State plan (fun s => set_State_Status s ExecutionStatusApproved),
         (true, None))
      else if String.eqb response "e" || String.eqb response "edit" then
        (stdin1, plan, (false, None))
      else
        (stdin1, update_State plan (fun s => set_State_Status s ExecutionStatusCancelled),
         (false, None))
  end.

(** [plan.Phases[i].Tasks[j].Completed = false] and [.Result = ""] *)
Definition reset_Task (t : Task) : Task :=
  {| Task_ID := Task_ID t; Task_Description := Task_Description t;
     Task_Completed := false; Task_Result := ""; Task_Error := Task_Error t |}.

(** The block "Reset state", "Reset tasks" of handleExecuteCommand. *)
Definition reset (plan : ExecutionPlan) : ExecutionPlan :=
  let state :=
    {| State_Status := ExecutionStatusPending; CurrentPhase := 0;
       CompletedPhases := []; FailedPhases := [];
       LastCheckpoint := LastCheckpoint (State plan);
       StartedAt := None; CompletedAt := None |} in
  set_Phases (set_State plan state)
    (map (fun ph => set_Phase_Status (set_Phase_Tasks ph (map reset_Task (Phase_Tasks ph)))
                                     PhaseStatusPending)
         (Phases plan)).

(** [plan.State.Status == ExecutionStatusCompleted || ... == ExecutionStatusFailed] *)
Definition finished (plan : ExecutionPlan) : bool :=
  String.eqb (State_Status (State plan)) ExecutionStatusCompleted ||
  String.eqb (State_Status (State plan)) ExecutionStatusFailed.

(** handleExecuteCommand(cmd, client, planner, executor, approval) *)
Definition handleExecuteCommand (cmd : string) (stdin : Stdin) (e : Executor) (w : World)
    : Session :=
  let parts := Fields tx cmd in
  if len parts <? 2 then
    {| session_executor := e; session_world := w; session_stdin := stdin;
       session_plan := None; session_outcome := Usage |}
  else
    let planID := nth 1 parts "" in
    match LoadPlanState rt w planID with
    | inr err =>
        {| session_executor := e; session_world := w; session_stdin := stdin;
           session_plan := None; session_outcome := LoadFailed err |}
    | inl plan0 =>
        let '(stdin1, plan1, goOn) :=
          if finished plan0 then
            let '(response, _, stdin1) := ReadString stdin in
            if yes response then (stdin1, reset plan0, true) else (stdin1, plan0, false)
          else (stdin, plan0, true) in
        if negb goOn then
          {| session_executor := e; session_world := w; session_stdin := stdin1;
             session_plan := Some plan1; session_outcome := NotRestarted |}
        else
          match RequestApproval stdin1 plan1 with
          | (stdin2, plan2, (_, Some err)) =>
              {| session_executor := e; session_world := w; session_stdin := stdin2;
                 session_plan := Some plan2; session_outcome := ApprovalFailed err |}
          | (stdin2, plan2, (false, None)) =>
              {| session_executor := e; session_world := w; session_stdin := stdin2;
                 session_plan := Some plan2; session_outcome := NotApproved |}
          | (stdin2, plan2, (true, None)) =>
              let '(w1, _) := SavePlanState rt w plan2 in
              match Execute rt {| executor := e; world := w1; plan := plan2 |} with
              | (m, Panic) =>
                  {| session_executor := executor m; session_world := world m;
                     session_stdin := stdin2; session_plan := Some (plan m);
                     session_outcome := Executed Panic |}
              | (m, r) =>
                  let '(w2, _) := SavePlanState rt (world m) (plan m) in
                  {| session_executor := executor m; session_world := w2;
                     session_stdin := stdin2; session_plan := Some (plan m);
                     session_outcome := Executed r |}
              end
          end
    end.

End Command.

(** A terminal for examples: lower case of ASCII letters, fields at ASCII
    white space. *)
Module Console.

Definition lower (c : ascii) : ascii :=
  let n := nat_of_ascii c in
  if ((65 <=? n)%nat && (n <=? 90)%nat) then ascii_of_nat (n + 32) else c.

Fixpoint toLower (s : string) : string :=
  match s with
  | EmptyString => EmptyString
  | String c t => String (lower c) (toLower t)
  end.

Fixpoint fields_from (cur : string) (s : string) : list string :=
  match s with
  | EmptyString => if String.eqb cur "" then [] else [cur]
  | String c t =>
      if Scenario.isSpace c
      then (if String.eqb cur "" then fields_from "" t else cur :: fields_from "" t)
      else fields_from (cur ++ String c EmptyString) t
  end.

Definition text : Text := {| ToLower := toLower; Fields := fields_from "" |}.

End Console.

(* ================================================================== *)
(** ** The orchestrator's registry (orchestrator.go) *)

(** AgentOrchestrator.agents: the map from an agent type to the agent
    registered for it, a map that is there since NewAgentOrchestrator makes
    it. *)
Definition Registry := list (AgentType * Agent).

(** RegisterAgent(agent); [None] is a nil agent. *)
Definition RegisterAgent (o : Registry) (agent : option Agent) : Registry * option string :=
  match agent with
  | None => (o, Some "cannot register nil agent")
  | Some a =>
      match lookup o (Agent_Type a) with
      | Some _ => (o, Some ("agent of type " ++ Agent_Type a ++ " already registered"))
      | None => (table_set o (Agent_Type a) a, None)
      end
  end.

(** GetAgents() ranges over the map: it returns the agents of the map, each
    once, in an order that is not specified. *)
Definition GetAgents (o : Registry) (agents : list Agent) : Prop :=
  Permutation agents (map snd o).

(** A registry as RegisterAgent builds it: every key once, and every agent
    under its own type. *)
Definition registry_ok (o : Registry) : Prop :=
  NoDup (map fst o) /\ Forall (fun e => Agent_Type (snd e) = fst e) o.

(** Two machines that differ at most in the order of the executor's agents. *)
Definition same_agents (m m' : Machine) : Prop :=
  world m = world m' /\ plan m = plan m' /\
  checkpoints (executor m) = checkpoints (executor m') /\
  forall t, find_agent (orchestrator (executor m)) t =
            find_agent (orchestrator (executor m')) t.

(* ================================================================== *)
(** ** The planner (planner.go, classifier.go) *)

(** strings.Index and strings.LastIndex: the byte index of the first and of
    the last instance of [sub] in [s], -1 when there is none. *)
Fixpoint Index_from (i : Z) (s sub : string) : Z :=
  if String.prefix sub s then i
  else match s with
       | EmptyString => -1
       | String _ t => Index_from (i + 1) t sub
       end.

Definition Index (s sub : string) : Z := Index_from 0 s sub.

Fixpoint LastIndex_from (i found : Z) (s sub : string) : Z :=
  let found := if String.prefix sub s then i else found in
  match s with
  | EmptyString => found
  | String _ t => LastIndex_from (i + 1) found t sub
  end.

Definition LastIndex (s sub : string) : Z := LastIndex_from 0 (-1) s sub.

(** [s[lo:hi]]; [None] is the panic "slice bounds out of range". *)
Definition slice (s : string) (lo hi : Z) : option string :=
  if (0 <=? lo) && (lo <=? hi) && (hi <=? Z.of_nat (String.length s))
  then Some (substring (Z.to_nat lo) (Z.to_nat (hi - lo)) s)
  else None.

(** strings.TrimPrefix *)
Definition TrimPrefix (s p : string) : string :=
  if String.prefix p s
  then substring (String.length p) (String.length s - String.length p) s
  else s.

(** models.AgentType *)
Definition AgentTypeCode : AgentType := "code".
Definition AgentTypeData : AgentType := "data".
Definition AgentTypeInfra : AgentType := "infra".
Definition AgentTypeSec : AgentType := "sec".

(** The struct parsePlanResponse unmarshals into. *)
Record RawTask := { RawTask_Description : string }.

Record RawPhase := {
  RawPhase_Name : string;
  RawPhase_Agent : string;
  RawPhase_Tasks : list RawTask;
  RawPhase_SuccessCriteria : string;
  RawPhase_EstimatedTime : string;
  RawPhase_Dependencies : list string
}.

Record RawPlan := {
  RawPlan_Title : string;
  RawPlan_Description : string;
  RawPlan_FileStructure : option DirMap;
  RawPlan_Phases : list RawPhase
}.

(** What the planner calls outside the repository. *)
Record Inference := {
  GenerateSync : World -> string -> string + string;
       (* p.client.GenerateSync(ctx, prompt): result.Response, or the error *)
  Unmarshal_dirs : string -> option DirMap + string;
       (* json.Unmarshal into struct{Dirs}: parsed.Dirs, or the error *)
  Unmarshal_rawPlan : string -> RawPlan + string;
       (* json.Unmarshal into rawPlan, or the error *)
  Format : Time -> string
       (* t.Format("20060102_150405") *)
}.

(** What a function returns: a value with a nil error, an error, or a panic. *)
Inductive returned (A : Type) :=
| Returned (a : A)
| Failed (msg : string)
| Panicked.

Arguments Returned {A} a.
Arguments Failed {A} msg.
Arguments Panicked {A}.

Section Planner.

Variable rt : Runtime.
Variable tx : Text.
Variable llm : Inference.

(** normalizeAgentType (classifier.go) *)
Definition normalizeAgentType (agentStr : string) : AgentType :=
  let normalized := ToLower tx (TrimSpace rt agentStr) in
  if String.eqb normalized "code" || String.eqb normalized "codeagent" then AgentTypeCode
  else if String.eqb normalized "data" || String.eqb normalized "dataagent" then AgentTypeData
  else if String.eqb normalized "infra" || String.eqb normalized "infraagent"
  then AgentTypeInfra
  else if String.eqb normalized "sec" || String.eqb normalized "secagent"
          || String.eqb normalized "security" then AgentTypeSec
  else AgentTypeCode.

(** The loop over rawPhase.Tasks, for phase [i], from task [j] on. *)
Fixpoint convertTasks (i j : Z) (rawTasks : list RawTask) : list Task :=
  match rawTasks with
  | [] => []
  | rawTask :: r =>
      {| Task_ID := "task-" ++ dec (i + 1) ++ "-" ++ dec (j + 1);
         Task_Description := RawTask_Description rawTask;
         Task_Completed := false; Task_Result := ""; Task_Error := "" |}
      :: convertTasks i (j + 1) r
  end.

(** The loop over rawPlan.Phases, from phase [i] on. *)
Fixpoint convertPhases (i : Z) (rawPhases : list RawPhase) : list Phase :=
  match rawPhases with
  | [] => []
  | rawPhase :: r =>
      {| Phase_ID := "phase-" ++ dec (i + 1);
         Phase_Name := RawPhase_Name rawPhase;
         Phase_Agent := normalizeAgentType (RawPhase_Agent rawPhase);
         Phase_Tasks := convertTasks i 0 (RawPhase_Tasks rawPhase);
         Phase_SuccessCriteria := RawPhase_SuccessCriteria rawPhase;
         Phase_EstimatedTime := RawPhase_EstimatedTime rawPhase;
         Phase_Dependencies := RawPhase_Dependencies rawPhase;
         Phase_Status := PhaseStatusPending |}
      :: convertPhases (i + 1) r
  end.

(** The response of parsePlanResponse once trimmed and without its fence. *)
Definition unfenced (response : string) : string :=
  let response := TrimSpace rt response in
  if HasPrefix response "```json" then
    TrimSpace rt (TrimSuffix (TrimPrefix response "```json") "```")
  else if HasPrefix response "```" then
    TrimSpace rt (TrimSuffix (TrimPrefix response "```") "```")
  else response.

(** Planner.parsePlanResponse *)
Definition parsePlanResponse (response query : string) : returned ExecutionPlan :=
  let response := unfenced response in
  let start := Index response "{" in
  let end_ := LastIndex response "}" in
  if (start =? -1) || (end_ =? -1) then Failed "no JSON object found in response"
  else
    match slice response start (end_ + 1) with
    | None => Panicked
    | Some jsonStr =>
        match Unmarshal_rawPlan llm jsonStr with
        | inr err => Failed ("JSON parse error: " ++ err)
        | inl rawPlan =>
            Returned
              {| ID := ""; Title := RawPlan_Title rawPlan;
                 Description := RawPlan_Description rawPlan;
                 FileStructure := RawPlan_FileStructure rawPlan;
                 Phases := convertPhases 0 (RawPlan_Phases rawPlan);
                 State := zero_ExecutionState; Manifest := None;
                 CreatedAt := 0; UpdatedAt := 0 |}
        end
    end.

Definition fileStructurePrompt (query : string) : string :=
  "Generate ONLY a file structure for this project:" ++ nl ++
  dq ++ query ++ dq ++ nl ++
  nl ++
  "Step 1: Choose a short snake_case project name (e.g. ecommerce_api, chat_bot)." ++ nl ++
  "Step 2: ALL files must be inside a single root directory with that name." ++ nl ++
  nl ++
  "Output ONLY valid JSON in this exact format:" ++ nl ++
  "{" ++ dq ++ "dirs" ++ dq ++ ":{" ++ dq ++ "{{project_name}}/" ++ dq ++ ":[" ++ dq ++
  "main.py" ++ dq ++ "," ++ dq ++ "README.md" ++ dq ++ "]," ++ dq ++
  "{{project_name}}/src/" ++ dq ++ ":[" ++ dq ++ "api.py" ++ dq ++ "]}}" ++ nl ++
  nl ++
  "JSON:".

(** Planner.generateFileStructure *)
Definition generateFileStructure (w : World) (query : string) : returned (option DirMap) :=
  match GenerateSync llm w (fileStructurePrompt query) with
  | inr err => Failed err
  | inl result =>
      let response := TrimSpace rt result in
      let start := Index response "{" in
      let end_ := LastIndex response "}" in
      if (start =? -1) || (end_ =? -1) then Failed "no JSON in response"
      else
        match slice response start (end_ + 1) with
        | None => Panicked
        | Some jsonStr =>
            match Unmarshal_dirs llm jsonStr with
            | inr err => Failed err
            | inl dirs => Returned dirs
            end
        end
  end.

(** The loops of generatePhasesCompact over the file structure. The list is
    in the order in which range visits the map in this run, an order Go
    leaves open. *)
Definition countFiles (fileStructure : DirMap) : Z :=
  fold_left (fun fileCount e => fileCount + len (snd e)) fileStructure 0.

Definition findProjectRoot (fileStructure : DirMap) : string :=
  fold_left
    (fun projectRoot e =>
       let parts := Split (fst e) "/" in
       if (0 <? len parts) && negb (String.eqb (nth 0 parts "") "") then
         if String.eqb projectRoot "" then nth 0 parts "" else projectRoot
       else projectRoot)
    fileStructure "".

Definition phasesPrompt (query projectRoot : string) (fileCount : Z) : string :=
  "Create build plan for: " ++ query ++ nl ++
  nl ++
  "Context:" ++ nl ++
  "- Project Root: " ++ projectRoot ++ "/" ++ nl ++
  "- Total Files: " ++ dec fileCount ++ nl ++
  "- Agents: code, data, infra, sec" ++ nl ++
  nl ++
  "Rules:" ++ nl ++
  "1. Phases: 3-5 max" ++ nl ++
  "2. Tasks MUST use full file paths starting with " ++ projectRoot ++ "/" ++ nl ++
  "3. Output JSON only" ++ nl ++
  nl ++
  "JSON:".

(** Planner.generatePhasesCompact *)
Definition generatePhasesCompact (w : World) (query : string) (fileStructure : option DirMap)
    : returned ExecutionPlan :=
  let d := match fileStructure with Some d => d | None => [] end in
  let fileCount := countFiles d in
  let projectRoot := findProjectRoot d in
  match GenerateSync llm w (phasesPrompt query projectRoot fileCount) with
  | inr err => Failed err
  | inl result => parsePlanResponse result query
  end.

(** Planner.Generate(ctx, req), for [query = req.Query] *)
Definition Generate (w : World) (query : string) : World * returned ExecutionPlan :=
  match generateFileStructure w query with
  | Panicked => (w, Panicked)
  | stage1 =>
      let fileStructure :=
        match stage1 with
        | Returned dirs => dirs
        | _ => Some []               (* make(map[string][]string) *)
        end in
      match generatePhasesCompact w query fileStructure with
      | Panicked => (w, Panicked)
      | Failed err => (w, Failed ("phase generation failed: " ++ err))
      | Returned plan0 =>
          let '(t1, w1) := time_Now w in        (* generatePlanID *)
          let '(t2, w2) := time_Now w1 in
          let '(t3, w3) := time_Now w2 in
          (w3,
           Returned
             {| ID := "plan_" ++ Format llm t1; Title := Title plan0;
                Description := Description plan0; FileStructure := fileStructure;
                Phases := Phases plan0;
                State := {| State_Status := ExecutionStatusPending; CurrentPhase := 0;
                            CompletedPhases := []; FailedPhases := [];
                            LastCheckpoint := ""; StartedAt := None;
                            CompletedAt := None |};
                Manifest := Manifest plan0; CreatedAt := t2; UpdatedAt := t3 |})
      end
  end.

End Planner.

(** A language model for examples: it gives [dirs] as its first answer and
    [phases] as its second, and the JSON library reads [doc] in [phases]. *)
Module Oracle.

Definition model (dirs phases : string) (doc : RawPlan) : Inference :=
  {| GenerateSync := fun _ prompt =>
       if HasPrefix prompt "Generate ONLY" then inl dirs else inl phases;
     Unmarshal_dirs := fun _ => inl (Some [("demo/", ["main.py"])]);
     Unmarshal_rawPlan := fun s =>
       if String.eqb s phases then inl doc else inr "invalid character";
     Format := fun _ => "20260117_140530" |}.

Definition doc : RawPlan :=
  {| RawPlan_Title := "demo"; RawPlan_Description := "";
     RawPlan_FileStructure := Some [("other/", ["x.py"])];
     RawPlan_Phases :=
       [ {| RawPhase_Name := "setup"; RawPhase_Agent := "CodeAgent";
            RawPhase_Tasks := [ {| RawTask_Description := "write main.py" |} ];
            RawPhase_SuccessCriteria := ""; RawPhase_EstimatedTime := "5 min";
            RawPhase_Dependencies := [] |};
         {| RawPhase_Name := "deploy"; RawPhase_Agent := "devops";
            RawPhase_Tasks := [];
            RawPhase_SuccessCriteria := ""; RawPhase_EstimatedTime := "5 min";
            RawPhase_Dependencies := ["setup"] |} ] |}.

End Oracle.

(* ================================================================== *)
(** ** The model on examples *)

Example Contains_examples :
  Contains "sudo rm -rf /tmp" "rm -rf /" = true /\
  Contains "rm -r /tmp" "rm -rf /" = false /\
  Contains "" "" = true.
Proof. repeat split. Qed.

Example Split_examples :
  Split ("a" ++ nl ++ "b" ++ nl) nl = ["a"; "b"; ""] /\
  Split "" nl = [""] /\
  Split "a--b" "--" = ["a"; "b"].
Proof. repeat split. Qed.

Example TrimSuffix_examples :
  TrimSuffix "demo/src/" "/" = "demo/src" /\ TrimSuffix "demo" "/" = "demo".
Proof. repeat split. Qed.

Example dec_examples : dec 0 = "0" /\ dec 12 = "12".
Proof. repeat split. Qed.

(** Scenario 1 of the specification: one phase, an answer without fences. *)
Example scenario_trivial_plan :
  let rt := Scenario.runtime [] [] [] [] in
  let m := Scenario.machine (Scenario.stub "done")
             (Scenario.plan_of [Scenario.phase "phase-1" "one" []]) in
  snd (Execute rt m) = Nil /\
  State_Status (State (plan (fst (Execute rt m)))) = ExecutionStatusCompleted /\
  CompletedPhases (State (plan (fst (Execute rt m)))) = [0] /\
  files (world (fst (Execute rt m))) = [] /\
  map (fun ph => map (fun t => (Task_Completed t, Task_Result t)) (Phase_Tasks ph))
      (Phases (plan (fst (Execute rt m)))) = [[(true, "done")]].
Proof. vm_compute. repeat split. Qed.

(** Scenarios 2 and 3: a dependency given by name, and by id. *)
Example scenario_dependency_by_name_and_by_id :
  let rt := Scenario.runtime [] [] [] [] in
  let by_name := Scenario.machine (Scenario.stub "done")
                   (Scenario.plan_of [Scenario.phase "a" "alpha" [];
                                      Scenario.phase "b" "beta" ["alpha"]]) in
  let by_id := Scenario.machine (Scenario.stub "done")
                 (Scenario.plan_of [Scenario.phase "a" "alpha" [];
                                    Scenario.phase "b" "beta" ["a"]]) in
  snd (Execute rt by_name) = Nil /\
  CompletedPhases (State (plan (fst (Execute rt by_name)))) = [0; 1] /\
  snd (Execute rt by_id) = Nil /\
  CompletedPhases (State (plan (fst (Execute rt by_id)))) = [0; 1].
Proof. vm_compute. repeat split. Qed.

(** Scenario 4: a file block for ../escape.py. *)
Example scenario_unsafe_path :
  let answer :=
    Scenario.fence ++ "python ../escape.py" ++ nl ++ "print(1)" ++ nl ++ Scenario.fence in
  let tbl := [ (nth 0 patterns "", answer,
                [[answer; "python"; "../escape.py"; "print(1)" ++ nl]]) ] in
  let rt := Scenario.runtime tbl [] [] [] in
  let m := Scenario.machine (Scenario.stub answer)
             (Scenario.plan_of [Scenario.phase "phase-1" "one" []]) in
  snd (Execute rt m) = Nil /\
  files (world (fst (Execute rt m))) = [] /\
  created (plan (fst (Execute rt m))) = [] /\
  map Phase_Status (Phases (plan (fst (Execute rt m)))) = [PhaseStatusCompleted].
Proof. vm_compute. repeat split. Qed.

(** Scenario 5: a shell block with rm -rf /. *)
Example scenario_dangerous_command :
  let answer := Scenario.fence ++ "bash" ++ nl ++ "rm -rf /" ++ nl ++ Scenario.fence in
  let tbl := [ (commandPattern, answer, [[answer; "bash"; "rm -rf /" ++ nl]]) ] in
  let rt := Scenario.runtime tbl [] [] [] in
  let m := Scenario.machine (Scenario.stub answer)
             (Scenario.plan_of [Scenario.phase "phase-1" "one" []]) in
  snd (Execute rt m) = Nil /\
  ran (world (fst (Execute rt m))) = [] /\
  State_Status (State (plan (fst (Execute rt m)))) = ExecutionStatusCompleted.
Proof. vm_compute. repeat split. Qed.

(* ================================================================== *)
(** ** Loops *)

Section Loops.

Context {A S : Type}.
Variable body : A -> S -> S * option result.

Lemma for_each_app (xs ys : list A) (s : S) :
  for_each body (xs ++ ys) s =
  match for_each body xs s with
  | (s', None) => for_each body ys s'
  | (s', Some r) => (s', Some r)
  end.
Proof.
  revert s; induction xs as [|x xs IH]; intros s; simpl.
  - reflexivity.
  - destruct (body x s) as [s1 [r|]]; [reflexivity | apply IH].
Qed.

(** A relation that every iteration respects, and that is reflexive and
    transitive, holds between the state before and after the loop. *)
Lemma for_each_rel (R : S -> S -> Prop) :
  (forall s, R s s) ->
  (forall s1 s2 s3, R s1 s2 -> R s2 s3 -> R s1 s3) ->
  (forall x s s' r, body x s = (s', r) -> R s s') ->
  forall xs s, R s (fst (for_each body xs s)).
Proof.
  intros Hrefl Htrans Hbody xs; induction xs as [|x xs IH]; intros s; simpl.
  - apply Hrefl.
  - destruct (body x s) as [s1 r] eqn:E. apply Hbody in E.
    destruct r as [r|]; simpl.
    + exact E.
    + eapply Htrans; [exact E | apply IH].
Qed.

Lemma for_each_inv (P : S -> Prop) :
  (forall x s s' r, P s -> body x s = (s', r) -> P s') ->
  forall xs s, P s -> P (fst (for_each body xs s)).
Proof.
  intros Hbody xs; induction xs as [|x xs IH]; intros s Hs; simpl.
  - exact Hs.
  - destruct (body x s) as [s1 r] eqn:E.
    pose proof (Hbody _ _ _ _ Hs E) as H1.
    destruct r as [r|]; simpl; [exact H1 | apply IH, H1].
Qed.

(** The loop never hands back [Some r] for an [r] no iteration returns. *)
Lemma for_each_result (Q : result -> Prop) :
  (forall x s s' r, body x s = (s', Some r) -> Q r) ->
  forall xs s s' r, for_each body xs s = (s', Some r) -> Q r.
Proof.
  intros Hbody xs; induction xs as [|x xs IH]; intros s s' r; simpl.
  - discriminate.
  - destruct (body x s) as [s1 [r1|]] eqn:E.
    + intros H; inversion H; subst. eapply Hbody, E.
    + apply IH.
Qed.

End Loops.

(** ** Slices *)

Lemma range_nil (lo hi : Z) : hi <= lo -> range lo hi = [].
Proof.
  intros H. unfold range. replace (Z.to_nat (hi - lo)) with O by lia. reflexivity.
Qed.

Lemma range_cons (lo hi : Z) : lo < hi -> range lo hi = lo :: range (lo + 1) hi.
Proof.
  intros H. unfold range.
  replace (Z.to_nat (hi - lo)) with (Datatypes.S (Z.to_nat (hi - (lo + 1)))) by lia.
  simpl. f_equal; [lia|].
  rewrite <- seq_shift, map_map. apply map_ext. intros k. lia.
Qed.

Lemma range_length (lo hi : Z) : len (range lo hi) = Z.max 0 (hi - lo).
Proof. unfold len, range. rewrite length_map, length_seq. lia. Qed.

Lemma len_app {A} (a b : list A) : len (a ++ b)%list = len a + len b.
Proof. unfold len. rewrite length_app. lia. Qed.

Lemma range_In (lo hi i : Z) : In i (range lo hi) <-> lo <= i < hi.
Proof.
  unfold range. rewrite in_map_iff. split.
  - intros [k [<- Hk]]. apply in_seq in Hk. lia.
  - intros H. exists (Z.to_nat (i - lo)). split; [lia|]. apply in_seq. lia.
Qed.

Lemma range_snoc (lo hi : Z) : lo <= hi -> range lo (hi + 1) = (range lo hi ++ [hi])%list.
Proof.
  intros H. unfold range.
  replace (Z.to_nat (hi + 1 - lo)) with (Z.to_nat (hi - lo) + 1)%nat by lia.
  rewrite seq_app, map_app. simpl. do 2 f_equal. lia.
Qed.

Lemma index_Some_range {A} (s : list A) (i : Z) (x : A) :
  index s i = Some x -> 0 <= i < len s.
Proof.
  unfold index, len. destruct (Z.ltb_spec i 0) as [Hlt|Hge]; [discriminate|].
  intros H. assert (Hn : nth_error s (Z.to_nat i) <> None) by congruence.
  apply nth_error_Some in Hn. lia.
Qed.

Lemma index_in_range {A} (s : list A) (i : Z) :
  0 <= i < len s -> exists x, index s i = Some x.
Proof.
  unfold index, len. intros H. destruct (Z.ltb_spec i 0) as [Hlt|Hge]; [lia|].
  destruct (nth_error s (Z.to_nat i)) eqn:E; [eauto|].
  apply nth_error_None in E. lia.
Qed.

Lemma store_nat_length {A} (s : list A) (n : nat) (v : A) :
  List.length (store_nat s n v) = List.length s.
Proof.
  revert n; induction s as [|x s IH]; intros [|n]; simpl; auto.
Qed.

Lemma store_length {A} (s : list A) (i : Z) (v : A) : len (store s i v) = len s.
Proof.
  unfold store, len. destruct (i <? 0); [reflexivity|]. now rewrite store_nat_length.
Qed.

Lemma nth_error_store_nat {A} (s : list A) (n k : nat) (v : A) :
  nth_error (store_nat s n v) k =
  if Nat.eqb k n then (if Nat.ltb n (List.length s) then Some v else None)
  else nth_error s k.
Proof.
  revert n k; induction s as [|x s IH]; intros n k; simpl.
  - destruct n, k; simpl; try reflexivity. destruct (Nat.eqb k n); reflexivity.
  - destruct n, k; simpl; try reflexivity. rewrite IH.
    destruct (Nat.eqb k n); [|reflexivity].
    change (Nat.ltb (Datatypes.S n) (Datatypes.S (List.length s)))
      with (Nat.ltb n (List.length s)). reflexivity.
Qed.

Lemma index_store_same {A} (s : list A) (i : Z) (v x : A) :
  index s i = Some x -> index (store s i v) i = Some v.
Proof.
  intros H. pose proof (index_Some_range _ _ _ H) as Hr.
  unfold index, store, len in *. destruct (Z.ltb_spec i 0) as [Hlt|Hge]; [lia|].
  rewrite nth_error_store_nat, Nat.eqb_refl.
  destruct (Nat.ltb_spec (Z.to_nat i) (List.length s)) as [Hl|Hl]; [reflexivity | lia].
Qed.

Lemma index_store_other {A} (s : list A) (i j : Z) (v : A) :
  i <> j -> index (store s i v) j = index s j.
Proof.
  intros H. unfold index, store.
  destruct (Z.ltb_spec j 0) as [Hj|Hj]; [reflexivity|].
  destruct (Z.ltb_spec i 0) as [Hi|Hi]; [reflexivity|].
  rewrite nth_error_store_nat.
  destruct (Nat.eqb_spec (Z.to_nat j) (Z.to_nat i)) as [Heq|Hne]; [lia | reflexivity].
Qed.

Lemma store_nat_twice {A} (s : list A) (n : nat) (a b : A) :
  store_nat (store_nat s n a) n b = store_nat s n b.
Proof.
  revert n; induction s as [|x s IH]; intros [|n]; simpl; try reflexivity.
  now rewrite IH.
Qed.

Lemma store_twice {A} (s : list A) (i : Z) (a b : A) :
  store (store s i a) i b = store s i b.
Proof.
  unfold store. destruct (i <? 0); [reflexivity | apply store_nat_twice].
Qed.

(* ================================================================== *)
(** ** What a phase run changes in the plan *)

Lemma same_core_refl p : same_core p p.
Proof. repeat split. Qed.

Lemma same_core_trans p1 p2 p3 : same_core p1 p2 -> same_core p2 p3 -> same_core p1 p3.
Proof. unfold same_core. intros (?&?&?) (?&?&?). repeat split; congruence. Qed.

Section PhaseRun.

Variable rt : Runtime.

Lemma AddFile_core w p m path ph pu w' p' b :
  AddFile rt w p m path ph pu = (w', p', b) -> same_core p p'.
Proof.
  unfold AddFile. simpl.
  destruct (Manifest_FileStructure m); [destruct (FileStructure p)| |];
    intros H; inversion H; subst; repeat split.
Qed.

Lemma processFileMatch_core phaseName mt w p fc w' p' fc' r :
  processFileMatch rt phaseName mt (w, p, fc) = ((w', p', fc'), r) -> same_core p p'.
Proof.
  unfold processFileMatch.
  repeat match goal with
         | |- context [if ?c then _ else _] => destruct c
         | |- context [match Manifest p with _ => _ end] => destruct (Manifest p)
         | |- context [let '(_, _) := ?e in _] => destruct e as [? [?|]]
         | |- context [match os_WriteFile ?a ?b ?c ?d with _ => _ end] =>
             destruct (os_WriteFile a b c d) as [? [?|]]
         | |- context [match AddFile ?a ?b ?c ?d ?e ?f ?g with _ => _ end] =>
             let E := fresh "E" in
             destruct (AddFile a b c d e f g) as [[? ?] []] eqn:E;
             apply AddFile_core in E
         end;
    intros H; inversion H; subst; try apply same_core_refl; assumption.
Qed.

Lemma processFileBlocks_core response w p phaseName w' p' fc' r :
  processFileBlocks rt response w p phaseName = ((w', p', fc'), r) -> same_core p p'.
Proof.
  unfold processFileBlocks. intros H.
  assert (Hinv : same_core p (snd (fst (fst
            (for_each (processFilePattern rt response phaseName) patterns (w, p, [])))))).
  { apply (for_each_rel (processFilePattern rt response phaseName)
             (fun s s' : FileState => same_core (snd (fst s)) (snd (fst s')))).
    - intros s; apply same_core_refl.
    - intros s1 s2 s3; apply same_core_trans.
    - intros pattern s s' r0 Hb. unfold processFilePattern in Hb.
      replace s' with (fst (for_each (processFileMatch rt phaseName)
                               (FindAllStringSubmatch rt pattern response) s))
        by (rewrite Hb; reflexivity).
      apply (for_each_rel (processFileMatch rt phaseName)
               (fun s s' : FileState => same_core (snd (fst s)) (snd (fst s')))).
      + intros s0; apply same_core_refl.
      + intros s1 s2 s3; apply same_core_trans.
      + intros mt [[w1 p1] f1] [[w2 p2] f2] r1 Hm. simpl.
        eapply processFileMatch_core, Hm. }
  destruct (for_each (processFilePattern rt response phaseName) patterns (w, p, []))
    as [[[w1 p1] f1] [r1|]]; inversion H; subst; exact Hinv.
Qed.

Lemma update_phase_ID p i f : ID (update_phase p i f) = ID p.
Proof. unfold update_phase. destruct (index (Phases p) i); reflexivity. Qed.

Lemma update_phase_State p i f : State (update_phase p i f) = State p.
Proof. unfold update_phase. destruct (index (Phases p) i); reflexivity. Qed.

Lemma update_phase_Phases p i f ph :
  index (Phases p) i = Some ph ->
  update_phase p i f = set_Phases p (store (Phases p) i (f ph)).
Proof. unfold update_phase. intros ->. reflexivity. Qed.

(** A run of phase [i] rewrites [plan.Phases[i]] and nothing else of the
    phases, the state and the plan's id; the phase is left in progress, and
    with the tasks marked when the run succeeds. *)
Lemma executePhase_plan e w p i ph w' p' r :
  index (Phases p) i = Some ph ->
  executePhase rt e w p i = (w', p', r) ->
  State p' = State p /\ ID p' = ID p /\
  exists ph',
    Phases p' = store (Phases p) i ph' /\
    Phase_Status ph' = PhaseStatusInProgress /\
    Phase_ID ph' = Phase_ID ph /\ Phase_Name ph' = Phase_Name ph /\
    Phase_Dependencies ph' = Phase_Dependencies ph /\
    (r <> Nil -> ph' = set_Phase_Status ph PhaseStatusInProgress).
Proof.
  intros Hi. unfold executePhase.
  rewrite (update_phase_Phases p i _ ph Hi).
  set (ph1 := set_Phase_Status ph PhaseStatusInProgress).
  set (p1 := set_Phases p (store (Phases p) i ph1)).
  assert (Hi1 : index (Phases p1) i = Some ph1)
    by (simpl; eapply index_store_same, Hi).
  rewrite Hi1.
  assert (Hbase : State p1 = State p /\ ID p1 = ID p /\
            exists ph', Phases p1 = store (Phases p) i ph' /\
              Phase_Status ph' = PhaseStatusInProgress /\
              Phase_ID ph' = Phase_ID ph /\ Phase_Name ph' = Phase_Name ph /\
              Phase_Dependencies ph' = Phase_Dependencies ph /\
              (r <> Nil -> ph' = set_Phase_Status ph PhaseStatusInProgress)).
  { repeat split. exists ph1. repeat split. }
  destruct (find_agent (orchestrator e) (Phase_Agent ph1)) as [a|];
    [|intros H; inversion H; subst; exact Hbase].
  destruct (agent_call a w _) as [w1 [response|err]];
    [|intros H; inversion H; subst; exact Hbase].
  destruct (processFileBlocks rt (Answer response) w1 p1 (Phase_Name ph1))
    as [[[w2 p2] fc] rf] eqn:Ef.
  apply processFileBlocks_core in Ef. destruct Ef as (HS & HP & HI).
  assert (Hbase2 : State p2 = State p /\ ID p2 = ID p /\
            exists ph', Phases p2 = store (Phases p) i ph' /\
              Phase_Status ph' = PhaseStatusInProgress /\
              Phase_ID ph' = Phase_ID ph /\ Phase_Name ph' = Phase_Name ph /\
              Phase_Dependencies ph' = Phase_Dependencies ph /\
              (r <> Nil -> ph' = set_Phase_Status ph PhaseStatusInProgress)).
  { rewrite HS, HI, HP. exact Hbase. }
  assert (Hok : forall w3 (ce : list string),
            (w3, update_phase p2 i
                   (fun ph0 => set_Phase_Tasks ph0
                      (map (fun t => set_Completed_Result t (Answer response))
                           (Phase_Tasks ph0))), Nil) = (w', p', r) ->
            State p' = State p /\ ID p' = ID p /\
            exists ph', Phases p' = store (Phases p) i ph' /\
              Phase_Status ph' = PhaseStatusInProgress /\
              Phase_ID ph' = Phase_ID ph /\ Phase_Name ph' = Phase_Name ph /\
              Phase_Dependencies ph' = Phase_Dependencies ph /\
              (r <> Nil -> ph' = set_Phase_Status ph PhaseStatusInProgress)).
  { intros w3 _ H. inversion H; subst.
    assert (Hi2 : index (Phases p2) i = Some ph1) by (rewrite HP; exact Hi1).
    rewrite (update_phase_Phases p2 i _ ph1 Hi2). simpl.
    rewrite HS, HI, HP. simpl. rewrite store_twice.
    repeat split. eexists. split; [reflexivity|]. repeat split.
    intros Hn; contradiction Hn; reflexivity. }
  destruct rf.
  - destruct (processCommandBlocks rt (Answer response) w2) as [[w3 ce] []];
      try (apply Hok; exact ce);
      intros H; inversion H; subst; exact Hbase2.
  - destruct (processCommandBlocks rt (Answer response) w2) as [[w3 ce] []];
      try (apply Hok; exact ce);
      intros H; inversion H; subst; exact Hbase2.
  - simpl. intros H; inversion H; subst; exact Hbase2.
Qed.

End PhaseRun.

(* ================================================================== *)
(** ** One iteration of the phase loop, and the loop *)

Section PhaseLoop.

Variable rt : Runtime.

Lemma runPhase_cases i m m' r : runPhase rt i m = (m', r) -> runPhase_case i m m' r.
Proof.
  unfold runPhase.
  destruct (index (Phases (plan m)) i) as [ph|] eqn:Hi.
  2:{ intros H; inversion H; subst. now apply rp_index_panic. }
  destruct (areDependenciesMet (plan m) ph) as [[|]|] eqn:Hd.
  3:{ intros H; inversion H; subst. now apply rp_deps_panic with ph. }
  2:{ intros H; inversion H; subst. now apply rp_deps_unmet with ph. }
  unfold createCheckpoint. simpl.
  destruct (executePhase rt _ _ (plan m) i) as [[w2 p2] re] eqn:Ee.
  destruct (executePhase_plan rt _ _ _ _ _ _ _ _ Hi Ee)
    as (HS & HI & ph' & HP & Hst & Hid & Hnm & Hdp & Hne).
  assert (Hi2 : index (Phases p2) i = Some ph')
    by (rewrite HP; eapply index_store_same, Hi).
  destruct re; intros H; inversion H; subst; clear H.
  - (* the phase succeeded *)
    apply rp_ran with ph (set_Phase_Status ph' PhaseStatusCompleted); simpl;
      rewrite ?update_phase_ID, ?update_phase_State; simpl; auto.
    + unfold update_phase. simpl. rewrite Hi2. simpl.
      rewrite HP, store_twice. reflexivity.
    + left. rewrite HS. repeat split.
  - (* the phase failed *)
    apply rp_ran with ph ph'; simpl; auto.
    right; left. split; [eexists; reflexivity|]. split.
    + rewrite HS. reflexivity.
    + apply Hne. discriminate.
  - (* the phase panicked *)
    apply rp_ran with ph ph'; simpl; auto.
Qed.

Lemma store_len_Phases (ps : list Phase) i ph : len (store ps i ph) = len ps.
Proof. apply store_length. Qed.

Lemma runPhase_len i m m' r :
  runPhase rt i m = (m', r) -> len (Phases (plan m')) = len (Phases (plan m)).
Proof.
  intros H. apply runPhase_cases in H.
  destruct H; subst; try reflexivity.
  match goal with Hp : Phases _ = store _ _ _ |- _ => rewrite Hp end.
  apply store_length.
Qed.

Lemma last_default {A} (l : list A) (d d' : A) : l <> [] -> last l d = last l d'.
Proof.
  induction l as [|x l IH]; [congruence|]. intros _.
  destruct l as [|y l]; [reflexivity|]. apply IH. discriminate.
Qed.

(** A loop that runs to its end has completed every phase it visited. *)
Lemma loop_completed idxs : forall m m',
  for_each (runPhase rt) idxs m = (m', None) ->
  CompletedPhases (State (plan m')) = (CompletedPhases (State (plan m)) ++ idxs)%list /\
  FailedPhases (State (plan m')) = FailedPhases (State (plan m)) /\
  State_Status (State (plan m')) = State_Status (State (plan m)) /\
  StartedAt (State (plan m')) = StartedAt (State (plan m)) /\
  CurrentPhase (State (plan m')) =
    last (map (fun i => i + 1) idxs) (CurrentPhase (State (plan m))) /\
  len (Phases (plan m')) = len (Phases (plan m)).
Proof.
  induction idxs as [|i idxs IH]; intros m m'; simpl.
  - intros H; inversion H; subst. rewrite app_nil_r. repeat split.
  - destruct (runPhase rt i m) as [m1 [r|]] eqn:E; [discriminate|].
    intros H. apply IH in H. destruct H as (HC & HF & HS & HA & HP & HL).
    pose proof (runPhase_len _ _ _ _ E) as HL1.
    apply runPhase_cases in E. destruct E; try discriminate.
    match goal with
    | Hc : _ \/ _ |- _ =>
        destruct Hc as [(_ & Hst & _) | [((? & ?) & _) | (? & _)]]; try discriminate
    end.
    rewrite HC, HF, HS, HA, HP, HL, HL1, Hst. simpl.
    rewrite <- app_assoc. simpl. repeat split.
    destruct idxs as [|j idxs]; [reflexivity|].
    apply last_default. discriminate.
Qed.

Lemma last_range_succ lo hi d :
  lo < hi -> last (map (fun i => i + 1) (range lo hi)) d = hi.
Proof.
  intros H. replace (range lo hi) with (range lo ((hi - 1) + 1)) by (f_equal; lia).
  rewrite range_snoc by lia. rewrite map_app. simpl. rewrite last_last. lia.
Qed.

(** *** Start-up *)

Lemma startup_plan m :
  State (plan (startup rt m)) = state_started (State (plan m)) (clock (world m)) /\
  Phases (plan (startup rt m)) = Phases (plan m) /\
  ID (plan (startup rt m)) = ID (plan m) /\
  executor (startup rt m) = executor m /\
  Manifest (plan (startup rt m)) <> None.
Proof.
  unfold startup. simpl.
  destruct (initProjectStructure rt _ _) as [w2 r2]. simpl.
  unfold state_started.
  destruct (StartedAt (State (plan m))) as [t|] eqn:Es; simpl;
    destruct (Z.ltb_spec (CurrentPhase (State (plan m))) 0) as [Hc|Hc]; simpl;
    destruct (Manifest (plan m)) as [mf|] eqn:Em; simpl;
    try destruct (FileStructure (plan m)); simpl; rewrite ?Em;
    repeat split; try discriminate;
    try (rewrite Z.max_l by lia); try (rewrite Z.max_r by lia);
    destruct (State (plan m)); simpl in *; subst; reflexivity.
Qed.

End PhaseLoop.

(* ================================================================== *)
(** ** Successful runs *)

Section Success.

Variable rt : Runtime.

(** No iteration of the phase loop returns a nil error. *)
Lemma phaseLoop_never_nil idxs m m' r :
  for_each (runPhase rt) idxs m = (m', Some r) -> r <> Nil.
Proof.
  apply (for_each_result (runPhase rt) (fun r => r <> Nil)).
  intros i s s' r0 H. apply runPhase_cases in H.
  destruct H as [? ? Hr | ? ? ? ? Hr | ? ? ? ? Hr | ? ? ? ? ? ? ? ? ? ? Hc].
  - inversion Hr; discriminate.
  - inversion Hr; discriminate.
  - inversion Hr; discriminate.
  - destruct Hc as [(Hr & _) | [((err & Hr) & _) | (Hr & _)]];
      inversion Hr; discriminate.
Qed.

Lemma finish_plan b m :
  State (plan (finish b m)) =
    set_CompletedAt
      (set_State_Status
         (if b then set_StartedAt (State (plan m)) (Some (clock (world m)))
          else State (plan m))
         ExecutionStatusCompleted)
      (Some (clock (world m))) /\
  Phases (plan (finish b m)) = Phases (plan m).
Proof. unfold finish. destruct b; simpl; split; reflexivity. Qed.

(** What a successful Execute leaves in the state, in terms of the state it
    was entered with. *)
Lemma Execute_success m m' :
  Execute rt m = (m', Nil) ->
  State_Status (State (plan m')) = ExecutionStatusCompleted /\
  len (Phases (plan m')) = len (Phases (plan m)) /\
  CompletedPhases (State (plan m')) =
    (CompletedPhases (State (plan m)) ++
     range (Z.max 0 (CurrentPhase (State (plan m)))) (len (Phases (plan m))))%list /\
  FailedPhases (State (plan m')) = FailedPhases (State (plan m)) /\
  CurrentPhase (State (plan m')) =
    Z.max (Z.max 0 (CurrentPhase (State (plan m)))) (len (Phases (plan m))).
Proof.
  unfold Execute, phaseLoop. cbv zeta.
  set (b := match StartedAt (State (plan m)) with None => true | Some _ => false end).
  destruct (startup_plan rt m) as (HS & HP & _).
  rewrite HS, HP.
  change (CurrentPhase (state_started (State (plan m)) (clock (world m))))
    with (Z.max 0 (CurrentPhase (State (plan m)))).
  set (c := Z.max 0 (CurrentPhase (State (plan m)))).
  set (n := len (Phases (plan m))).
  destruct (for_each (runPhase rt) (range c n) (startup rt m)) as [m1 [r|]] eqn:E.
  - intros H; inversion H; subst. apply phaseLoop_never_nil in E. congruence.
  - apply loop_completed in E. destruct E as (HC & HF & HSt & HA & HCur & HL).
    rewrite HS in HC, HF, HCur. rewrite HP in HL. simpl in HC, HF, HCur.
    destruct (finish_plan b m1) as (HfS & HfP).
    destruct (StartedAt (State (plan (finish b m1)))); intros H; inversion H; subst;
      cbn [plan]; rewrite ?HfS, ?HfP; destruct b; simpl; repeat split; auto.
    all: destruct (Z.le_gt_cases n c) as [Hle|Hlt];
      [ rewrite HCur, range_nil by lia; simpl; fold c; lia
      | rewrite HCur; fold c; rewrite last_range_succ by lia; lia ].
Qed.

(** With no phase at all the loop body never runs and Execute succeeds. *)
Lemma Execute_empty_plan m :
  Phases (plan m) = [] -> snd (Execute rt m) = Nil.
Proof.
  intros Hn. unfold Execute, phaseLoop. cbv zeta.
  set (b := match StartedAt (State (plan m)) with None => true | Some _ => false end).
  destruct (startup_plan rt m) as (HS & HP & _).
  rewrite HS, HP, Hn. rewrite range_nil by (unfold len; simpl; lia).
  cbn [for_each]. destruct (finish_plan b (startup rt m)) as (HfS & _).
  rewrite HfS, HS. unfold b, state_started.
  destruct (StartedAt (State (plan m))); simpl; reflexivity.
Qed.

End Success.

(** C1 (as amended). A successful Execute ends with status completed; it
    appends to completedPhases the indices from max(currentPhase, 0) up to
    len(phases) - 1, in order, and leaves failedPhases exactly as it found it.
    Hence, when the plan is entered with failedPhases empty and with
    max(currentPhase, 0) <= len(phases) entries in completedPhases (a fresh or
    reset plan, or one interrupted between phases), the final state has
    currentPhase = len(phases), status completed,
    len(completedPhases) = len(phases) and failedPhases empty. A plan without
    phases always succeeds. *)
Theorem C1_successful_execute_final_state (rt : Runtime) (m : Machine) :
  (Phases (plan m) = [] -> snd (Execute rt m) = Nil) /\
  (forall m', Execute rt m = (m', Nil) ->
     State_Status (State (plan m')) = ExecutionStatusCompleted /\
     CompletedPhases (State (plan m')) =
       (CompletedPhases (State (plan m)) ++
        range (Z.max 0 (CurrentPhase (State (plan m)))) (len (Phases (plan m))))%list /\
     FailedPhases (State (plan m')) = FailedPhases (State (plan m)) /\
     (FailedPhases (State (plan m)) = [] ->
      len (CompletedPhases (State (plan m))) = Z.max 0 (CurrentPhase (State (plan m))) ->
      Z.max 0 (CurrentPhase (State (plan m))) <= len (Phases (plan m)) ->
      CurrentPhase (State (plan m')) = len (Phases (plan m')) /\
      len (CompletedPhases (State (plan m'))) = len (Phases (plan m')) /\
      FailedPhases (State (plan m')) = [])).
Proof.
  split; [apply Execute_empty_plan|].
  intros m' H. apply Execute_success in H.
  destruct H as (HS & HL & HC & HF & HCur).
  repeat split; auto.
  - rewrite HCur, HL. lia.
  - rewrite HC, HL, len_app, range_length. lia.
  - congruence.
Qed.

(** A two-phase plan run by an agent that answers: the run succeeds and the
    final state is the one C1 describes. *)
Lemma C1_witness :
  let rt := Scenario.runtime [] [] [] [] in
  let m := Scenario.machine (Scenario.stub "done")
             (Scenario.plan_of [Scenario.phase "a" "alpha" [];
                                Scenario.phase "b" "beta" ["alpha"]]) in
  snd (Execute rt m) = Nil /\
  CurrentPhase (State (plan (fst (Execute rt m)))) = 2 /\
  len (CompletedPhases (State (plan (fst (Execute rt m))))) = 2 /\
  FailedPhases (State (plan (fst (Execute rt m)))) = [].
Proof.
  intros rt m.
  assert (E : Execute rt m = (fst (Execute rt m), Nil)) by (vm_compute; reflexivity).
  split; [vm_compute; reflexivity|].
  destruct (proj2 (C1_successful_execute_final_state rt m) _ E) as (_ & _ & _ & H).
  apply H; vm_compute; try reflexivity; discriminate.
Defined.

(** C1 as stated fails on a resume after a failure: the first run of a
    one-phase plan fails (the agent's call is cancelled), the second run, on
    the plan the first one left, succeeds, and failedPhases still holds 0. *)
Lemma C1_resume_after_failure_counterexample :
  let rt := Scenario.runtime [] [] [] [] in
  let m0 := Scenario.machine (Scenario.flaky "done")
              (Scenario.plan_of [Scenario.phase "phase-1" "one" []]) in
  let m1 := fst (Execute rt m0) in
  snd (Execute rt m0) = Err "phase 1 failed: context canceled" /\
  State_Status (State (plan m1)) = ExecutionStatusFailed /\
  snd (Execute rt m1) = Nil /\
  State_Status (State (plan (fst (Execute rt m1)))) = ExecutionStatusCompleted /\
  FailedPhases (State (plan (fst (Execute rt m1)))) = [0] /\
  FailedPhases (State (plan (fst (Execute rt m1)))) <> [].
Proof. vm_compute. repeat split; discriminate. Qed.

(* ================================================================== *)
(** ** The index lists of the execution state *)

Section IndexLists.

Variable rt : Runtime.

Lemma runPhase_valid i m m' r :
  valid_indices (plan m) -> runPhase rt i m = (m', r) -> valid_indices (plan m').
Proof.
  intros Hv H. pose proof (runPhase_len _ _ _ _ _ H) as HL.
  apply runPhase_cases in H.
  destruct H as [? -> ? | ? ? ? -> ? | ? ? ? -> ? | ph ph' Hi ? ? ? ? ? ? ? Hc]; auto.
  apply index_Some_range in Hi.
  unfold valid_indices in *. rewrite HL. intros j Hj.
  destruct Hc as [(_ & HS & _) | [(_ & HS & _) | (_ & HS & _)]];
    rewrite HS in Hj; simpl in Hj;
    try (apply Hv; exact Hj);
    rewrite ?in_app_iff in Hj; simpl in Hj;
    destruct Hj as [Hj | Hj]; rewrite ?in_app_iff in Hj; simpl in Hj;
    try (apply Hv; rewrite in_app_iff; tauto);
    destruct Hj as [Hj | [<- | []]]; try lia;
    apply Hv; rewrite in_app_iff; tauto.
Qed.

Lemma startup_valid m : valid_indices (plan m) -> valid_indices (plan (startup rt m)).
Proof.
  destruct (startup_plan rt m) as (HS & HP & _).
  unfold valid_indices. rewrite HS, HP. simpl. auto.
Qed.

Lemma loop_valid idxs m :
  valid_indices (plan m) ->
  valid_indices (plan (fst (for_each (runPhase rt) idxs m))).
Proof.
  apply (for_each_inv (runPhase rt) (fun m => valid_indices (plan m))).
  intros i s s' r Hs Hb. eapply runPhase_valid; eauto.
Qed.

(** Execute's final state is the loop's, up to the fields [finish] sets. *)
Lemma Execute_lists m :
  let m1 := fst (phaseLoop rt (startup rt m)) in
  CompletedPhases (State (plan (fst (Execute rt m)))) = CompletedPhases (State (plan m1)) /\
  FailedPhases (State (plan (fst (Execute rt m)))) = FailedPhases (State (plan m1)) /\
  Phases (plan (fst (Execute rt m))) = Phases (plan m1).
Proof.
  unfold Execute. destruct (phaseLoop rt (startup rt m)) as [m1 [r|]]; simpl.
  - repeat split.
  - destruct (StartedAt (State (plan m))); simpl;
      try destruct (StartedAt (State (plan m1))); simpl; repeat split.
Qed.

Lemma observable_valid m m' :
  valid_indices (plan m) -> observable rt m m' -> valid_indices (plan m').
Proof.
  intros Hv Ho. destruct Ho as [k|].
  - apply loop_valid, startup_valid, Hv.
  - destruct (Execute_lists m) as (HC & HF & HP).
    unfold valid_indices. rewrite HC, HF, HP.
    apply loop_valid, startup_valid, Hv.
Qed.

(** The loop invariant for disjointness: at the head of the iteration for
    index CurrentPhase, every recorded index is below CurrentPhase. *)
Lemma loop_disjoint idxs : forall m,
  disjoint_lists (plan m) ->
  indices_below (CurrentPhase (State (plan m))) (plan m) ->
  consecutive_from (CurrentPhase (State (plan m))) idxs ->
  disjoint_lists (plan (fst (for_each (runPhase rt) idxs m))).
Proof.
  induction idxs as [|i idxs IH]; intros m Hd Hb Hc; simpl; [exact Hd|].
  destruct Hc as [-> Hc].
  assert (Hfresh : forall j,
            In j (CompletedPhases (State (plan m))) \/ In j (FailedPhases (State (plan m))) ->
            j < CurrentPhase (State (plan m)))
    by (intros j Hj; apply Hb, in_or_app, Hj).
  destruct (runPhase rt (CurrentPhase (State (plan m))) m) as [m1 r] eqn:E.
  apply runPhase_cases in E.
  destruct E as [? -> -> | ? ? ? -> -> | ? ? ? -> -> | ph ph' _ _ _ _ _ _ _ _ Hr]; auto.
  destruct Hr as [(-> & HS & _) | [((err & ->) & HS & _) | (-> & HS & _)]]; simpl.
  - apply IH.
    + unfold disjoint_lists. rewrite HS. simpl. intros j Hj1 Hj2.
      apply in_app_iff in Hj1. destruct Hj1 as [Hj1 | [<- | []]]; [eauto|].
      specialize (Hfresh _ (or_intror Hj2)). lia.
    + unfold indices_below. rewrite HS. simpl. intros j Hj.
      rewrite !in_app_iff in Hj. simpl in Hj.
      destruct Hj as [[Hj | [<- | []]] | Hj]; try lia.
      * specialize (Hfresh _ (or_introl Hj)). lia.
      * specialize (Hfresh _ (or_intror Hj)). lia.
    + rewrite HS. simpl. exact Hc.
  - unfold disjoint_lists. rewrite HS. simpl. intros j Hj1 Hj2.
    apply in_app_iff in Hj2. destruct Hj2 as [Hj2 | [<- | []]]; [eauto|].
    specialize (Hfresh _ (or_introl Hj1)). lia.
  - unfold disjoint_lists. rewrite HS. exact Hd.
Qed.

Lemma consecutive_range lo hi : consecutive_from lo (range lo hi).
Proof.
  remember (Z.to_nat (hi - lo)) as n eqn:En. revert lo En.
  induction n as [|n IH]; intros lo En.
  - rewrite range_nil by lia. exact I.
  - rewrite range_cons by lia. split; [reflexivity|]. apply IH. lia.
Qed.

Lemma consecutive_firstn k : forall c l,
  consecutive_from c l -> consecutive_from c (firstn k l).
Proof.
  induction k as [|k IH]; intros c [|x l]; simpl; auto.
  intros [-> H]. split; [reflexivity | apply IH, H].
Qed.

Lemma startup_disjoint m :
  disjoint_lists (plan m) ->
  indices_below (Z.max 0 (CurrentPhase (State (plan m)))) (plan m) ->
  disjoint_lists (plan (startup rt m)) /\
  indices_below (CurrentPhase (State (plan (startup rt m)))) (plan (startup rt m)).
Proof.
  destruct (startup_plan rt m) as (HS & HP & _).
  unfold disjoint_lists, indices_below. rewrite HS. simpl. auto.
Qed.

Lemma observable_disjoint m m' :
  disjoint_lists (plan m) ->
  indices_below (Z.max 0 (CurrentPhase (State (plan m)))) (plan m) ->
  observable rt m m' -> disjoint_lists (plan m').
Proof.
  intros Hd Hb Ho. destruct (startup_disjoint m Hd Hb) as (Hd1 & Hb1).
  destruct Ho as [k|].
  - apply loop_disjoint; auto. apply consecutive_firstn, consecutive_range.
  - destruct (Execute_lists m) as (HC & HF & _).
    unfold disjoint_lists. rewrite HC, HF.
    apply loop_disjoint; auto. apply consecutive_range.
Qed.

End IndexLists.

(** C2 (as amended). Every index Execute records is a valid index into
    phases: validity of the indices of completedPhases and failedPhases is
    kept at every observable moment of every call, across any sequence of
    calls on the same plan. Disjointness of the two lists is kept at every
    observable moment of one call entered with disjoint lists whose indices
    are all below max(currentPhase, 0) (a fresh or reset plan, or one
    interrupted between phases). *)
Theorem C2_index_lists_valid_and_disjoint (m m' : Machine) :
  (valid_indices (plan m) -> runs m m' -> valid_indices (plan m')) /\
  (forall rt,
     disjoint_lists (plan m) ->
     indices_below (Z.max 0 (CurrentPhase (State (plan m)))) (plan m) ->
     observable rt m m' -> disjoint_lists (plan m')).
Proof.
  split.
  - intros Hv Hr. induction Hr as [|rt m1 m2 _ IH Ho]; [exact Hv|].
    eapply observable_valid; eauto.
  - intros rt. apply observable_disjoint.
Qed.

(** A plan of three phases run to completion: the lists are disjoint and
    their indices valid in the state Execute returns with. *)
Lemma C2_witness :
  let rt := Scenario.runtime [] [] [] [] in
  let m := Scenario.machine (Scenario.stub "done")
             (Scenario.plan_of [Scenario.phase "a" "alpha" [];
                                Scenario.phase "b" "beta" ["a"];
                                Scenario.phase "c" "gamma" ["beta"]]) in
  valid_indices (plan (fst (Execute rt m))) /\ disjoint_lists (plan (fst (Execute rt m))).
Proof.
  intros rt m.
  destruct (C2_index_lists_valid_and_disjoint m (fst (Execute rt m))) as [Hv Hd].
  split.
  - apply Hv.
    + intros i Hi. vm_compute in Hi. contradiction.
    + apply (runs_more m rt m); [apply runs_none | apply obs_returned].
  - apply (Hd rt).
    + intros i Hi. vm_compute in Hi. contradiction.
    + intros i Hi. vm_compute in Hi. contradiction.
    + apply obs_returned.
Defined.

(** C2 as stated fails across a failure followed by a resume: after the two
    runs index 0 is both in completedPhases and in failedPhases. *)
Lemma C2_failure_then_resume_counterexample :
  let rt := Scenario.runtime [] [] [] [] in
  let m0 := Scenario.machine (Scenario.flaky "done")
              (Scenario.plan_of [Scenario.phase "phase-1" "one" []]) in
  let m1 := fst (Execute rt m0) in
  let m2 := fst (Execute rt m1) in
  disjoint_lists (plan m0) /\ valid_indices (plan m0) /\
  runs m0 m2 /\
  In 0 (CompletedPhases (State (plan m2))) /\ In 0 (FailedPhases (State (plan m2))) /\
  ~ disjoint_lists (plan m2).
Proof.
  intros rt m0 m1 m2.
  assert (HC : In 0 (CompletedPhases (State (plan m2)))) by (vm_compute; auto).
  assert (HF : In 0 (FailedPhases (State (plan m2)))) by (vm_compute; auto).
  split; [|split; [|split; [|split; [exact HC | split; [exact HF|]]]]].
  - intros i Hi. vm_compute in Hi. contradiction.
  - intros i Hi. vm_compute in Hi. contradiction.
  - apply (runs_more m0 rt m1 m2); [|apply obs_returned].
    apply (runs_more m0 rt m0 m1); [apply runs_none | apply obs_returned].
  - intros Hd. exact (Hd 0 HC HF).
Qed.

(* ================================================================== *)
(** ** Errors of the extraction steps *)

Section ExtractionErrors.

Variable rt : Runtime.

(** executePhase returns an error in two cases only, and in both nothing has
    been written, created or run. *)
Lemma executePhase_Err e w p i w' p' msg :
  executePhase rt e w p i = (w', p', Err msg) ->
  files w' = files w /\ dirs w' = dirs w /\ ran w' = ran w /\
  exists ph, index (Phases p) i = Some ph /\
    (find_agent (orchestrator e) (Phase_Agent ph) = None /\
     msg = "agent " ++ Phase_Agent ph ++ " not found"
     \/ exists a, find_agent (orchestrator e) (Phase_Agent ph) = Some a /\
          Agent_Execute a w (phase_request p ph) = inr msg).
Proof.
  unfold executePhase.
  destruct (index (Phases p) i) as [ph|] eqn:Hi.
  2:{ unfold update_phase. rewrite Hi, Hi. discriminate. }
  rewrite (update_phase_Phases p i _ ph Hi). simpl.
  rewrite (index_store_same _ _ _ _ Hi). simpl.
  destruct (find_agent (orchestrator e) (Phase_Agent ph)) as [a|] eqn:Ha.
  2:{ intros H; inversion H; subst. repeat split. exists ph. split; auto. }
  unfold agent_call.
  match goal with
  | |- context [Agent_Execute a w ?r] =>
      set (req := r); destruct (Agent_Execute a w req) as [response|err] eqn:Ea
  end.
  2:{ intros H; inversion H; subst. simpl. repeat split. exists ph. split; auto.
      right. exists a. split; [exact Ha | exact Ea]. }
  destruct (processFileBlocks rt (Answer response) _ _ _) as [[[w2 p2] fc] []];
    try (simpl; discriminate);
    destruct (processCommandBlocks rt (Answer response) w2) as [[w3 ce] []];
    discriminate.
Qed.

End ExtractionErrors.


(** C3 as stated fails. First run: the agent's answer holds one file block and
    os.WriteFile fails on it. Second run: the answer holds one shell block
    whose command exits with status 1. In both the extraction step returns
    its error, and Execute nevertheless completes the phase and the plan and
    returns nil. *)
Lemma C3_extraction_failure_counterexample :
  let file_answer :=
    Scenario.fence ++ "python a.py" ++ nl ++ "print(1)" ++ nl ++ Scenario.fence in
  let shell_answer :=
    Scenario.fence ++ "bash" ++ nl ++ "false" ++ nl ++ Scenario.fence in
  let tbl :=
    [ (nth 0 patterns "", file_answer,
       [[file_answer; "python"; "a.py"; "print(1)" ++ nl]]);
      (nth 0 patterns "", shell_answer,
       [[shell_answer; "bash"; "false"; ""]]);
      (commandPattern, shell_answer,
       [[shell_answer; "bash"; "false" ++ nl]]) ] in
  let rt := Scenario.runtime tbl [] ["a.py"] ["false"] in
  let p := Scenario.plan_of [Scenario.phase "phase-1" "one" []] in
  let m1 := Scenario.machine (Scenario.stub file_answer) p in
  let m2 := Scenario.machine (Scenario.stub shell_answer) p in
  snd (processFileBlocks rt file_answer Scenario.world0 p "one")
    = Err "failed to write a.py: permission denied" /\
  snd (Execute rt m1) = Nil /\
  State_Status (State (plan (fst (Execute rt m1)))) = ExecutionStatusCompleted /\
  map Phase_Status (Phases (plan (fst (Execute rt m1)))) = [PhaseStatusCompleted] /\
  snd (processCommandBlocks rt shell_answer Scenario.world0)
    = Err "failed to execute 'false': exit status 1" /\
  ran (world (fst (Execute rt m2))) = ["false"] /\
  snd (Execute rt m2) = Nil /\
  State_Status (State (plan (fst (Execute rt m2)))) = ExecutionStatusCompleted /\
  FailedPhases (State (plan (fst (Execute rt m2)))) = [].
Proof. vm_compute. repeat split. Qed.

(* ================================================================== *)
(** ** What a run adds to the file system, the commands and the manifest *)

Lemma world_ext_refl w : world_ext w w.
Proof.
  split; exists []; split; auto. now rewrite app_nil_r.
Qed.

Lemma world_ext_trans w1 w2 w3 : world_ext w1 w2 -> world_ext w2 w3 -> world_ext w1 w3.
Proof.
  intros [(f1 & Hf1 & Pf1) (c1 & Hc1 & Pc1)] [(f2 & Hf2 & Pf2) (c2 & Hc2 & Pc2)].
  split.
  - exists (f2 ++ f1)%list. split; [rewrite Hf2, Hf1, app_assoc; reflexivity|].
    apply Forall_app; auto.
  - exists (c1 ++ c2)%list. split; [rewrite Hc2, Hc1, app_assoc; reflexivity|].
    apply Forall_app; auto.
Qed.

Lemma FileExists_in_app fs gs path :
  FileExists_in (fs ++ gs) path = FileExists_in fs path || FileExists_in gs path.
Proof.
  induction fs as [|f fs IH]; simpl; [reflexivity|].
  destruct (String.eqb (Path f) path); [reflexivity | exact IH].
Qed.

Lemma FileExists_in_In fs path :
  FileExists_in fs path = false -> ~ In path (map Path fs).
Proof.
  induction fs as [|f fs IH]; simpl; [tauto|].
  destruct (String.eqb_spec (Path f) path) as [He|Hn]; [discriminate|].
  intros H [Hc|Hc]; [contradiction | exact (IH H Hc)].
Qed.

Lemma manifest_ext_refl p : manifest_ext p p.
Proof.
  exists []. rewrite app_nil_r. repeat split; [constructor | constructor].
Qed.

Lemma manifest_ext_trans p1 p2 p3 :
  manifest_ext p1 p2 -> manifest_ext p2 p3 -> manifest_ext p1 p3.
Proof.
  intros (n1 & H1 & D1 & F1) (n2 & H2 & D2 & F2).
  exists (n1 ++ n2)%list. rewrite H2, H1. split; [now rewrite app_assoc|].
  rewrite H1 in F2. split.
  - rewrite map_app. apply NoDup_app; auto.
    intros path Hp1 Hp2. apply in_map_iff in Hp2. destruct Hp2 as (e & <- & He).
    rewrite Forall_forall in F2. destruct (F2 e He) as [Hex _].
    rewrite FileExists_in_app in Hex. apply orb_false_iff in Hex.
    destruct Hex as [_ Hex]. exact (FileExists_in_In _ _ Hex Hp1).
  - apply Forall_app. split; [exact F1|].
    eapply Forall_impl; [|exact F2]. simpl. intros e [Hex Hs].
    rewrite FileExists_in_app in Hex. apply orb_false_iff in Hex. tauto.
Qed.

(** A change of plan that leaves the manifest's entries alone. *)
Lemma manifest_ext_same p p' : created p' = created p -> manifest_ext p p'.
Proof.
  intros H. exists []. rewrite app_nil_r. repeat split; auto; constructor.
Qed.

Section Effects.

Variable rt : Runtime.

Lemma AddFile_effect w p m path ph pu w' p' b :
  Manifest p = Some m ->
  AddFile rt w p m path ph pu = (w', p', b) ->
  files w' = files w /\ ran w' = ran w /\
  exists e, Path e = path /\ created p' = (created p ++ [e])%list.
Proof.
  intros Hm. unfold AddFile, created. rewrite Hm. simpl.
  destruct (Manifest_FileStructure m); [destruct (FileStructure p)| |];
    intros H; inversion H; subst; simpl; (split; [reflexivity|]);
    (split; [reflexivity|]); eexists; (split; [|reflexivity]); reflexivity.
Qed.

Lemma os_MkdirAll_effect w path w' e :
  os_MkdirAll rt w path = (w', e) -> files w' = files w /\ ran w' = ran w.
Proof.
  unfold os_MkdirAll. destruct (MkdirAll_error rt w path);
    intros H; inversion H; subst; split; reflexivity.
Qed.

Lemma os_WriteFile_effect w path data w' e :
  os_WriteFile rt w path data = (w', e) ->
  ran w' = ran w /\
  match e with
  | Some _ => files w' = files w
  | None => files w' = (path, data) :: files w
  end.
Proof.
  unfold os_WriteFile. destruct (WriteFile_error rt w path data);
    intros H; inversion H; subst; split; reflexivity.
Qed.

(** One file block: either nothing is written and nothing recorded, or one
    file is written at the cleaned path, which is safe and not yet in the
    manifest, and recorded there when there is a manifest. *)
Lemma processFileMatch_effect phaseName mt w p fc w' p' fc' r :
  processFileMatch rt phaseName mt (w, p, fc) = ((w', p', fc'), r) ->
  let path := Clean rt (TrimSpace rt (nth 2 mt "")) in
  ran w' = ran w /\
  (files w' = files w /\ created p' = created p
   \/ unsafe_path path = false /\ FileExists_in (created p) path = false /\
      (exists data, files w' = (path, data) :: files w) /\
      (created p' = created p \/
       exists e, Path e = path /\ created p' = (created p ++ [e])%list)).
Proof.
  intros H. cbv zeta. set (path := Clean rt (TrimSpace rt (nth 2 mt ""))).
  revert H. unfold processFileMatch.
  destruct (len mt <? 4); [intros H; inversion H; subst; auto|].
  destruct (String.eqb (TrimSpace rt (nth 3 mt "")) "");
    [intros H; inversion H; subst; auto|].
  fold path. fold (unsafe_path path).
  destruct (unsafe_path path) eqn:Hu; [intros H; inversion H; subst; auto|].
  assert (Hex : match Manifest p with
                | Some m => FileExists m path
                | None => false
                end = FileExists_in (created p) path)
    by (unfold created, FileExists; destruct (Manifest p); reflexivity).
  rewrite Hex. destruct (FileExists_in (created p) path) eqn:Hf;
    [intros H; inversion H; subst; auto|].
  destruct (if negb (String.eqb (Dir rt path) ".") && negb (String.eqb (Dir rt path) "")
            then os_MkdirAll rt w (Dir rt path) else (w, None)) as [w1 e1] eqn:Em.
  assert (Hw1 : files w1 = files w /\ ran w1 = ran w).
  { destruct (negb (String.eqb (Dir rt path) ".") && negb (String.eqb (Dir rt path) "")).
    - eapply os_MkdirAll_effect, Em.
    - inversion Em; subst; auto. }
  destruct Hw1 as [Hf1 Hr1].
  destruct e1 as [e1|]; [intros H; inversion H; subst; auto|].
  destruct (os_WriteFile rt w1 path (TrimSpace rt (nth 3 mt ""))) as [w2 e2] eqn:Ew.
  apply os_WriteFile_effect in Ew. destruct Ew as [Hr2 Hf2].
  destruct e2 as [e2|].
  { intros H; inversion H; subst. split; [congruence|]. left. split; congruence. }
  destruct (Manifest p) as [mf|] eqn:EM.
  - destruct (AddFile rt w2 p mf path phaseName "") as [[w3 p3] b] eqn:Ea.
    apply (AddFile_effect _ _ _ _ _ _ _ _ _ EM) in Ea.
    destruct Ea as (Hf3 & Hr3 & e & He & Hc).
    assert (Hgoal : ran w3 = ran w /\
              (files w3 = files w /\ created p3 = created p
               \/ false = false /\ false = false /\
                  (exists data, files w3 = (path, data) :: files w) /\
                  (created p3 = created p \/
                   exists e, Path e = path /\ created p3 = (created p ++ [e])%list))).
    { split; [congruence|]. right. repeat split.
      - eexists. rewrite Hf3, Hf2, Hf1. reflexivity.
      - right. exists e. auto. }
    destruct b; intros H; inversion H; subst; exact Hgoal.
  - intros H; inversion H; subst. split; [congruence|]. right. repeat split.
    + eexists. rewrite Hf2, Hf1. reflexivity.
    + left. reflexivity.
Qed.

Lemma processFileMatch_ext phaseName mt w p fc w' p' fc' r :
  processFileMatch rt phaseName mt (w, p, fc) = ((w', p', fc'), r) ->
  world_ext w w' /\ manifest_ext p p'.
Proof.
  intros H. apply processFileMatch_effect in H. destruct H as [Hr H].
  destruct H as [[Hf Hc] | (Hu & Hx & (data & Hf) & Hc)].
  - split; [|apply manifest_ext_same, Hc].
    split; [exists [] | exists []]; rewrite ?app_nil_r; auto.
  - split.
    + split; [|exists []; rewrite app_nil_r; auto].
      eexists [_]. split; [exact Hf|]. constructor; [exact Hu | constructor].
    + destruct Hc as [Hc | (e & He & Hc)]; [apply manifest_ext_same, Hc|].
      exists [e]. split; [exact Hc|]. simpl. split.
      * constructor; [simpl; tauto | constructor].
      * constructor; [|constructor]. rewrite He. auto.
Qed.

Lemma file_ext_refl s : file_ext s s.
Proof. split; [apply world_ext_refl | apply manifest_ext_refl]. Qed.

Lemma file_ext_trans s1 s2 s3 : file_ext s1 s2 -> file_ext s2 s3 -> file_ext s1 s3.
Proof.
  intros [? ?] [? ?]. split;
    [eapply world_ext_trans | eapply manifest_ext_trans]; eauto.
Qed.

Lemma processFileBlocks_ext response w p phaseName w' p' fc' r :
  processFileBlocks rt response w p phaseName = ((w', p', fc'), r) ->
  world_ext w w' /\ manifest_ext p p'.
Proof.
  unfold processFileBlocks. intros H.
  assert (Hext : file_ext (w, p, [])
            (fst (for_each (processFilePattern rt response phaseName) patterns (w, p, [])))).
  { apply (for_each_rel _ file_ext file_ext_refl file_ext_trans).
    intros pattern s s' r0 Hb. unfold processFilePattern in Hb.
    replace s' with (fst (for_each (processFileMatch rt phaseName)
                             (FindAllStringSubmatch rt pattern response) s))
      by (rewrite Hb; reflexivity).
    apply (for_each_rel _ file_ext file_ext_refl file_ext_trans).
    intros mt [[w1 p1] f1] [[w2 p2] f2] r1 Hm.
    apply processFileMatch_ext in Hm. exact Hm. }
  destruct (for_each (processFilePattern rt response phaseName) patterns (w, p, []))
    as [[[w1 p1] f1] [r1|]]; inversion H; subst; exact Hext.
Qed.

End Effects.

Section EffectsOfExecute.

Variable rt : Runtime.

Lemma world_ext_same w w' : files w' = files w -> ran w' = ran w -> world_ext w w'.
Proof.
  intros Hf Hr. split; exists []; rewrite ?app_nil_r; auto.
Qed.

Lemma processCommandLine_ext line w ce w' ce' r :
  processCommandLine rt line (w, ce) = ((w', ce'), r) -> world_ext w w'.
Proof.
  unfold processCommandLine.
  destruct (String.eqb (TrimSpace rt line) "" || HasPrefix (TrimSpace rt line) "#");
    [intros H; inversion H; subst; apply world_ext_refl|].
  destruct (isDangerousCommand (TrimSpace rt line)) eqn:Hd;
    [intros H; inversion H; subst; apply world_ext_refl|].
  unfold cmd_Run.
  assert (Hext : world_ext w
            {| clock := clock w; files := files w; dirs := dirs w;
               ran := (ran w ++ [TrimSpace rt line])%list; asked := asked w |}).
  { split; [exists []; auto|]. exists [TrimSpace rt line]. split; [reflexivity|].
    constructor; [exact Hd | constructor]. }
  destruct (Run_error rt w (TrimSpace rt line));
    intros H; inversion H; subst; exact Hext.
Qed.

Lemma processCommandBlocks_ext response w w' ce' r :
  processCommandBlocks rt response w = ((w', ce'), r) -> world_ext w w'.
Proof.
  unfold processCommandBlocks. intros H.
  assert (Hext : command_ext (w, [])
            (fst (for_each (processCommandMatch rt)
                    (FindAllStringSubmatch rt commandPattern response) (w, [])))).
  { apply (for_each_rel _ command_ext).
    - intros s; apply world_ext_refl.
    - intros s1 s2 s3; apply world_ext_trans.
    - intros mt s s' r0 Hb. unfold processCommandMatch in Hb.
      destruct (len mt <? 3); [inversion Hb; subst; apply world_ext_refl|].
      destruct (String.eqb (TrimSpace rt (nth 2 mt "")) "");
        [inversion Hb; subst; apply world_ext_refl|].
      replace s' with (fst (for_each (processCommandLine rt)
                              (Split (TrimSpace rt (nth 2 mt "")) nl) s))
        by (rewrite Hb; reflexivity).
      apply (for_each_rel _ command_ext).
      + intros s0; apply world_ext_refl.
      + intros s1 s2 s3; apply world_ext_trans.
      + intros line [w1 c1] [w2 c2] r1 Hl. eapply processCommandLine_ext, Hl. }
  destruct (for_each (processCommandMatch rt) _ (w, [])) as [[w1 c1] [r1|]];
    inversion H; subst; exact Hext.
Qed.

Lemma update_phase_created p i f : created (update_phase p i f) = created p.
Proof. unfold update_phase. destruct (index (Phases p) i); reflexivity. Qed.

Lemma executePhase_ext e w p i w' p' r :
  executePhase rt e w p i = (w', p', r) -> world_ext w w' /\ manifest_ext p p'.
Proof.
  unfold executePhase.
  set (p1 := update_phase p i (fun ph => set_Phase_Status ph PhaseStatusInProgress)).
  assert (H1 : manifest_ext p p1) by (apply manifest_ext_same, update_phase_created).
  destruct (index (Phases p1) i) as [phase|];
    [|intros H; inversion H; subst; split; [apply world_ext_refl | exact H1]].
  destruct (find_agent (orchestrator e) (Phase_Agent phase)) as [a|];
    [|intros H; inversion H; subst; split; [apply world_ext_refl | exact H1]].
  unfold agent_call.
  match goal with
  | |- context [Agent_Execute a w ?q] => destruct (Agent_Execute a w q) as [response|err]
  end;
    [|intros H; inversion H; subst; split; [apply world_ext_same; reflexivity | exact H1]].
  match goal with
  | |- context [processFileBlocks rt ?a ?b ?c ?d] =>
      destruct (processFileBlocks rt a b c d) as [[[w2 p2] fc] rf] eqn:Ef
  end.
  apply processFileBlocks_ext in Ef. destruct Ef as [Hw2 Hp2].
  assert (Hw : world_ext w w2)
    by (eapply world_ext_trans; [apply world_ext_same; reflexivity | exact Hw2]).
  assert (Hp : manifest_ext p p2) by (eapply manifest_ext_trans; eauto).
  destruct (processCommandBlocks rt (Answer response) w2) as [[w3 ce] rc] eqn:Ec.
  apply processCommandBlocks_ext in Ec.
  assert (Hw3 : world_ext w w3) by (eapply world_ext_trans; eauto).
  assert (Hp3 : forall f, manifest_ext p (update_phase p2 i f)).
  { intros f. eapply manifest_ext_trans; [exact Hp|].
    apply manifest_ext_same, update_phase_created. }
  destruct rf; simpl; [destruct rc | destruct rc |];
    intros H; inversion H; subst; auto.
Qed.

Lemma runPhase_ext i m m' r :
  runPhase rt i m = (m', r) ->
  world_ext (world m) (world m') /\ manifest_ext (plan m) (plan m').
Proof.
  unfold runPhase.
  assert (Hrefl : world_ext (world m) (world m) /\ manifest_ext (plan m) (plan m))
    by (split; [apply world_ext_refl | apply manifest_ext_refl]).
  destruct (index (Phases (plan m)) i) as [ph|];
    [|intros H; inversion H; subst; exact Hrefl].
  destruct (areDependenciesMet (plan m) ph) as [[|]|];
    try (intros H; inversion H; subst; exact Hrefl).
  unfold createCheckpoint. simpl.
  destruct (executePhase rt _ _ (plan m) i) as [[w2 p2] re] eqn:E.
  apply executePhase_ext in E. destruct E as [Hw Hp].
  assert (Hw' : world_ext (world m) w2)
    by (eapply world_ext_trans; [apply world_ext_same; reflexivity | exact Hw]).
  destruct re; intros H; inversion H; subst; simpl; split; auto;
    (eapply manifest_ext_trans; [exact Hp|]); apply manifest_ext_same;
    unfold update_State; simpl; rewrite ?update_phase_created; reflexivity.
Qed.

Lemma initProjectStructure_ext w p w' r :
  initProjectStructure rt w p = (w', r) -> world_ext w w'.
Proof.
  unfold initProjectStructure.
  destruct (FileStructure p) as [d|]; [|intros H; inversion H; subst; apply world_ext_refl].
  destruct (len d =? 0); [intros H; inversion H; subst; apply world_ext_refl|].
  intros H.
  replace w' with (fst (for_each (initProjectDir rt) d w))
    by (destruct (for_each (initProjectDir rt) d w) as [w1 [r1|]];
        inversion H; reflexivity).
  apply (for_each_rel _ world_ext world_ext_refl world_ext_trans).
  intros e s s' r0. unfold initProjectDir.
  destruct (String.eqb (fst e) "." || String.eqb (fst e) "");
    [intros H0; inversion H0; subst; apply world_ext_refl|].
  destruct (os_MkdirAll rt s (TrimSuffix (fst e) "/")) as [w1 e1] eqn:Em.
  apply os_MkdirAll_effect in Em. destruct Em as [Hf Hr].
  destruct e1; intros H0; inversion H0; subst; apply world_ext_same; auto.
Qed.

Lemma startup_ext m :
  world_ext (world m) (world (startup rt m)) /\
  manifest_ext (plan m) (plan (startup rt m)).
Proof.
  unfold startup. simpl.
  destruct (initProjectStructure rt _ _) as [w2 r2] eqn:Ei.
  apply initProjectStructure_ext in Ei. simpl. split.
  - eapply world_ext_trans; [apply world_ext_same; reflexivity | exact Ei].
  - apply manifest_ext_same. unfold created, update_State.
    destruct (StartedAt (State (plan m))); simpl;
      destruct (CurrentPhase (State (plan m)) <? 0); simpl;
      destruct (Manifest (plan m)) eqn:EM; simpl; rewrite ?EM; try reflexivity;
      destruct (FileStructure (plan m)); simpl; reflexivity.
Qed.

Lemma machine_ext_trans m1 m2 m3 : machine_ext m1 m2 -> machine_ext m2 m3 -> machine_ext m1 m3.
Proof.
  intros [? ?] [? ?]. split;
    [eapply world_ext_trans | eapply manifest_ext_trans]; eauto.
Qed.

Lemma machine_ext_refl m : machine_ext m m.
Proof. split; [apply world_ext_refl | apply manifest_ext_refl]. Qed.

(** Everything Execute writes is at a safe path, everything it runs is not
    dangerous, and everything it records in the manifest is at a safe path
    that was not there before. *)
Lemma Execute_ext m : machine_ext m (fst (Execute rt m)).
Proof.
  unfold Execute, phaseLoop.
  assert (Hl : machine_ext m
            (fst (for_each (runPhase rt)
                    (range (CurrentPhase (State (plan (startup rt m))))
                           (len (Phases (plan (startup rt m))))) (startup rt m)))).
  { eapply machine_ext_trans; [apply startup_ext|].
    apply (for_each_rel _ machine_ext machine_ext_refl machine_ext_trans).
    intros i s s' r. apply runPhase_ext. }
  destruct (for_each (runPhase rt) _ (startup rt m)) as [m1 [r|]]; simpl in *; [exact Hl|].
  eapply machine_ext_trans; [exact Hl|].
  destruct (StartedAt (State (plan m))); simpl;
    try destruct (StartedAt (State (plan m1))); simpl; split;
    try (apply world_ext_same; reflexivity); apply manifest_ext_same; reflexivity.
Qed.

End EffectsOfExecute.

(* ================================================================== *)
(** ** Trimming and the denylist *)

Section Trimming.

Variable W : ascii -> bool.

Lemma prefix_cons c d a x :
  String.prefix (String c d) (String a x) = true -> c = a /\ String.prefix d x = true.
Proof.
  simpl. destruct (ascii_dec c a) as [->|]; [auto | discriminate].
Qed.

Lemma prefix_all_bytes d : forall x,
  String.prefix d x = true -> all_bytes W x = true -> all_bytes W d = true.
Proof.
  induction d as [|c d IH]; intros x Hp Hx; [reflexivity|].
  destruct x as [|a x]; [discriminate|].
  apply prefix_cons in Hp. destruct Hp as [-> Hp].
  simpl in *. apply andb_true_iff in Hx. destruct Hx as [Ha Hx].
  rewrite Ha. simpl. eapply IH; eauto.
Qed.

Lemma all_bytes_last d : forall c,
  W c = true -> all_bytes W d = true -> W (last_byte d c) = true.
Proof.
  induction d as [|a d IH]; intros c Hc Hd; simpl; [exact Hc|].
  simpl in Hd. apply andb_true_iff in Hd. destruct Hd as [Ha Hd]. apply IH; assumption.
Qed.

(** A string that ends outside [W] and is a prefix of [t ++ post], where
    [post] is made of [W], is a prefix of [t]. *)
Lemma prefix_inside d : forall c t post,
  all_bytes W post = true ->
  W (last_byte d c) = false ->
  String.prefix (String c d) (t ++ post) = true ->
  String.prefix (String c d) t = true.
Proof.
  induction d as [|b d IH]; intros c t post Hpost Hlast Hp.
  - destruct t as [|a t].
    + simpl in Hp. destruct post as [|a post]; [discriminate|].
      apply prefix_cons in Hp. destruct Hp as [-> _].
      simpl in Hpost, Hlast. rewrite Hlast in Hpost. discriminate.
    + simpl in Hp |- *. destruct (ascii_dec c a); [|discriminate].
      destruct t; reflexivity.
  - destruct t as [|a t].
    + simpl append in Hp.
      pose proof (prefix_all_bytes _ _ Hp Hpost) as Hall.
      simpl in Hall. apply andb_true_iff in Hall. destruct Hall as [Hc Hall].
      apply andb_true_iff in Hall. destruct Hall as [Hb Hall].
      simpl in Hlast. rewrite (all_bytes_last d b Hb Hall) in Hlast. discriminate.
    + change (String a t ++ post) with (String a (t ++ post)) in Hp.
      apply prefix_cons in Hp. destruct Hp as [-> Hp].
      simpl in Hlast.
      pose proof (IH b t post Hpost Hlast Hp) as H.
      simpl. destruct (ascii_dec a a) as [_|Hn]; [exact H | contradiction Hn; reflexivity].
Qed.

(** An occurrence of a string that begins and ends outside [W] in
    [pre ++ t ++ post], where [pre] and [post] are made of [W], is an
    occurrence in [t]. *)
Lemma Contains_inside c d pre t post :
  W c = false -> W (last_byte d c) = false ->
  all_bytes W pre = true -> all_bytes W post = true ->
  Contains (pre ++ t ++ post) (String c d) = true ->
  Contains t (String c d) = true.
Proof.
  intros Hc Hlast Hpre Hpost.
  induction pre as [|a pre IH].
  - clear Hpre. simpl append. induction t as [|a t IH].
    + simpl append. intros H.
      assert (Hno : forall x, all_bytes W x = true -> Contains x (String c d) = false).
      { induction x as [|b x IHx]; intros Hx; [reflexivity|].
        simpl in Hx. apply andb_true_iff in Hx. destruct Hx as [Hb Hx].
        cbn [Contains]. rewrite (IHx Hx), orb_false_r.
        destruct (String.prefix (String c d) (String b x)) eqn:E; [|reflexivity].
        apply prefix_cons in E. destruct E as [-> _]. congruence. }
      rewrite (Hno post Hpost) in H. discriminate.
    + change (String a t ++ post) with (String a (t ++ post)).
      cbn [Contains]. intros H. apply orb_true_iff in H. apply orb_true_iff.
      destruct H as [H | H].
      * left. apply (prefix_inside d c (String a t) post Hpost Hlast). exact H.
      * right. apply IH, H.
  - simpl in Hpre. apply andb_true_iff in Hpre. destruct Hpre as [Ha Hpre].
    change (String a pre ++ t ++ post) with (String a (pre ++ t ++ post)).
    cbn [Contains]. intros H. apply orb_true_iff in H. destruct H as [H | H].
    + apply prefix_cons in H. destruct H as [-> _]. congruence.
    + apply IH; assumption.
Qed.

End Trimming.

(** The patterns of the denylist begin and end with a byte that is not part
    of white space: they occur in a line exactly when they occur in the line
    without its leading and trailing white space. *)
Lemma dangerous_inside pre t post d :
  In d dangerous ->
  all_bytes space_byte pre = true -> all_bytes space_byte post = true ->
  Contains (pre ++ t ++ post) d = true -> Contains t d = true.
Proof.
  intros Hd Hpre Hpost H.
  destruct Hd as [<- | [<- | [<- | []]]];
    (eapply Contains_inside; [| | exact Hpre | exact Hpost | exact H]; reflexivity).
Qed.

(* ================================================================== *)
(** ** The claims on file and command extraction *)

Lemma contains_any_true cmd ds :
  contains_any cmd ds = true <-> exists d, In d ds /\ Contains cmd d = true.
Proof.
  induction ds as [|d ds IH]; simpl.
  - split; [discriminate | intros (d & [] & _)].
  - destruct (Contains cmd d) eqn:E.
    + split; [intros _; exists d; auto | reflexivity].
    + rewrite IH. split.
      * intros (d' & Hin & Hc). exists d'. auto.
      * intros (d' & [<- | Hin] & Hc); [congruence | exists d'; auto].
Qed.

Lemma contains_any_false cmd ds :
  contains_any cmd ds = false <-> forall d, In d ds -> Contains cmd d = false.
Proof.
  split.
  - intros H d Hin. destruct (Contains cmd d) eqn:E; [|reflexivity].
    assert (Ht : contains_any cmd ds = true) by (apply contains_any_true; eauto).
    congruence.
  - intros H. destruct (contains_any cmd ds) eqn:E; [|reflexivity].
    apply contains_any_true in E. destruct E as (d & Hin & Hc).
    rewrite (H d Hin) in Hc. discriminate.
Qed.

(** C4. Within a plan run, a file block whose cleaned path is already in
    manifest.createdFiles is rejected: nothing is written and nothing is
    recorded. Execute always works with a manifest, and the entries one call
    of Execute appends to createdFiles have paths that differ from one another
    and from every path recorded before, so no path is recorded twice. *)
Theorem C4_created_files_never_overwritten (rt : Runtime) :
  (forall phaseName mt w p fc mf,
     Manifest p = Some mf ->
     FileExists mf (Clean rt (TrimSpace rt (nth 2 mt ""))) = true ->
     processFileMatch rt phaseName mt (w, p, fc) = ((w, p, fc), None)) /\
  (forall m, Manifest (plan (startup rt m)) <> None) /\
  (forall m, exists ne,
     created (plan (fst (Execute rt m))) = (created (plan m) ++ ne)%list /\
     NoDup (map Path ne) /\
     Forall (fun e => FileExists_in (created (plan m)) (Path e) = false) ne) /\
  (forall m, NoDup (map Path (created (plan m))) ->
             NoDup (map Path (created (plan (fst (Execute rt m)))))).
Proof.
  split; [|split; [|split]].
  - intros phaseName mt w p fc mf Hm Hex. unfold processFileMatch.
    rewrite Hm, Hex.
    destruct (len mt <? 4); [reflexivity|].
    destruct (String.eqb (TrimSpace rt (nth 3 mt "")) ""); [reflexivity|].
    destruct (HasPrefix _ ".." || HasPrefix _ "/"); reflexivity.
  - intros m. apply startup_plan.
  - intros m. destruct (Execute_ext rt m) as [_ (ne & H & Hd & Hf)].
    exists ne. repeat split; auto.
    eapply Forall_impl; [|exact Hf]. simpl. tauto.
  - intros m Hnd. destruct (Execute_ext rt m) as [_ (ne & H & Hd & Hf)].
    rewrite H, map_app. apply NoDup_app; auto.
    intros path Hp1 Hp2. apply in_map_iff in Hp2. destruct Hp2 as (e & <- & He).
    rewrite Forall_forall in Hf. destruct (Hf e He) as [Hex _].
    exact (FileExists_in_In _ _ Hex Hp1).
Qed.

(** An answer that gives the file a.py twice: the second block is rejected,
    the manifest holds a.py once. *)
Lemma C4_witness :
  let block := Scenario.fence ++ "python a.py" ++ nl ++ "print(1)" ++ nl ++ Scenario.fence in
  let answer := block ++ nl ++ block in
  let tbl := [ (nth 0 patterns "", answer,
                [[block; "python"; "a.py"; "print(1)" ++ nl];
                 [block; "python"; "a.py"; "print(1)" ++ nl]]) ] in
  let rt := Scenario.runtime tbl [] [] [] in
  let m := Scenario.machine (Scenario.stub answer)
             (Scenario.plan_of [Scenario.phase "phase-1" "one" []]) in
  map Path (created (plan (fst (Execute rt m)))) = ["a.py"] /\
  NoDup (map Path (created (plan (fst (Execute rt m))))) /\
  processFileMatch rt "one" [block; "python"; "a.py"; "print(1)" ++ nl]
    (world (fst (Execute rt m)), plan (fst (Execute rt m)), [])
  = ((world (fst (Execute rt m)), plan (fst (Execute rt m)), []), None).
Proof.
  intros block answer tbl rt m.
  destruct (C4_created_files_never_overwritten rt) as (Hrej & _ & _ & Hnd).
  split; [vm_compute; reflexivity|]. split.
  - apply Hnd. vm_compute. constructor.
  - destruct (Manifest (plan (fst (Execute rt m)))) as [mf|] eqn:Em;
      [|vm_compute in Em; discriminate].
    apply (Hrej "one" _ _ _ _ mf Em).
    vm_compute in Em. inversion Em; subst. vm_compute. reflexivity.
Defined.

(** C5. A file block whose cleaned path starts with ".." or with "/" is
    skipped: nothing is written, nothing is recorded, the loop goes on. Every
    file processFileBlocks writes, and every entry it adds to the manifest,
    is at a cleaned path that starts neither with ".." nor with "/"; the
    same holds of everything a whole call of Execute writes and records. *)
Theorem C5_unsafe_paths_never_written (rt : Runtime) :
  (forall phaseName mt s,
     HasPrefix (Clean rt (TrimSpace rt (nth 2 mt ""))) ".." = true \/
     HasPrefix (Clean rt (TrimSpace rt (nth 2 mt ""))) "/" = true ->
     processFileMatch rt phaseName mt s = (s, None)) /\
  (forall response w p phaseName w' p' fc r,
     processFileBlocks rt response w p phaseName = ((w', p', fc), r) ->
     (exists nf, files w' = (nf ++ files w)%list /\
        Forall (fun f => HasPrefix (fst f) ".." = false /\
                         HasPrefix (fst f) "/" = false) nf) /\
     (exists ne, created p' = (created p ++ ne)%list /\
        Forall (fun e => HasPrefix (Path e) ".." = false /\
                         HasPrefix (Path e) "/" = false) ne)) /\
  (forall m,
     (exists nf, files (world (fst (Execute rt m))) = (nf ++ files (world m))%list /\
        Forall (fun f => HasPrefix (fst f) ".." = false /\
                         HasPrefix (fst f) "/" = false) nf) /\
     (exists ne, created (plan (fst (Execute rt m))) = (created (plan m) ++ ne)%list /\
        Forall (fun e => HasPrefix (Path e) ".." = false /\
                         HasPrefix (Path e) "/" = false) ne)).
Proof.
  assert (Hext : forall w w' p p', world_ext w w' -> manifest_ext p p' ->
            (exists nf, files w' = (nf ++ files w)%list /\
               Forall (fun f => HasPrefix (fst f) ".." = false /\
                                HasPrefix (fst f) "/" = false) nf) /\
            (exists ne, created p' = (created p ++ ne)%list /\
               Forall (fun e => HasPrefix (Path e) ".." = false /\
                                HasPrefix (Path e) "/" = false) ne)).
  { intros w w' p p' [(nf & Hf & Pf) _] (ne & He & _ & Pe). split.
    - exists nf. split; [exact Hf|]. eapply Forall_impl; [|exact Pf].
      simpl. unfold unsafe_path. intros f. apply orb_false_iff.
    - exists ne. split; [exact He|]. eapply Forall_impl; [|exact Pe].
      simpl. unfold unsafe_path. intros e [_ H]. apply orb_false_iff, H. }
  split; [|split].
  - intros phaseName mt [[w p] fc] Hu. unfold processFileMatch.
    assert (Hu' : HasPrefix (Clean rt (TrimSpace rt (nth 2 mt ""))) ".."
                  || HasPrefix (Clean rt (TrimSpace rt (nth 2 mt ""))) "/" = true)
      by (apply orb_true_iff; exact Hu).
    rewrite Hu'.
    destruct (len mt <? 4); [reflexivity|].
    destruct (String.eqb (TrimSpace rt (nth 3 mt "")) ""); reflexivity.
  - intros response w p phaseName w' p' fc r H.
    apply processFileBlocks_ext in H. destruct H. apply Hext; assumption.
  - intros m. destruct (Execute_ext rt m). apply Hext; assumption.
Qed.

(** The block of scenario 4, python ../escape.py, is skipped. *)
Lemma C5_witness :
  let rt := Scenario.runtime [] [] [] [] in
  let s := (Scenario.world0, Scenario.plan_of [], @nil string) in
  processFileMatch rt "one" ["(block)"; "python"; "../escape.py"; "print(1)" ++ nl] s
  = (s, None).
Proof.
  intros rt s.
  apply (proj1 (C5_unsafe_paths_never_written rt)).
  left. vm_compute. reflexivity.
Defined.

(** C6. A line of a shell block which, trimmed as the code trims it,
    contains a pattern of the denylist is skipped: no command is started, the
    loop goes on to the next line and no error is returned for it. So is a
    line that contains a pattern before it is trimmed, when strings.TrimSpace
    takes away leading and trailing white space only. Every command
    processCommandBlocks starts, and every command a whole call of Execute
    starts, contains no pattern of the denylist. *)
Theorem C6_dangerous_commands_never_run (rt : Runtime) :
  (forall line s,
     (exists d, In d ["rm -rf /"; "rm -rf ~"; ":(){ :|:& };:"] /\
                Contains (TrimSpace rt line) d = true) ->
     processCommandLine rt line s = (s, None)) /\
  (forall line pre post s,
     line = pre ++ TrimSpace rt line ++ post ->
     all_bytes space_byte pre = true -> all_bytes space_byte post = true ->
     (exists d, In d ["rm -rf /"; "rm -rf ~"; ":(){ :|:& };:"] /\
                Contains line d = true) ->
     processCommandLine rt line s = (s, None)) /\
  (forall response w, exists nc,
     ran (fst (fst (processCommandBlocks rt response w))) = (ran w ++ nc)%list /\
     Forall (fun c => forall d, In d ["rm -rf /"; "rm -rf ~"; ":(){ :|:& };:"] ->
                                Contains c d = false) nc) /\
  (forall m, exists nc,
     ran (world (fst (Execute rt m))) = (ran (world m) ++ nc)%list /\
     Forall (fun c => forall d, In d ["rm -rf /"; "rm -rf ~"; ":(){ :|:& };:"] ->
                                Contains c d = false) nc).
Proof.
  assert (Hext : forall w w', world_ext w w' ->
            exists nc, ran w' = (ran w ++ nc)%list /\
              Forall (fun c => forall d, In d dangerous -> Contains c d = false) nc).
  { intros w w' [_ (nc & Hr & Pc)]. exists nc. split; [exact Hr|].
    eapply Forall_impl; [|exact Pc]. intros c Hc.
    exact (proj1 (contains_any_false c dangerous) Hc). }
  assert (Hskip : forall line s,
            (exists d, In d dangerous /\ Contains (TrimSpace rt line) d = true) ->
            processCommandLine rt line s = (s, None)).
  { intros line [w ce] Hd. unfold processCommandLine.
    assert (Hd' : isDangerousCommand (TrimSpace rt line) = true)
      by exact (proj2 (contains_any_true (TrimSpace rt line) dangerous) Hd).
    rewrite Hd'.
    destruct (String.eqb (TrimSpace rt line) "" || HasPrefix (TrimSpace rt line) "#");
      reflexivity. }
  split; [exact Hskip|]. split; [|split].
  - intros line pre post s Hline Hpre Hpost (d & Hin & Hc). apply Hskip.
    exists d. split; [exact Hin|].
    assert (Hc' : Contains (pre ++ TrimSpace rt line ++ post) d = true)
      by (rewrite <- Hline; exact Hc).
    exact (dangerous_inside pre _ post d Hin Hpre Hpost Hc').
  - intros response w.
    destruct (processCommandBlocks rt response w) as [[w' ce] r] eqn:E.
    apply processCommandBlocks_ext in E. apply Hext, E.
  - intros m. destruct (Execute_ext rt m) as [Hw _]. apply Hext, Hw.
Qed.

(** Scenario 5: the line rm -rf / is not run. *)
Lemma C6_witness :
  let rt := Scenario.runtime [] [] [] [] in
  processCommandLine rt "  rm -rf /" (Scenario.world0, []) = ((Scenario.world0, []), None).
Proof.
  intros rt.
  apply (proj1 (proj2 (C6_dangerous_commands_never_run rt)) "  rm -rf /" "  " "").
  - vm_compute. reflexivity.
  - reflexivity.
  - reflexivity.
  - exists "rm -rf /". split; [simpl; auto | vm_compute; reflexivity].
Defined.

(* ================================================================== *)
(** ** Dependencies *)

Lemma for_each_returned {A S : Type} (body : A -> S -> S * option result) xs :
  forall s s' r,
    for_each body xs s = (s', Some r) ->
    exists xs1 x xs2 s1,
      xs = (xs1 ++ x :: xs2)%list /\
      for_each body xs1 s = (s1, None) /\ body x s1 = (s', Some r).
Proof.
  induction xs as [|x xs IH]; intros s s' r; simpl; [discriminate|].
  destruct (body x s) as [s1 [r1|]] eqn:E.
  - intros H; inversion H; subst. exists [], x, xs, s. auto.
  - intros H. apply IH in H. destruct H as (xs1 & y & xs2 & s2 & -> & H1 & H2).
    exists (x :: xs1), y, xs2, s2. simpl. rewrite E. auto.
Qed.

Section Dependencies.

Variable rt : Runtime.

Lemma depCompleted_spec phases completed D :
  (forall j, In j completed -> 0 <= j < len phases) ->
  exists b, depCompleted phases completed D = Some b /\
    (b = true <->
     exists j cp, In j completed /\ index phases j = Some cp /\
                  (Phase_ID cp = D \/ Phase_Name cp = D)).
Proof.
  induction completed as [|j completed IH]; intros Hv; simpl.
  - exists false. split; [reflexivity|]. split; [discriminate|].
    intros (j & cp & [] & _).
  - destruct (index_in_range phases j (Hv j (or_introl eq_refl))) as [cp Hcp].
    rewrite Hcp.
    destruct (String.eqb_spec (Phase_ID cp) D) as [Hid|Hid]; simpl.
    { exists true. split; [reflexivity|]. split; [|reflexivity].
      intros _. exists j, cp. auto. }
    destruct (String.eqb_spec (Phase_Name cp) D) as [Hnm|Hnm]; simpl.
    { exists true. split; [reflexivity|]. split; [|reflexivity].
      intros _. exists j, cp. auto. }
    destruct IH as (b & Hb & Hiff); [intros k Hk; apply Hv; right; exact Hk|].
    exists b. split; [exact Hb|]. rewrite Hiff. split.
    + intros (k & cp' & Hk & Hi & Hm). exists k, cp'. auto.
    + intros (k & cp' & [<- | Hk] & Hi & Hm).
      * rewrite Hcp in Hi. inversion Hi; subst. tauto.
      * exists k, cp'. auto.
Qed.

Lemma areDependenciesMet_spec p ph :
  (forall j, In j (CompletedPhases (State p)) -> 0 <= j < len (Phases p)) ->
  exists b, areDependenciesMet p ph = Some b /\
    (b = true <-> forall D, In D (Phase_Dependencies ph) -> dep_matched p D).
Proof.
  intros Hv. unfold areDependenciesMet, dep_matched.
  destruct (Z.eqb_spec (len (Phase_Dependencies ph)) 0) as [H0|H0].
  { exists true. split; [reflexivity|]. split; [|reflexivity].
    destruct (Phase_Dependencies ph); [intros _ D []|discriminate]. }
  clear H0. induction (Phase_Dependencies ph) as [|D deps IH]; simpl.
  - exists true. split; [reflexivity|]. split; [intros _ D []|reflexivity].
  - destruct (depCompleted_spec (Phases p) (CompletedPhases (State p)) D Hv)
      as (b & Hb & Hiff).
    rewrite Hb. destruct b.
    + destruct IH as (b' & Hb' & Hiff'). exists b'. split; [exact Hb'|].
      rewrite Hiff'. split.
      * intros H D' [<- | Hin]; [apply Hiff; reflexivity | apply H, Hin].
      * intros H D' Hin. apply H. right. exact Hin.
    + exists false. split; [reflexivity|]. split; [discriminate|].
      intros H. apply Hiff, H. left. reflexivity.
Qed.

(** What the loop returns is what Execute returns. *)
Lemma Execute_returned m m' r :
  phaseLoop rt (startup rt m) = (m', Some r) -> Execute rt m = (m', r).
Proof. unfold Execute. intros ->. reflexivity. Qed.

End Dependencies.

(** C7. Let the completed indices be valid. The check before phase [i] passes
    exactly when every entry of the phase's dependencies is the id or the name
    of a phase whose index is in completedPhases; with no dependencies it
    passes. When it does not pass the iteration changes nothing (no checkpoint,
    no request to an agent, no change of the plan) and returns the error
    dependencies not met for phase <name>, and this is what Execute returns
    when its loop reaches that phase. *)
Theorem C7_phase_runs_only_with_dependencies_met
    (rt : Runtime) (m : Machine) (i : Z) (ph : Phase)
    (Hi : index (Phases (plan m)) i = Some ph)
    (Hv : forall j, In j (CompletedPhases (State (plan m))) ->
                    0 <= j < len (Phases (plan m))) :
  (Phase_Dependencies ph = [] -> areDependenciesMet (plan m) ph = Some true) /\
  ((forall D, In D (Phase_Dependencies ph) -> dep_matched (plan m) D) ->
   areDependenciesMet (plan m) ph = Some true) /\
  (~ (forall D, In D (Phase_Dependencies ph) -> dep_matched (plan m) D) ->
   areDependenciesMet (plan m) ph = Some false /\
   runPhase rt i m =
     (m, Some (Err ("dependencies not met for phase " ++ Phase_Name ph))) /\
   forall m0,
     (exists before after,
        range (CurrentPhase (State (plan (startup rt m0))))
              (len (Phases (plan (startup rt m0)))) = (before ++ i :: after)%list /\
        for_each (runPhase rt) before (startup rt m0) = (m, None)) ->
     Execute rt m0 =
       (m, Err ("dependencies not met for phase " ++ Phase_Name ph))) /\
  (forall m' r, runPhase rt i m = (m', r) ->
                world m' <> world m \/ plan m' <> plan m ->
                forall D, In D (Phase_Dependencies ph) -> dep_matched (plan m) D).
Proof.
  destruct (areDependenciesMet_spec (plan m) ph Hv) as (b & Hb & Hiff).
  assert (Hun : b = false ->
            runPhase rt i m =
              (m, Some (Err ("dependencies not met for phase " ++ Phase_Name ph)))).
  { intros ->. unfold runPhase. rewrite Hi, Hb. reflexivity. }
  split; [|split; [|split]].
  - intros Hn. rewrite Hb. f_equal. apply Hiff. rewrite Hn. intros D [].
  - intros Hm. rewrite Hb. f_equal. apply Hiff, Hm.
  - intros Hn. assert (b = false) as Hf by (destruct b; [tauto | reflexivity]).
    split; [rewrite Hb, Hf; reflexivity|]. split; [apply Hun, Hf|].
    intros m0 (before & after & Hr & Hl). apply Execute_returned.
    unfold phaseLoop. rewrite Hr, for_each_app, Hl. simpl.
    rewrite (Hun Hf). reflexivity.
  - intros m' r Hrun Hch. apply Hiff. destruct b; [reflexivity|].
    rewrite (Hun eq_refl) in Hrun. inversion Hrun; subst. tauto.
Qed.

(** Scenario 2 with a third phase whose dependency names no phase: alpha and
    beta are completed, gamma is not run and Execute returns the error. *)
Lemma C7_witness :
  let rt := Scenario.runtime [] [] [] [] in
  let m0 := Scenario.machine (Scenario.stub "done")
              (Scenario.plan_of [Scenario.phase "a" "alpha" [];
                                 Scenario.phase "b" "beta" ["alpha"];
                                 Scenario.phase "c" "gamma" ["delta"]]) in
  let m := fst (Execute rt m0) in
  CompletedPhases (State (plan m)) = [0; 1] /\
  runPhase rt 2 m = (m, Some (Err "dependencies not met for phase gamma")) /\
  Execute rt m0 = (m, Err "dependencies not met for phase gamma").
Proof.
  intros rt m0 m.
  assert (Hi : index (Phases (plan m)) 2 = Some (Scenario.phase "c" "gamma" ["delta"]))
    by (vm_compute; reflexivity).
  assert (Hv : forall j, In j (CompletedPhases (State (plan m))) ->
                         0 <= j < len (Phases (plan m))).
  { intros j Hj. vm_compute in Hj.
    assert (Hl : len (Phases (plan m)) = 3) by (vm_compute; reflexivity).
    rewrite Hl. lia. }
  destruct (C7_phase_runs_only_with_dependencies_met rt m 2 _ Hi Hv)
    as (_ & _ & Hun & _).
  assert (Hn : ~ (forall D, In D (Phase_Dependencies (Scenario.phase "c" "gamma" ["delta"])) ->
                            dep_matched (plan m) D)).
  { intros H. destruct (H "delta" (or_introl eq_refl)) as (j & cp & Hj & Hcp & Hm).
    vm_compute in Hj. destruct Hj as [<- | [<- | []]];
      vm_compute in Hcp; inversion Hcp; subst; vm_compute in Hm;
      destruct Hm; discriminate. }
  destruct (Hun Hn) as (_ & Hrun & Hex).
  split; [vm_compute; reflexivity|]. split; [exact Hrun|].
  apply Hex. exists [0; 1], []. split; vm_compute; reflexivity.
Defined.

(* ================================================================== *)
(** ** Resuming *)


Section Resume.

Variable rt : Runtime.
















End Resume.

Section ResumeExecute.

Variable rt : Runtime.


(** What Execute's last steps keep of the machine the loop leaves, and the
    two times they set. *)
Lemma Execute_after_loop m :
  let m1 := fst (phaseLoop rt (startup rt m)) in
  asked (world (fst (Execute rt m))) = asked (world m1) /\
  Phases (plan (fst (Execute rt m))) = Phases (plan m1) /\
  match snd (phaseLoop rt (startup rt m)) with
  | Some r =>
      snd (Execute rt m) = r /\
      StartedAt (State (plan (fst (Execute rt m)))) = StartedAt (State (plan m1))
  | None =>
      CompletedAt (State (plan (fst (Execute rt m)))) = Some (clock (world m1)) /\
      StartedAt (State (plan (fst (Execute rt m)))) =
        match StartedAt (State (plan m)) with
        | None => Some (clock (world m1))
        | Some _ => StartedAt (State (plan m1))
        end
  end.
Proof.
  unfold Execute. destruct (phaseLoop rt (startup rt m)) as [m1 [r|]]; simpl.
  - repeat split.
  - destruct (StartedAt (State (plan m))); simpl;
      try (destruct (StartedAt (State (plan m1))) eqn:E; simpl; rewrite ?E);
      repeat split.
Qed.

End ResumeExecute.


(* ================================================================== *)
(** ** Phase statuses *)

Section Statuses.

Variable rt : Runtime.

Lemma status_step_refl m : status_step m m.
Proof. intros j ph H. exists ph. auto. Qed.

Lemma status_step_trans m1 m2 m3 :
  status_step m1 m2 -> status_step m2 m3 -> status_step m1 m3.
Proof.
  intros H12 H23 j ph3 H3.
  destruct (H23 j ph3 H3) as (ph2 & H2 & Hs2).
  destruct (H12 j ph2 H2) as (ph1 & H1 & Hs1).
  exists ph1. split; [exact H1|].
  destruct Hs2 as [-> | Hs2]; tauto.
Qed.

Lemma runPhase_status i m m' r : runPhase rt i m = (m', r) -> status_step m m'.
Proof.
  intros H. apply runPhase_cases in H.
  destruct H as [? -> ? | ? ? ? -> ? | ? ? ? -> ? | ph ph' Hi _ _ _ HP _ _ _ Hc];
    try apply status_step_refl.
  intros j phj Hj. rewrite HP in Hj.
  destruct (Z.eq_dec i j) as [<- | Hne].
  - rewrite (index_store_same _ _ _ _ Hi) in Hj. inversion Hj; subst.
    exists ph. split; [exact Hi|].
    destruct Hc as [(_ & _ & Hs) | [(_ & _ & ->) | (_ & _ & Hs)]]; auto.
  - rewrite index_store_other in Hj by exact Hne. exists phj. auto.
Qed.

Lemma Execute_status m : status_step m (fst (Execute rt m)).
Proof.
  destruct (Execute_after_loop rt m) as (_ & HP & _).
  destruct (startup_plan rt m) as (_ & HP0 & _).
  assert (H : status_step (startup rt m) (fst (phaseLoop rt (startup rt m)))).
  { unfold phaseLoop.
    apply (for_each_rel _ status_step status_step_refl status_step_trans).
    intros i s s' r. apply runPhase_status. }
  intros j ph' Hj. rewrite HP in Hj. destruct (H j ph' Hj) as (ph & Hi & Hs).
  exists ph. rewrite <- HP0. auto.
Qed.

Lemma Execute_Err m m' msg :
  Execute rt m = (m', Err msg) -> phaseLoop rt (startup rt m) = (m', Some (Err msg)).
Proof.
  unfold Execute. destruct (phaseLoop rt (startup rt m)) as [m1 [r|]].
  - intros H; inversion H; subst. reflexivity.
  - cbv zeta. destruct (StartedAt (State (plan (finish _ m1)))); discriminate.
Qed.

End Statuses.

(** C10. The executor never writes the status failed into a phase. A phase
    run that returns an error leaves its phase in_progress; when Execute
    returns with the plan failed, the index it appended to failedPhases is
    that of a phase whose status is in_progress; and the status of every
    phase after Execute is in_progress, completed, or the status the phase
    had before the call. *)
Theorem C10_failed_phase_stays_in_progress (rt : Runtime) :
  (forall e w p i ph w' p' msg,
     index (Phases p) i = Some ph ->
     executePhase rt e w p i = (w', p', Err msg) ->
     index (Phases p') i = Some (set_Phase_Status ph PhaseStatusInProgress)) /\
  (forall m m' msg,
     Execute rt m = (m', Err msg) ->
     State_Status (State (plan m')) = ExecutionStatusFailed ->
     exists i ph,
       FailedPhases (State (plan m')) = (FailedPhases (State (plan m)) ++ [i])%list /\
       index (Phases (plan m')) i = Some ph /\
       Phase_Status ph = PhaseStatusInProgress) /\
  (forall m j ph',
     index (Phases (plan (fst (Execute rt m)))) j = Some ph' ->
     exists ph, index (Phases (plan m)) j = Some ph /\
       (Phase_Status ph' = Phase_Status ph \/
        Phase_Status ph' = PhaseStatusInProgress \/
        Phase_Status ph' = PhaseStatusCompleted)).
Proof.
  split; [|split].
  - intros e w p i ph w' p' msg Hi H.
    destruct (executePhase_plan rt _ _ _ _ _ _ _ _ Hi H) as (_ & _ & ph' & HP & _ & _ & _ & _ & Hne).
    rewrite HP, (index_store_same _ _ _ _ Hi), Hne by discriminate. reflexivity.
  - intros m m' msg H Hfailed. apply Execute_Err in H. unfold phaseLoop in H.
    apply for_each_returned in H. destruct H as (xs1 & i & xs2 & m1 & _ & Hl & Hr).
    apply loop_completed in Hl. destruct Hl as (_ & HF & HS & _).
    destruct (startup_plan rt m) as (HS0 & _).
    rewrite HS0 in HF, HS. simpl in HF, HS.
    apply runPhase_cases in Hr.
    destruct Hr as [? -> ? | ? ? ? -> ? | ? ? ? -> ? | ph ph' Hi _ _ _ HP _ _ _ Hc];
      try (rewrite HS in Hfailed; discriminate).
    destruct Hc as [(Hr & _) | [(_ & HSt & ->) | (Hr & _)]]; try discriminate.
    exists i, (set_Phase_Status ph PhaseStatusInProgress).
    rewrite HSt, HP. simpl. rewrite HF. split; [reflexivity|].
    split; [eapply index_store_same, Hi | reflexivity].
  - intros m. apply Execute_status.
Qed.

(** A one-phase plan whose agent's call is cancelled: the plan is failed,
    failedPhases is [0], and phase 0 is in_progress. *)
Lemma C10_witness :
  let rt := Scenario.runtime [] [] [] [] in
  let m := Scenario.machine (Scenario.flaky "done")
             (Scenario.plan_of [Scenario.phase "phase-1" "one" []]) in
  exists i ph,
    FailedPhases (State (plan (fst (Execute rt m)))) = [i] /\
    index (Phases (plan (fst (Execute rt m)))) i = Some ph /\
    Phase_Status ph = PhaseStatusInProgress.
Proof.
  intros rt m.
  destruct (C10_failed_phase_stays_in_progress rt) as (_ & H & _).
  destruct (H m (fst (Execute rt m)) "phase 1 failed: context canceled") as (i & ph & HF & Hi & Hs).
  - vm_compute. reflexivity.
  - vm_compute. reflexivity.
  - exists i, ph. repeat split; assumption.
Defined.

(* ================================================================== *)
(** ** Reading back what was written *)

Lemma dec_items_map {A} (f : option JSON -> option A) (g : A -> JSON) (l : list A) :
  Forall (fun a => f (Some (g a)) = Some a) l ->
  dec_items f (map g l) = Some l.
Proof.
  induction 1 as [|a l Ha _ IH]; simpl; [reflexivity|].
  rewrite Ha. simpl. rewrite IH. reflexivity.
Qed.

Lemma dec_strings_marshal (l : list string) :
  dec_list dec_string (Some (marshal_strings l)) = Some l.
Proof.
  simpl. apply dec_items_map. apply Forall_forall. reflexivity.
Qed.

Lemma dec_ints_marshal (l : list Z) :
  Forall (fun z => is_int z = true) l ->
  dec_list dec_int (Some (marshal_ints l)) = Some l.
Proof.
  intros H. simpl. apply dec_items_map.
  eapply Forall_impl; [|exact H]. simpl. intros z ->. reflexivity.
Qed.

Lemma dec_Task_marshal (t : Task) : dec_Task (Some (marshal_Task t)) = Some t.
Proof.
  destruct t as [id description completed result error].
  unfold marshal_Task, dec_Task, omitempty. simpl.
  destruct (String.eqb_spec result "") as [-> | _];
    destruct (String.eqb_spec error "") as [-> | _]; reflexivity.
Qed.

Lemma dec_Phase_marshal (ph : Phase) : dec_Phase (Some (marshal_Phase ph)) = Some ph.
Proof.
  destruct ph as [id name agent tasks criteria estimated dependencies status].
  unfold marshal_Phase, dec_Phase.
  cbn [lookup String.eqb Ascii.eqb Bool.eqb Phase_ID Phase_Name Phase_Agent Phase_Tasks
       Phase_SuccessCriteria Phase_EstimatedTime Phase_Dependencies Phase_Status
       dec_string bind].
  rewrite dec_strings_marshal.
  replace (dec_list dec_Task (Some (JArray (map marshal_Task tasks)))) with (Some tasks).
  - reflexivity.
  - symmetry. simpl. apply dec_items_map. apply Forall_forall.
    intros t _. apply dec_Task_marshal.
Qed.

Lemma dec_ExecutionState_marshal (s : ExecutionState) :
  is_int (CurrentPhase s) = true ->
  Forall (fun z => is_int z = true) (CompletedPhases s) ->
  Forall (fun z => is_int z = true) (FailedPhases s) ->
  dec_ExecutionState (Some (marshal_ExecutionState s)) = Some s.
Proof.
  destruct s as [status current completed failed checkpoint started finished].
  cbn [CurrentPhase CompletedPhases FailedPhases]. intros Hc Hcs Hfs.
  unfold marshal_ExecutionState, dec_ExecutionState, omitempty, marshal_time_ptr.
  cbn [State_Status CurrentPhase CompletedPhases FailedPhases LastCheckpoint StartedAt
       CompletedAt app lookup String.eqb Ascii.eqb Bool.eqb dec_string dec_int bind].
  rewrite Hc. cbn [bind].
  rewrite (dec_ints_marshal completed Hcs), (dec_ints_marshal failed Hfs). cbn [bind].
  destruct (String.eqb_spec checkpoint "") as [-> | _];
    destruct started; destruct finished; reflexivity.
Qed.

Lemma map_set_fresh (m : DirMap) (k : string) (v : list string) :
  ~ In k (map fst m) -> map_set m k v = (m ++ [(k, v)])%list.
Proof.
  induction m as [|[k' v'] m IH]; simpl; [reflexivity|].
  intros H. destruct (String.eqb_spec k' k) as [-> | _]; [tauto|].
  rewrite IH by tauto. reflexivity.
Qed.

Lemma dec_members_marshal (d : DirMap) : forall acc,
  NoDup (map fst (acc ++ d)) ->
  dec_members (map (fun e => (fst e, marshal_strings (snd e))) d) acc = Some (acc ++ d)%list.
Proof.
  induction d as [|[k l] d IH]; intros acc Hnd; simpl.
  - rewrite app_nil_r. reflexivity.
  - change (dec_items dec_string (map JString l))
      with (dec_list dec_string (Some (marshal_strings l))).
    rewrite dec_strings_marshal. simpl.
    rewrite map_set_fresh.
    + rewrite IH; rewrite <- app_assoc; [reflexivity | exact Hnd].
    + rewrite map_app in Hnd. simpl in Hnd. apply NoDup_remove_2 in Hnd.
      intros Hin. apply Hnd. apply in_or_app. left. exact Hin.
Qed.

(** Reading the document of a plan gives the plan back, without its manifest
    and with a nil file structure when the map was empty. *)
Lemma unmarshal_marshal (p : ExecutionPlan) :
  representable p ->
  unmarshal_ExecutionPlan (marshal_ExecutionPlan p) = Some (reloaded p).
Proof.
  intros (Hc & Hcs & Hfs & Hd).
  destruct p as [id title description structure phases state manifest created updated].
  cbn [FileStructure State] in *.
  unfold marshal_ExecutionPlan, unmarshal_ExecutionPlan, reloaded, omitempty.
  cbn [ID Title Description FileStructure Phases State Manifest CreatedAt UpdatedAt].
  assert (Hph : dec_list dec_Phase (Some (JArray (map marshal_Phase phases))) = Some phases).
  { simpl. apply dec_items_map. apply Forall_forall. intros ph _. apply dec_Phase_marshal. }
  pose proof (dec_ExecutionState_marshal state Hc Hcs Hfs) as Hst.
  destruct structure as [[|e d]|].
  - cbn [len List.length Z.of_nat Z.eqb app lookup String.eqb Ascii.eqb Bool.eqb
         dec_string dec_DirMap dec_time bind].
    rewrite Hph, Hst. reflexivity.
  - replace (len (e :: d) =? 0) with false
      by (symmetry; apply Z.eqb_neq; unfold len; simpl; lia).
    cbn [app lookup String.eqb Ascii.eqb Bool.eqb dec_string dec_DirMap dec_time bind].
    unfold marshal_DirMap.
    rewrite (dec_members_marshal (e :: d) [] Hd).
    cbn [app bind]. rewrite Hph, Hst. reflexivity.
  - cbn [app lookup String.eqb Ascii.eqb Bool.eqb dec_string dec_DirMap dec_time bind].
    rewrite Hph, Hst. reflexivity.
Qed.

Lemma append_assoc (a b c : string) : (a ++ b) ++ c = a ++ (b ++ c).
Proof.
  induction a as [|x a IH]; simpl; [reflexivity | now rewrite IH].
Qed.

Lemma lookup_head {V} (k : string) (v : V) (l : list (string * V)) :
  lookup ((k, v) :: l) k = Some v.
Proof. simpl. rewrite String.eqb_refl. reflexivity. Qed.

(** C9 (as amended). Let SavePlanState succeed on a plan, and let the text
    layer of encoding/json read back the document it printed for the plan
    (strings of valid UTF-8, times within years 0..9999). Then LoadPlanState
    of the plan's id returns a plan equal to the original in id, title,
    description, phases, state and time stamps; its manifest is nil; its
    fileStructure is that of the original, except that an empty map comes back
    as a nil map (the tag omitempty leaves an empty map out of the file). *)
Theorem C9_save_then_load (rt : Runtime) (w w' : World) (p : ExecutionPlan) :
  representable p ->
  SavePlanState rt w p = (w', None) ->
  (forall text, json_MarshalIndent rt (marshal_ExecutionPlan p) = inl text ->
                json_parse rt text = inl (marshal_ExecutionPlan p)) ->
  exists p',
    LoadPlanState rt w' (ID p) = inl p' /\
    ID p' = ID p /\ Title p' = Title p /\ Description p' = Description p /\
    Phases p' = Phases p /\ State p' = State p /\
    CreatedAt p' = CreatedAt p /\ UpdatedAt p' = UpdatedAt p /\
    Manifest p' = None /\
    FileStructure p' = match FileStructure p with
                       | Some [] => None
                       | fs => fs
                       end.
Proof.
  intros Hrep Hsave Htext. exists (reloaded p).
  split; [|repeat split].
  unfold SavePlanState in Hsave. unfold LoadPlanState.
  destruct (os_MkdirAll rt w (UserHomeDir rt ++ "/.quantumflow/state")) as [w1 e1].
  destruct (json_MarshalIndent rt (marshal_ExecutionPlan p)) as [data|err] eqn:Em;
    [|inversion Hsave].
  specialize (Htext data eq_refl).
  unfold os_WriteFile in Hsave.
  destruct (WriteFile_error rt w1 _ data); inversion Hsave; subst; clear Hsave.
  unfold os_ReadFile. cbn [files].
  replace (UserHomeDir rt ++ "/.quantumflow/state/" ++ ID p ++ ".json")
    with ((UserHomeDir rt ++ "/.quantumflow/state") ++ "/" ++ ID p ++ ".json")
    by (rewrite append_assoc; reflexivity).
  rewrite lookup_head, Htext, (unmarshal_marshal p Hrep). reflexivity.
Qed.

(** A plan with a file structure, a phase, a task and a started state, saved
    and loaded. *)
Lemma C9_witness :
  let p :=
    {| ID := "plan_20260117_140530"; Title := "demo"; Description := "a demo";
       FileStructure := Some [("demo/", ["main.py"; "README.md"])];
       Phases := [Scenario.phase "phase-1" "one" []];
       State := {| State_Status := ExecutionStatusApproved; CurrentPhase := 0;
                   CompletedPhases := []; FailedPhases := []; LastCheckpoint := "";
                   StartedAt := None; CompletedAt := None |};
       Manifest := Some (NewProjectManifest "demo" ".");
       CreatedAt := 5; UpdatedAt := 6 |} in
  let rt := Scenario.with_document (Scenario.runtime [] [] [] [])
              (marshal_ExecutionPlan p) "(the text of the plan)" in
  exists p',
    LoadPlanState rt (fst (SavePlanState rt Scenario.world0 p)) (ID p) = inl p' /\
    Phases p' = Phases p /\ State p' = State p /\ Manifest p' = None /\
    FileStructure p' = FileStructure p.
Proof.
  intros p rt.
  destruct (C9_save_then_load rt Scenario.world0 (fst (SavePlanState rt Scenario.world0 p)) p)
    as (p' & Hl & _ & _ & _ & HP & HS & _ & _ & HM & HF).
  - unfold representable. split; [reflexivity|]. split; [constructor|].
    split; [constructor|]. simpl. constructor; [simpl; tauto | constructor].
  - vm_compute. reflexivity.
  - intros text Ht. vm_compute in Ht. inversion Ht; subst. vm_compute. reflexivity.
  - exists p'. repeat split; assumption.
Defined.

(** C9 as stated fails on a plan whose fileStructure is an empty map, the
    value Planner.Generate stores when its first stage fails: the loaded plan
    has a nil fileStructure. The two plans behave differently: run on an
    answer that creates a.py, the original ends with a.py in its
    fileStructure (the manifest shares the plan's map), the loaded plan with
    a nil fileStructure. *)
Lemma C9_empty_file_structure_counterexample :
  let answer :=
    Scenario.fence ++ "python a.py" ++ nl ++ "print(1)" ++ nl ++ Scenario.fence in
  let tbl := [ (nth 0 patterns "", answer,
                [[answer; "python"; "a.py"; "print(1)" ++ nl]]) ] in
  let p := set_FileStructure (Scenario.plan_of [Scenario.phase "phase-1" "one" []])
             (Some []) in
  let rt := Scenario.with_document (Scenario.runtime tbl [] [] [])
              (marshal_ExecutionPlan p) "(the text of the plan)" in
  let w' := fst (SavePlanState rt Scenario.world0 p) in
  exists p',
    snd (SavePlanState rt Scenario.world0 p) = None /\
    LoadPlanState rt w' (ID p) = inl p' /\
    FileStructure p = Some [] /\ FileStructure p' = None /\
    FileStructure p' <> FileStructure p /\
    FileStructure (plan (fst (Execute rt (Scenario.machine (Scenario.stub answer) p))))
      = Some [(".", ["a.py"])] /\
    FileStructure (plan (fst (Execute rt (Scenario.machine (Scenario.stub answer) p'))))
      = None.
Proof.
  intros answer tbl p rt w'.
  exists (reloaded p).
  split; [vm_compute; reflexivity|].
  split; [vm_compute; reflexivity|].
  split; [reflexivity|].
  split; [reflexivity|].
  split; [discriminate|].
  split; vm_compute; reflexivity.
Qed.

(* ================================================================== *)
(** ** Further properties of the executor *)

Lemma for_each_spec {A S : Type} (body : A -> S -> S * option result)
    (P : S -> Prop) (Q : S -> result -> Prop) xs :
  (forall x s s', In x xs -> P s -> body x s = (s', None) -> P s') ->
  (forall x s s' r, In x xs -> P s -> body x s = (s', Some r) -> Q s' r) ->
  forall s, P s ->
    match for_each body xs s with
    | (s', None) => P s'
    | (s', Some r) => Q s' r
    end.
Proof.
  induction xs as [|x xs IH]; intros Hn Hr s Hs; simpl; [exact Hs|].
  destruct (body x s) as [s1 [r|]] eqn:E.
  - eapply Hr; eauto. left. reflexivity.
  - apply IH.
    + intros y s0 s' Hy. apply Hn. right. exact Hy.
    + intros y s0 s' r Hy. apply Hr. right. exact Hy.
    + eapply Hn; eauto. left. reflexivity.
Qed.

Section CommandBlocks.

Variable rt : Runtime.

Lemma processCommandLine_logged w line s s' r :
  commands_logged w s ->
  processCommandLine rt line s = (s', r) ->
  match r with
  | None => commands_logged w s'
  | Some r => commands_failed w s' r
  end.
Proof.
  destruct s as [w0 ce]. intros (Hr & Hf & Hd). simpl in Hr, Hf, Hd.
  unfold processCommandLine, cmd_Run.
  destruct (String.eqb (TrimSpace rt line) "" || HasPrefix (TrimSpace rt line) "#");
    [intros H; inversion H; subst; repeat split; assumption|].
  destruct (isDangerousCommand (TrimSpace rt line));
    [intros H; inversion H; subst; repeat split; assumption|].
  destruct (Run_error rt w0 (TrimSpace rt line)) as [e|];
    intros H; inversion H; subst; simpl.
  - split; [exact Hf|]. split; [exact Hd|].
    exists (TrimSpace rt line), e. simpl. rewrite Hr, <- app_assoc. auto.
  - repeat split; simpl; auto. rewrite Hr, <- app_assoc. reflexivity.
Qed.

Lemma processCommandMatch_logged w mt s s' r :
  commands_logged w s ->
  processCommandMatch rt mt s = (s', r) ->
  match r with
  | None => commands_logged w s'
  | Some r => commands_failed w s' r
  end.
Proof.
  intros Hs. unfold processCommandMatch.
  destruct (len mt <? 3); [intros H; inversion H; subst; exact Hs|].
  destruct (String.eqb (TrimSpace rt (nth 2 mt "")) "");
    [intros H; inversion H; subst; exact Hs|].
  intros H.
  assert (Hspec := for_each_spec (processCommandLine rt) (commands_logged w)
                     (commands_failed w) (Split (TrimSpace rt (nth 2 mt "")) nl)
                     (fun line s0 s1 _ H0 Hb =>
                        processCommandLine_logged w line s0 s1 None H0 Hb)
                     (fun line s0 s1 r0 _ H0 Hb =>
                        processCommandLine_logged w line s0 s1 (Some r0) H0 Hb)
                     s Hs).
  rewrite H in Hspec. exact Hspec.
Qed.

End CommandBlocks.

(** The commands run and the commands returned. *)
Lemma processCommandBlocks_logged (rt : Runtime) (response : string) (w : World) :
  match snd (processCommandBlocks rt response w) with
  | Nil => commands_logged w (fst (processCommandBlocks rt response w))
  | r => commands_failed w (fst (processCommandBlocks rt response w)) r
  end.
Proof.
  unfold processCommandBlocks.
  assert (H0 : commands_logged w (w, [])).
  { repeat split. simpl. now rewrite app_nil_r. }
  assert (Hspec := for_each_spec (processCommandMatch rt) (commands_logged w)
                     (commands_failed w)
                     (FindAllStringSubmatch rt commandPattern response)
                     (fun mt s0 s1 _ H0 Hb =>
                        processCommandMatch_logged rt w mt s0 s1 None H0 Hb)
                     (fun mt s0 s1 r0 _ H0 Hb =>
                        processCommandMatch_logged rt w mt s0 s1 (Some r0) H0 Hb)
                     (w, []) H0).
  destruct (for_each (processCommandMatch rt) _ (w, [])) as [[w' ce] [r|]]; simpl.
  - destruct r; try exact Hspec.
    destruct Hspec as (_ & _ & c & e & _ & Hr). discriminate.
  - exact Hspec.
Qed.

Lemma processCommandBlocks_no_panic (rt : Runtime) (response : string) (w : World) :
  snd (processCommandBlocks rt response w) <> Panic.
Proof.
  pose proof (processCommandBlocks_logged rt response w) as H. intros E.
  rewrite E in H. destruct H as (_ & _ & c & e & _ & Hr). discriminate.
Qed.



Section FileBlocks.

Variable rt : Runtime.

Lemma AddFile_manifest w p m path ph pu w' p' b :
  Manifest p = Some m ->
  AddFile rt w p m path ph pu = (w', p', b) ->
  Manifest p' <> None /\
  (manifest_ok p -> b = true /\ manifest_ok p') /\
  (b = false -> ~ manifest_ok p).
Proof.
  intros Hm. unfold AddFile, manifest_ok. rewrite Hm. simpl.
  destruct (Manifest_FileStructure m) eqn:Es; [destruct (FileStructure p) eqn:Ef| |];
    intros H; inversion H; subst; simpl; rewrite ?Es;
    (split; [discriminate|]); split; try tauto; try discriminate.
  intros _; split; [reflexivity | discriminate].
Qed.

(** One file block, in terms of the list returned. *)
Lemma processFileMatch_logged w p phaseName mt s s' r :
  files_logged w p s ->
  processFileMatch rt phaseName mt s = (s', r) ->
  match r with
  | None | Some (Err _) => files_logged w p s'
  | Some Panic => ~ manifest_ok p
  | Some Nil => False
  end.
Proof.
  destruct s as [[w0 p0] fc]. intros Hs. pose proof Hs as (Hf & Hr & Hn & Hm & Hok).
  simpl in Hf, Hr, Hn, Hm, Hok.
  unfold processFileMatch.
  set (path := Clean rt (TrimSpace rt (nth 2 mt ""))).
  destruct (len mt <? 4); [intros H; inversion H; subst; exact Hs|].
  destruct (String.eqb (TrimSpace rt (nth 3 mt "")) "");
    [intros H; inversion H; subst; exact Hs|].
  destruct (HasPrefix path ".." || HasPrefix path "/");
    [intros H; inversion H; subst; exact Hs|].
  destruct (match Manifest p0 with
            | Some m => FileExists m path
            | None => false
            end); [intros H; inversion H; subst; exact Hs|].
  destruct (if negb (String.eqb (Dir rt path) ".") && negb (String.eqb (Dir rt path) "")
            then os_MkdirAll rt w0 (Dir rt path) else (w0, None)) as [w1 e1] eqn:Em.
  assert (Hw1 : files w1 = files w0 /\ ran w1 = ran w0).
  { destruct (negb (String.eqb (Dir rt path) ".") && negb (String.eqb (Dir rt path) "")).
    - eapply os_MkdirAll_effect, Em.
    - inversion Em; subst; auto. }
  destruct Hw1 as [Hf1 Hr1].
  destruct e1 as [e1|].
  { intros H; inversion H; subst. repeat split; simpl; auto; try congruence;
      apply Hm; assumption. }
  destruct (os_WriteFile rt w1 path (TrimSpace rt (nth 3 mt ""))) as [w2 e2] eqn:Ew.
  apply os_WriteFile_effect in Ew. destruct Ew as [Hr2 Hf2].
  destruct e2 as [e2|].
  { intros H; inversion H; subst. repeat split; simpl; auto; try congruence;
      apply Hm; assumption. }
  destruct (Manifest p0) as [mf|] eqn:EM.
  - destruct (AddFile rt w2 p0 mf path phaseName "") as [[w3 p3] b] eqn:Ea.
    pose proof (AddFile_effect rt _ _ _ _ _ _ _ _ _ EM Ea) as (Hf3 & Hr3 & e & He & Hc).
    pose proof (AddFile_manifest _ _ _ _ _ _ _ _ _ EM Ea) as (Hne & Hokb & Hbad).
    assert (Hp : Manifest p <> None) by (intros Hp; apply Hn in Hp; discriminate).
    destruct (Hm Hp) as [_ Hpaths].
    destruct b; intros H; inversion H; subst.
    + split; [|split; [|split; [|split]]]; simpl.
      * rewrite Hf3, Hf2, Hf1. simpl. rewrite rev_app_distr. simpl. now rewrite Hf.
      * congruence.
      * intros Hp'. contradiction.
      * intros _. split; [exact Hne|].
        rewrite Hc, map_app, Hpaths. simpl. rewrite He. now rewrite <- app_assoc.
      * intros Hk. apply Hokb, Hok, Hk.
    + intros Hk. apply (Hbad eq_refl), Hok, Hk.
  - intros H; inversion H; subst.
    assert (Hp : Manifest p = None).
    { destruct (Manifest p) eqn:E; [|reflexivity].
      assert (Hne : Some p1 <> None) by discriminate.
      destruct (Hm Hne) as [Hx _]. contradiction Hx. reflexivity. }
    split; [|split; [|split; [|split]]]; simpl.
    + rewrite Hf2, Hf1. simpl. rewrite rev_app_distr. simpl. now rewrite Hf.
    + congruence.
    + intros _. exact EM.
    + intros Hp'. contradiction.
    + intros Hk. apply Hok, Hk.
Qed.

End FileBlocks.

(** The files written and the files returned. *)
Lemma processFileBlocks_logged
    (rt : Runtime) (response : string) (w : World) (p : ExecutionPlan) (phaseName : string) :
  match snd (processFileBlocks rt response w p phaseName) with
  | Panic => ~ manifest_ok p
  | _ => files_logged w p (fst (processFileBlocks rt response w p phaseName))
  end.
Proof.
  unfold processFileBlocks.
  set (P := files_logged w p).
  set (Q := fun (s : FileState) (r : result) =>
              match r with
              | Err _ => files_logged w p s
              | Panic => ~ manifest_ok p
              | Nil => False
              end).
  assert (HP0 : P (w, p, [])).
  { unfold P, files_logged. simpl. repeat split; auto. now rewrite app_nil_r. }
  assert (Hinner : forall pattern s s' r,
            P s -> processFilePattern rt response phaseName pattern s = (s', r) ->
            match r with None => P s' | Some r => Q s' r end).
  { intros pattern s s' r Hs Hb. unfold processFilePattern in Hb.
    assert (Hret : forall mt s0 s1 r0,
              In mt (FindAllStringSubmatch rt pattern response) -> P s0 ->
              processFileMatch rt phaseName mt s0 = (s1, Some r0) -> Q s1 r0).
    { intros mt s0 s1 r0 _ H0 Hb0.
      pose proof (processFileMatch_logged rt w p phaseName mt s0 s1 (Some r0) H0 Hb0) as H.
      destruct r0; exact H. }
    assert (Hspec := for_each_spec (processFileMatch rt phaseName) P Q
                       (FindAllStringSubmatch rt pattern response)
                       (fun mt s0 s1 _ H0 Hb0 =>
                          processFileMatch_logged rt w p phaseName mt s0 s1 None H0 Hb0)
                       Hret s Hs).
    rewrite Hb in Hspec. exact Hspec. }
  assert (Hspec := for_each_spec (processFilePattern rt response phaseName) P Q patterns
                     (fun pattern s0 s1 _ H0 Hb => Hinner pattern s0 s1 None H0 Hb)
                     (fun pattern s0 s1 r0 _ H0 Hb => Hinner pattern s0 s1 (Some r0) H0 Hb)
                     (w, p, []) HP0).
  destruct (for_each (processFilePattern rt response phaseName) patterns (w, p, []))
    as [[[w' p'] fc] [r|]]; simpl.
  - destruct r; simpl in Hspec; try contradiction; exact Hspec.
  - exact Hspec.
Qed.

Lemma processFileBlocks_ok
    (rt : Runtime) (response : string) (w : World) (p : ExecutionPlan) (phaseName : string) :
  manifest_ok p ->
  snd (processFileBlocks rt response w p phaseName) <> Panic /\
  manifest_ok (snd (fst (fst (processFileBlocks rt response w p phaseName)))).
Proof.
  intros Hok. pose proof (processFileBlocks_logged rt response w p phaseName) as H.
  destruct (snd (processFileBlocks rt response w p phaseName)).
  - split; [discriminate|]. destruct H as (_ & _ & _ & _ & H). auto.
  - split; [discriminate|]. destruct H as (_ & _ & _ & _ & H). auto.
  - contradiction.
Qed.


Section PhaseRuns.

Variable rt : Runtime.

Lemma manifest_ok_same p p' :
  Manifest p' = Manifest p -> FileStructure p' = FileStructure p ->
  manifest_ok p -> manifest_ok p'.
Proof. unfold manifest_ok. intros -> ->. auto. Qed.

Lemma update_phase_manifest p i f :
  Manifest (update_phase p i f) = Manifest p /\
  FileStructure (update_phase p i f) = FileStructure p.
Proof. unfold update_phase. destruct (index (Phases p) i); split; reflexivity. Qed.

Lemma update_phase_ok p i f : manifest_ok p -> manifest_ok (update_phase p i f).
Proof. apply manifest_ok_same; apply update_phase_manifest. Qed.

(** With a manifest that can be written to, executePhase does not panic. *)
Lemma executePhase_ok e w p i ph w' p' r :
  index (Phases p) i = Some ph -> manifest_ok p ->
  executePhase rt e w p i = (w', p', r) ->
  r <> Panic /\ manifest_ok p'.
Proof.
  intros Hi Hok. unfold executePhase.
  rewrite (update_phase_Phases p i _ ph Hi). simpl.
  rewrite (index_store_same _ _ _ _ Hi). simpl.
  set (p1 := set_Phases p _).
  assert (Hok1 : manifest_ok p1) by exact Hok.
  destruct (find_agent (orchestrator e) (Phase_Agent ph)) as [a|];
    [|intros H; inversion H; subst; split; [discriminate | exact Hok1]].
  unfold agent_call.
  match goal with
  | |- context [Agent_Execute a w ?q] =>
      destruct (Agent_Execute a w q) as [response|err]
  end.
  2:{ intros H; inversion H; subst; split; [discriminate | exact Hok1]. }
  match goal with
  | |- context [processFileBlocks rt ?r ?w1 ?q ?n] =>
      pose proof (processFileBlocks_ok rt r w1 q n Hok1) as [Hnp Hok2];
      destruct (processFileBlocks rt r w1 q n) as [[[w2 p2] fc] rf]
  end.
  simpl in Hnp, Hok2.
  pose proof (processCommandBlocks_no_panic rt (Answer response) w2) as Hnc.
  destruct (processCommandBlocks rt (Answer response) w2) as [[w3 ce] rc].
  simpl in Hnc.
  destruct rf; [| |contradiction Hnp; reflexivity];
    (destruct rc; [| |contradiction Hnc; reflexivity]);
    intros H; inversion H; subst; (split; [discriminate|]);
    apply update_phase_ok, Hok2.
Qed.

(** A run of phase [i] that succeeded: the agent registered for the phase
    answered the request for it, and every task carries the answer. *)
Lemma executePhase_Nil e w p i ph w' p' :
  index (Phases p) i = Some ph ->
  executePhase rt e w p i = (w', p', Nil) ->
  exists a req resp,
    find_agent (orchestrator e) (Phase_Agent ph) = Some a /\
    request_for p ph req /\ Agent_Execute a w req = inl resp /\
    Phases p' =
      store (Phases p) i
        (set_Phase_Tasks (set_Phase_Status ph PhaseStatusInProgress)
           (map (fun t => set_Completed_Result t (Answer resp)) (Phase_Tasks ph))).
Proof.
  intros Hi. unfold executePhase.
  rewrite (update_phase_Phases p i _ ph Hi). simpl.
  rewrite (index_store_same _ _ _ _ Hi). simpl.
  destruct (find_agent (orchestrator e) (Phase_Agent ph)) as [a|];
    [|intros H; inversion H].
  unfold agent_call.
  match goal with
  | |- context [Agent_Execute a w ?q] =>
      set (req := q); destruct (Agent_Execute a w req) as [response|err] eqn:Ea
  end.
  2:{ intros H; inversion H. }
  destruct (processFileBlocks rt (Answer response) _ _ _) as [[[w2 p2] fc] rf] eqn:Ef.
  apply processFileBlocks_core in Ef. destruct Ef as (HS & HP & HI).
  simpl in HP.
  assert (Hi2 : index (Phases p2) i = Some (set_Phase_Status ph PhaseStatusInProgress))
    by (rewrite HP; eapply index_store_same, Hi).
  destruct (processCommandBlocks rt (Answer response) w2) as [[w3 ce] rc].
  destruct rf; simpl; [destruct rc | destruct rc |];
    intros H; inversion H; subst;
    exists a, req, response; (split; [reflexivity|]); (split; [reflexivity|]);
    (split; [exact Ea|]);
    rewrite (update_phase_Phases p2 i _ _ Hi2); simpl; rewrite HP, store_twice;
    reflexivity.
Qed.

(** executePhase from the agent's answer on: the two extraction steps and
    the marking of the tasks. *)
Lemma executePhase_answered e w p i ph a resp :
  index (Phases p) i = Some ph ->
  find_agent (orchestrator e) (Phase_Agent ph) = Some a ->
  Agent_Execute a w (phase_request p ph) = inl resp ->
  executePhase rt e w p i =
    match processFileBlocks rt (Answer resp)
            {| clock := clock w; files := files w; dirs := dirs w; ran := ran w;
               asked := (asked w ++ [phase_request p ph])%list |}
            (started p i ph) (Phase_Name ph) with
    | (s2, Panic) => (fst (fst s2), snd (fst s2), Panic)
    | ((w2, plan2, _), _) =>
        match processCommandBlocks rt (Answer resp) w2 with
        | ((w3, _), Panic) => (w3, plan2, Panic)
        | ((w3, _), _) =>
            (w3,
             update_phase plan2 i
               (fun ph0 => set_Phase_Tasks ph0
                  (map (fun t => set_Completed_Result t (Answer resp)) (Phase_Tasks ph0))),
             Nil)
        end
    end.
Proof.
  intros Hi Ha He. unfold executePhase.
  rewrite (update_phase_Phases p i _ ph Hi). simpl.
  rewrite (index_store_same _ _ _ _ Hi). simpl. rewrite Ha.
  unfold agent_call.
  change (Agent_Execute a w _) with (Agent_Execute a w (phase_request p ph)).
  rewrite He. reflexivity.
Qed.

(** An iteration of the phase loop after which the loop goes on. *)
Lemma runPhase_done i m m' :
  runPhase rt i m = (m', None) ->
  exists ph a w req resp,
    index (Phases (plan m)) i = Some ph /\
    areDependenciesMet (plan m) ph = Some true /\
    find_agent (orchestrator (executor m)) (Phase_Agent ph) = Some a /\
    request_for (plan m) ph req /\ Agent_Execute a w req = inl resp /\
    Phases (plan m') = store (Phases (plan m)) i (phase_completed ph (Answer resp)) /\
    State (plan m') = state_completed (State (plan m)) i /\
    ID (plan m') = ID (plan m) /\
    orchestrator (executor m') = orchestrator (executor m).
Proof.
  unfold runPhase.
  destruct (index (Phases (plan m)) i) as [ph|] eqn:Hi; [|intros H; inversion H].
  destruct (areDependenciesMet (plan m) ph) as [[|]|] eqn:Hd;
    try (intros H; inversion H; fail).
  unfold createCheckpoint. simpl.
  destruct (executePhase rt _ _ (plan m) i) as [[w2 p2] re] eqn:Ee.
  destruct (executePhase_plan rt _ _ _ _ _ _ _ _ Hi Ee) as (HS & HI & ph' & HP & _).
  destruct re; intros H; inversion H; subst; clear H.
  destruct (executePhase_Nil _ _ _ _ _ _ _ Hi Ee) as (a & req & resp & Ha & Hq & He & HP2).
  exists ph, a. eexists. exists req, resp. simpl.
  rewrite ?update_phase_ID, ?update_phase_State. simpl.
  split; [first [exact Hi | reflexivity]|].
  split; [first [exact Hd | reflexivity]|]. split; [exact Ha|].
  split; [exact Hq|]. split; [exact He|].
  split; [|split; [rewrite HS; reflexivity | split; [exact HI | reflexivity]]].
  unfold update_phase. simpl. rewrite HP2.
  rewrite (index_store_same _ _ _ _ Hi). simpl. rewrite store_twice. reflexivity.
Qed.

End PhaseRuns.

Section Loop.

Variable rt : Runtime.

Lemma depCompleted_true phases completed D :
  depCompleted phases completed D = Some true ->
  exists j cp, In j completed /\ index phases j = Some cp /\
               (Phase_ID cp = D \/ Phase_Name cp = D).
Proof.
  induction completed as [|c r IH]; simpl; [discriminate|].
  destruct (index phases c) as [cp|] eqn:Hc; [|discriminate].
  destruct (String.eqb (Phase_ID cp) D) eqn:E1.
  { intros _. exists c, cp. apply String.eqb_eq in E1. auto. }
  destruct (String.eqb (Phase_Name cp) D) eqn:E2.
  { intros _. exists c, cp. apply String.eqb_eq in E2. auto. }
  simpl. intros H. destruct (IH H) as (j & cp' & Hj & Hi & Hk).
  exists j, cp'. auto.
Qed.

Lemma allDepsCompleted_true phases completed deps :
  allDepsCompleted phases completed deps = Some true ->
  forall D, In D deps ->
    exists j cp, In j completed /\ index phases j = Some cp /\
                 (Phase_ID cp = D \/ Phase_Name cp = D).
Proof.
  induction deps as [|d r IH]; simpl; [intros _ D []|].
  destruct (depCompleted phases completed d) as [[|]|] eqn:E; try discriminate.
  intros H D [<-|HD].
  - apply depCompleted_true, E.
  - apply IH; assumption.
Qed.

(** areDependenciesMet answers true only when every dependency is matched. *)
Lemma areDependenciesMet_true p ph :
  areDependenciesMet p ph = Some true ->
  forall D, In D (Phase_Dependencies ph) -> dep_matched p D.
Proof.
  unfold areDependenciesMet, dep_matched.
  destruct (len (Phase_Dependencies ph) =? 0) eqn:E.
  - apply Z.eqb_eq in E. unfold len in E.
    destruct (Phase_Dependencies ph); [intros _ D [] | simpl in E; lia].
  - apply allDepsCompleted_true.
Qed.

Lemma store_key (phases : list Phase) i ph v k cp :
  index phases i = Some ph ->
  Phase_ID v = Phase_ID ph -> Phase_Name v = Phase_Name ph ->
  index (store phases i v) k = Some cp ->
  exists cp0, index phases k = Some cp0 /\
              Phase_ID cp0 = Phase_ID cp /\ Phase_Name cp0 = Phase_Name cp.
Proof.
  intros Hi Hid Hnm Hk. destruct (Z.eq_dec i k) as [<-|Hne].
  - rewrite (index_store_same _ _ _ _ Hi) in Hk. inversion Hk; subst.
    exists ph. auto.
  - rewrite (index_store_other _ _ _ _ Hne) in Hk. exists cp. auto.
Qed.

Lemma key_store (phases : list Phase) i ph v k cp :
  index phases i = Some ph ->
  Phase_ID v = Phase_ID ph -> Phase_Name v = Phase_Name ph ->
  index phases k = Some cp ->
  exists cp1, index (store phases i v) k = Some cp1 /\
              Phase_ID cp1 = Phase_ID cp /\ Phase_Name cp1 = Phase_Name cp.
Proof.
  intros Hi Hid Hnm Hk. destruct (Z.eq_dec i k) as [<-|Hne].
  - rewrite (index_store_same _ _ _ _ Hi). exists v.
    rewrite Hi in Hk. inversion Hk; subst. auto.
  - rewrite (index_store_other _ _ _ _ Hne). exists cp. auto.
Qed.

(** The phase loop, when it runs to its end. *)
Lemma loop_success n : forall lo hi m m',
  Z.to_nat (hi - lo) = n ->
  for_each (runPhase rt) (range lo hi) m = (m', None) ->
  ID (plan m') = ID (plan m) /\
  orchestrator (executor m') = orchestrator (executor m) /\
  (forall j, ~ (lo <= j < hi) ->
             index (Phases (plan m')) j = index (Phases (plan m)) j) /\
  (forall j, lo <= j < hi ->
     phase_done m m' j /\
     forall ph D, index (Phases (plan m)) j = Some ph ->
                  In D (Phase_Dependencies ph) -> dep_available (plan m) lo j D).
Proof.
  induction n as [|n IH]; intros lo hi m m' Hn.
  - rewrite range_nil by lia. simpl. intros H; inversion H; subst.
    repeat split; try reflexivity; lia.
  - rewrite range_cons by lia. simpl.
    destruct (runPhase rt lo m) as [m1 [r|]] eqn:E1; [discriminate|].
    intros E2.
    destruct (runPhase_done rt _ _ _ E1)
      as (ph & a & w & req & resp & Hi & Hd & Ha & Hq & He & HP & HS & HI & HO).
    destruct (IH (lo + 1) hi m1 m' ltac:(lia) E2) as (HI' & HO' & Hout & Hin).
    split; [congruence|]. split; [congruence|]. split.
    + intros j Hj. rewrite Hout by lia. rewrite HP.
      apply index_store_other. lia.
    + intros j Hj. destruct (Z.eq_dec j lo) as [->|Hne].
      * split.
        -- exists ph, a, w, req, resp. repeat (split; [assumption|]).
           rewrite Hout by lia. rewrite HP. eapply index_store_same, Hi.
        -- intros ph0 D Hi0 HD. rewrite Hi in Hi0. inversion Hi0; subst ph0.
           destruct (areDependenciesMet_true _ _ Hd D HD) as (k & cp & Hk & Hc & Hkey).
           exists k, cp. auto.
      * assert (Hj1 : lo + 1 <= j < hi) by lia.
        destruct (Hin j Hj1) as [Hdone Hdeps].
        assert (Hsame : index (Phases (plan m1)) j = index (Phases (plan m)) j).
        { rewrite HP. apply index_store_other. lia. }
        split.
        -- destruct Hdone as (ph1 & a1 & w1 & req1 & resp1 & H1 & H2 & H3 & H4 & H5).
           exists ph1, a1, w1, req1, resp1.
           split; [congruence|]. split; [congruence|].
           split; [unfold request_for in *; congruence|]. auto.
        -- intros ph0 D Hi0 HD. rewrite <- Hsame in Hi0.
           destruct (Hdeps ph0 D Hi0 HD) as (k & cp & Hk & Hc & Hkey).
           rewrite HP in Hc.
           destruct (store_key _ _ _ (phase_completed ph (Answer resp)) _ _ Hi eq_refl eq_refl Hc)
             as (cp0 & Hc0 & Hid & Hnm).
           exists k, cp0. split; [|split; [exact Hc0 | congruence]].
           destruct Hk as [Hk|Hk]; [|right; lia].
           rewrite HS in Hk. simpl in Hk. apply in_app_or in Hk.
           destruct Hk as [Hk|[<-|[]]]; [left; exact Hk | right; lia].
Qed.

(** A call of Execute that returns nil has run the phase loop to its end. *)
Lemma Execute_Nil m m' :
  Execute rt m = (m', Nil) ->
  exists m1,
    for_each (runPhase rt)
      (range (Z.max 0 (CurrentPhase (State (plan m)))) (len (Phases (plan m))))
      (startup rt m) = (m1, None) /\
    Phases (plan m') = Phases (plan m1).
Proof.
  unfold Execute, phaseLoop. cbv zeta.
  set (b := match StartedAt (State (plan m)) with None => true | Some _ => false end).
  destruct (startup_plan rt m) as (HS & HP & _).
  rewrite HS, HP.
  change (CurrentPhase (state_started (State (plan m)) (clock (world m))))
    with (Z.max 0 (CurrentPhase (State (plan m)))).
  destruct (for_each (runPhase rt) _ (startup rt m)) as [m1 [r|]] eqn:E.
  - intros H; inversion H; subst. apply phaseLoop_never_nil in E. congruence.
  - destruct (finish_plan b m1) as (_ & HfP).
    destruct (StartedAt (State (plan (finish b m1)))); intros H; inversion H; subst.
    exists m1. split; [reflexivity | exact HfP].
Qed.

Lemma runPhase_ok i m m' r ph :
  index (Phases (plan m)) i = Some ph ->
  areDependenciesMet (plan m) ph <> None ->
  manifest_ok (plan m) ->
  runPhase rt i m = (m', r) ->
  r <> Some Panic /\ manifest_ok (plan m').
Proof.
  intros Hi Hd Hok. unfold runPhase. rewrite Hi.
  destruct (areDependenciesMet (plan m) ph) as [[|]|]; [| |contradiction Hd; reflexivity].
  2:{ intros H; inversion H; subst. split; [discriminate | exact Hok]. }
  unfold createCheckpoint. simpl.
  destruct (executePhase rt _ _ (plan m) i) as [[w2 p2] re] eqn:Ee.
  destruct (executePhase_ok rt _ _ _ _ _ _ _ _ Hi Hok Ee) as [Hnp Hok2].
  destruct re; [| |contradiction Hnp; reflexivity];
    intros H; inversion H; subst; (split; [discriminate|]).
  - apply update_phase_ok. exact Hok2.
  - exact Hok2.
Qed.

Lemma runPhase_completed_valid i m m' r :
  0 <= i < len (Phases (plan m)) ->
  completed_valid (plan m) ->
  runPhase rt i m = (m', r) ->
  completed_valid (plan m').
Proof.
  intros Hi Hv H. pose proof (runPhase_len rt _ _ _ _ H) as Hl.
  apply runPhase_cases in H. unfold completed_valid. rewrite Hl.
  destruct H as [? -> ? | ? ? ? -> ? | ? ? ? -> ? | ph ph' ? ? ? ? ? ? ? ? Hc];
    try exact Hv.
  destruct Hc as [(_ & HS & _) | [(_ & HS & _) | (_ & HS & _)]]; rewrite HS; simpl.
  - intros j Hj. apply in_app_or in Hj. destruct Hj as [Hj|[<-|[]]]; [apply Hv, Hj | lia].
  - exact Hv.
  - exact Hv.
Qed.

Lemma startup_ok m : manifest_ok (plan m) -> manifest_ok (plan (startup rt m)).
Proof.
  unfold startup, manifest_ok. simpl.
  destruct (initProjectStructure rt _ _) as [w2 r2]. simpl.
  destruct (StartedAt (State (plan m))) as [t|]; simpl;
    destruct (CurrentPhase (State (plan m)) <? 0); simpl;
    destruct (Manifest (plan m)) as [mf|] eqn:Em; simpl;
    try (destruct (FileStructure (plan m)) eqn:Ef; simpl; rewrite ?Ef);
    rewrite ?Em; auto; try discriminate.
Qed.

(** From a well-formed entry state the phase loop does not panic. *)
Lemma loop_no_panic lo hi m :
  0 <= lo -> hi = len (Phases (plan m)) ->
  completed_valid (plan m) -> manifest_ok (plan m) ->
  match for_each (runPhase rt) (range lo hi) m with
  | (_, Some r) => r <> Panic
  | (m', None) => completed_valid (plan m') /\ manifest_ok (plan m')
  end.
Proof.
  intros Hlo Hhi Hv Hok.
  pose (P := fun s : Machine =>
               completed_valid (plan s) /\ manifest_ok (plan s) /\
               len (Phases (plan s)) = hi).
  pose (Q := fun (_ : Machine) (r : result) => r <> Panic).
  assert (Hstep : forall i s s' r, In i (range lo hi) -> P s ->
            runPhase rt i s = (s', r) ->
            r <> Some Panic /\ P s').
  { intros i s s' r Hi (Hv1 & Hok1 & Hl1) Hrun. apply range_In in Hi.
    assert (Hb : 0 <= i < len (Phases (plan s))) by lia.
    destruct (index_in_range _ _ Hb) as [ph Hph].
    destruct (areDependenciesMet_spec (plan s) ph Hv1) as (b & Hd & _).
    assert (Hd' : areDependenciesMet (plan s) ph <> None) by congruence.
    destruct (runPhase_ok _ _ _ _ _ Hph Hd' Hok1 Hrun) as [Hnp Hok2].
    split; [exact Hnp|]. split; [|split; [exact Hok2|]].
    - eapply runPhase_completed_valid; eauto.
    - rewrite (runPhase_len rt _ _ _ _ Hrun). exact Hl1. }
  assert (Hspec := for_each_spec (runPhase rt) P Q (range lo hi)
                     (fun i s s' Hi Hs Hb => proj2 (Hstep i s s' None Hi Hs Hb))).
  assert (HQ : forall i s s' r, In i (range lo hi) -> P s ->
                 runPhase rt i s = (s', Some r) -> Q s' r).
  { intros i s s' r Hi Hs Hb. destruct (Hstep i s s' (Some r) Hi Hs Hb) as [Hn _].
    intros ->. apply Hn. reflexivity. }
  specialize (Hspec HQ m (conj Hv (conj Hok (eq_sym Hhi)))).
  destruct (for_each (runPhase rt) (range lo hi) m) as [m' [r|]].
  - exact Hspec.
  - destruct Hspec as (H1 & H2 & _). auto.
Qed.

Lemma Execute_loop_none m :
  snd (phaseLoop rt (startup rt m)) = None -> snd (Execute rt m) = Nil.
Proof.
  unfold Execute. cbv zeta.
  set (b := match StartedAt (State (plan m)) with None => true | Some _ => false end).
  destruct (phaseLoop rt (startup rt m)) as [m1 [r|]] eqn:E;
    [discriminate|]. intros _.
  unfold phaseLoop in E. apply loop_completed in E. destruct E as (_ & _ & _ & HA & _).
  destruct (startup_plan rt m) as (HS & _).
  destruct (finish_plan b m1) as (HfS & _).
  assert (Hst : StartedAt (State (plan (finish b m1))) <> None).
  { rewrite HfS. destruct b; simpl; [discriminate|]. rewrite HA, HS. simpl.
    destruct (StartedAt (State (plan m))); discriminate. }
  destruct (StartedAt (State (plan (finish b m1))));
    [reflexivity | contradiction Hst; reflexivity].
Qed.

(** From a well-formed entry state Execute does not panic. *)
Lemma Execute_no_panic m :
  completed_valid (plan m) -> manifest_ok (plan m) -> snd (Execute rt m) <> Panic.
Proof.
  intros Hv Hok.
  destruct (startup_plan rt m) as (HS & HP & _).
  assert (Hv0 : completed_valid (plan (startup rt m))).
  { unfold completed_valid. rewrite HS, HP. exact Hv. }
  assert (Hc : 0 <= CurrentPhase (State (plan (startup rt m)))).
  { rewrite HS. simpl. lia. }
  pose proof (loop_no_panic _ _ (startup rt m) Hc eq_refl Hv0 (startup_ok m Hok)) as Hl.
  pose proof (Execute_loop_none m) as Hnone.
  unfold Execute in *. unfold phaseLoop in *.
  destruct (for_each (runPhase rt) _ (startup rt m)) as [m1 [r|]].
  - exact Hl.
  - rewrite (Hnone eq_refl). discriminate.
Qed.

Lemma runPhase_progress i m ph a :
  index (Phases (plan m)) i = Some ph ->
  areDependenciesMet (plan m) ph = Some true ->
  manifest_ok (plan m) ->
  find_agent (orchestrator (executor m)) (Phase_Agent ph) = Some a ->
  answers a ->
  snd (runPhase rt i m) = None.
Proof.
  intros Hi Hd Hok Ha Hans. unfold runPhase. rewrite Hi, Hd.
  unfold createCheckpoint. simpl.
  destruct (executePhase rt _ _ (plan m) i) as [[w2 p2] re] eqn:Ee.
  destruct re; [reflexivity | |].
  - apply executePhase_Err in Ee.
    destruct Ee as (_ & _ & _ & ph' & Hi' & [(Hn & _) | (a' & Ha' & Hex)]);
      rewrite Hi in Hi'; inversion Hi'; subst ph'; simpl in *.
    + congruence.
    + rewrite Ha in Ha'. inversion Ha'; subst a'.
      match type of Hex with
      | Agent_Execute _ ?w0 ?req = _ => destruct (Hans w0 req) as [resp Hr]
      end.
      rewrite Hr in Hex. discriminate.
  - destruct (executePhase_ok rt _ _ _ _ _ _ _ _ Hi Hok Ee) as [Hnp _].
    contradiction Hnp. reflexivity.
Qed.

(** The phase loop runs to its end when every phase can be run. *)
Lemma loop_progress n : forall lo hi m,
  Z.to_nat (hi - lo) = n -> 0 <= lo -> hi = len (Phases (plan m)) ->
  completed_valid (plan m) -> manifest_ok (plan m) ->
  (forall j ph, lo <= j < hi -> index (Phases (plan m)) j = Some ph ->
                runnable m lo j ph) ->
  snd (for_each (runPhase rt) (range lo hi) m) = None.
Proof.
  induction n as [|n IH]; intros lo hi m Hn Hlo Hhi Hv Hok Hrun.
  - rewrite range_nil by lia. reflexivity.
  - rewrite range_cons by lia. simpl.
    assert (Hb : 0 <= lo < len (Phases (plan m))) by lia.
    destruct (index_in_range _ _ Hb) as [ph Hph].
    destruct (Hrun lo ph ltac:(lia) Hph) as [(a & Ha & Hans) Hdeps].
    destruct (areDependenciesMet_spec (plan m) ph Hv) as (b & Hd & Hiff).
    assert (Hb1 : b = true).
    { apply Hiff. intros D HD. destruct (Hdeps D HD) as (k & cp & Hk & Hc & Hkey).
      exists k, cp. destruct Hk as [Hk|Hk]; [auto | lia]. }
    subst b.
    pose proof (runPhase_progress lo m ph a Hph Hd Hok Ha Hans) as Hnone.
    destruct (runPhase rt lo m) as [m1 r] eqn:E1. simpl in Hnone. subst r.
    destruct (runPhase_done rt _ _ _ E1)
      as (ph0 & a0 & w & req & resp & Hi0 & _ & _ & _ & _ & HP & HS & HI & HO).
    rewrite Hph in Hi0. inversion Hi0; subst ph0.
    assert (Hd' : areDependenciesMet (plan m) ph <> None) by congruence.
    destruct (runPhase_ok _ _ _ _ _ Hph Hd' Hok E1) as [_ Hok1].
    pose proof (runPhase_completed_valid _ _ _ _ Hb Hv E1) as Hv1.
    pose proof (runPhase_len rt _ _ _ _ E1) as Hl.
    apply IH; try assumption; try lia.
    intros j phj Hj Hij.
    assert (Hsame : index (Phases (plan m1)) j = index (Phases (plan m)) j).
    { rewrite HP. apply index_store_other. lia. }
    rewrite Hsame in Hij.
    destruct (Hrun j phj ltac:(lia) Hij) as [(aj & Haj & Hansj) Hdepsj].
    split.
    + exists aj. rewrite HO. auto.
    + intros D HD. destruct (Hdepsj D HD) as (k & cp & Hk & Hc & Hkey).
      destruct (key_store _ _ _ (phase_completed ph (Answer resp)) _ _ Hph
                  eq_refl eq_refl Hc) as (cp1 & Hc1 & Hid & Hnm).
      exists k, cp1. rewrite HP. split; [|split; [exact Hc1 | congruence]].
      rewrite HS. simpl.
      destruct Hk as [Hk|Hk]; [left; apply in_or_app; auto|].
      destruct (Z.eq_dec k lo) as [->|Hne]; [left; apply in_or_app; right; left; reflexivity|].
      right. lia.
Qed.

End Loop.

Section Checkpoints.

Variable rt : Runtime.

Lemma dec_inj a b : dec a = dec b -> a = b.
Proof.
  unfold dec. intros H. apply DecimalZ.to_int_inj.
  assert (Hi : forall z, NilZero.int_of_string (NilZero.string_of_int (Z.to_int z))
                         = Some (Z.to_int z)).
  { intros z. apply NilZero.isi; destruct z; simpl; try discriminate;
      intros E; inversion E as [E'];
      exact (DecimalPos.Unsigned.to_uint_nonnil _ E'). }
  pose proof (Hi a) as Ha. rewrite H, Hi in Ha. inversion Ha. reflexivity.
Qed.

Lemma append_inj_l (s a b : string) : s ++ a = s ++ b -> a = b.
Proof. induction s as [|c s IH]; simpl; intros H; [exact H | inversion H; auto]. Qed.

Lemma checkpoint_key_inj id i j : checkpoint_key id i = checkpoint_key id j -> i = j.
Proof.
  unfold checkpoint_key. intros H.
  apply (append_inj_l "checkpoint-") in H. apply append_inj_l in H.
  apply (append_inj_l "-phase-") in H. apply dec_inj, H.
Qed.

Lemma lookup_table_set_same {V} (t : list (string * V)) k v :
  lookup (table_set t k v) k = Some v.
Proof.
  induction t as [|[k' v'] r IH]; simpl.
  - now rewrite String.eqb_refl.
  - destruct (String.eqb k' k) eqn:E; simpl; rewrite E; [reflexivity | exact IH].
Qed.

Lemma lookup_table_set_other {V} (t : list (string * V)) k v k0 :
  k0 <> k -> lookup (table_set t k v) k0 = lookup t k0.
Proof.
  intros Hne. induction t as [|[k' v'] r IH]; simpl.
  - destruct (String.eqb k k0) eqn:E; [apply String.eqb_eq in E; congruence | reflexivity].
  - destruct (String.eqb k' k) eqn:E; simpl.
    + apply String.eqb_eq in E. subst k'.
      destruct (String.eqb k k0) eqn:E0; [apply String.eqb_eq in E0; congruence | reflexivity].
    + rewrite IH. reflexivity.
Qed.

(** The checkpoint an iteration files before it runs the phase. *)
Lemma runPhase_checkpoint i m m' :
  runPhase rt i m = (m', None) ->
  exists cp,
    checkpoints (executor m') =
      table_set (checkpoints (executor m)) (checkpoint_key (ID (plan m)) i) cp /\
    Checkpoint_ID cp = checkpoint_key (ID (plan m)) i /\
    Checkpoint_PlanID cp = ID (plan m) /\ PhaseIndex cp = i /\ GitStash cp = "".
Proof.
  unfold runPhase.
  destruct (index (Phases (plan m)) i) as [ph|]; [|intros H; inversion H].
  destruct (areDependenciesMet (plan m) ph) as [[|]|];
    try (intros H; inversion H; fail).
  unfold createCheckpoint. simpl.
  destruct (executePhase rt _ _ (plan m) i) as [[w2 p2] re].
  destruct re; intros H; inversion H; subst; clear H. simpl.
  eexists. split; [reflexivity|]. repeat split.
Qed.

Lemma loop_checkpoints n : forall lo hi m m',
  Z.to_nat (hi - lo) = n ->
  for_each (runPhase rt) (range lo hi) m = (m', None) ->
  (forall j, lo <= j < hi ->
     exists cp,
       lookup (checkpoints (executor m')) (checkpoint_key (ID (plan m)) j) = Some cp /\
       Checkpoint_ID cp = checkpoint_key (ID (plan m)) j /\
       Checkpoint_PlanID cp = ID (plan m) /\ PhaseIndex cp = j /\ GitStash cp = "") /\
  (forall k, (forall j, lo <= j < hi -> k <> checkpoint_key (ID (plan m)) j) ->
     lookup (checkpoints (executor m')) k = lookup (checkpoints (executor m)) k).
Proof.
  induction n as [|n IH]; intros lo hi m m' Hn.
  - rewrite range_nil by lia. simpl. intros H; inversion H; subst.
    split; [intros j Hj; lia | reflexivity].
  - rewrite range_cons by lia. simpl.
    destruct (runPhase rt lo m) as [m1 [r|]] eqn:E1; [discriminate|].
    intros E2.
    destruct (runPhase_checkpoint _ _ _ E1) as (cp & Hc & Hcp).
    destruct (runPhase_done rt _ _ _ E1)
      as (ph & a & w & req & resp & _ & _ & _ & _ & _ & _ & _ & HI & _).
    destruct (IH (lo + 1) hi m1 m' ltac:(lia) E2) as (Hin & Hout).
    rewrite HI in Hin, Hout. split.
    + intros j Hj. destruct (Z.eq_dec j lo) as [->|Hne].
      * exists cp. split; [|exact Hcp].
        rewrite Hout, Hc; [apply lookup_table_set_same|].
        intros j Hj' Hk. apply checkpoint_key_inj in Hk. lia.
      * apply Hin. lia.
    + intros k Hk. rewrite Hout by (intros j Hj; apply Hk; lia).
      rewrite Hc. apply lookup_table_set_other. apply Hk. lia.
Qed.

End Checkpoints.

Section Prompt.

Lemma prefix_append (p s : string) : String.prefix p (p ++ s) = true.
Proof.
  induction p as [|c p IH]; simpl; [destruct s; reflexivity|].
  destruct (ascii_dec c c) as [_|Hn]; [exact IH | contradiction Hn; reflexivity].
Qed.

Lemma prefix_same (p : string) : String.prefix p p = true.
Proof.
  induction p as [|c p IH]; simpl; [reflexivity|].
  destruct (ascii_dec c c) as [_|Hn]; [exact IH | contradiction Hn; reflexivity].
Qed.

Lemma prefix_cong (a x y : string) :
  String.prefix x y = true -> String.prefix (a ++ x) (a ++ y) = true.
Proof.
  intros H. induction a as [|c a IH]; simpl; [exact H|].
  destruct (ascii_dec c c) as [_|Hn]; [exact IH | contradiction Hn; reflexivity].
Qed.

Lemma prefix_append_l (x : string) : forall a b,
  String.prefix x a = true -> String.prefix x (a ++ b) = true.
Proof.
  induction x as [|c x IH]; intros a b; simpl.
  - intros _. destruct (a ++ b); reflexivity.
  - destruct a as [|d a]; simpl; [discriminate|].
    destruct (ascii_dec c d); [apply IH | discriminate].
Qed.

Lemma Contains_prefix s x : String.prefix x s = true -> Contains s x = true.
Proof. intros H. destruct s; cbn [Contains]; rewrite H; reflexivity. Qed.

Lemma Contains_append_r (a b x : string) :
  Contains b x = true -> Contains (a ++ b) x = true.
Proof.
  intros H. induction a as [|c a IH]; simpl; [exact H|].
  rewrite IH. apply orb_true_r.
Qed.

Lemma Contains_append_l (a b x : string) :
  Contains a x = true -> Contains (a ++ b) x = true.
Proof.
  induction a as [|c a IH]; intros H.
  - simpl in H. rewrite orb_false_r in H.
    destruct x; [|simpl in H; discriminate].
    simpl. apply Contains_prefix. destruct b; reflexivity.
  - change (String.prefix x (String c a) || Contains a x = true) in H.
    change (String.prefix x (String c a ++ b) || Contains (a ++ b) x = true).
    apply orb_true_iff in H. destruct H as [H|H].
    + rewrite (prefix_append_l _ _ b H). reflexivity.
    + rewrite (IH H). apply orb_true_r.
Qed.

Lemma Contains_here (a x b : string) : Contains (a ++ x ++ b) x = true.
Proof. apply Contains_append_r, Contains_prefix, prefix_append. Qed.

Lemma created_lines_grow (x : string) : forall fs acc,
  Contains acc x = true ->
  Contains (fold_left (fun acc f => acc ++ "  - " ++ Path f ++ " (phase: "
                                        ++ Entry_Phase f ++ ")" ++ nl) fs acc) x = true.
Proof.
  induction fs as [|f fs IH]; intros acc H; simpl; [exact H|].
  apply IH. apply Contains_append_l, H.
Qed.

Lemma created_lines_In f : forall fs acc,
  In f fs ->
  Contains (fold_left (fun acc f => acc ++ "  - " ++ Path f ++ " (phase: "
                                        ++ Entry_Phase f ++ ")" ++ nl) fs acc)
           (created_line f) = true.
Proof.
  induction fs as [|g fs IH]; intros acc H; [destruct H|].
  destruct H as [<-|H]; simpl.
  - apply created_lines_grow.
    apply (Contains_append_r acc (created_line g)), Contains_prefix, prefix_same.
  - apply IH, H.
Qed.

Lemma GetCreatedFilesForContext_lists m f :
  In f (CreatedFiles m) ->
  Contains (GetCreatedFilesForContext m) (created_line f) = true.
Proof.
  intros H. unfold GetCreatedFilesForContext.
  destruct (len (CreatedFiles m) =? 0) eqn:E.
  - apply Z.eqb_eq in E. unfold len in E.
    destruct (CreatedFiles m); [destruct H | simpl in E; lia].
  - apply created_lines_In, H.
Qed.

Lemma taskLines_In t : forall ts i,
  In t ts ->
  exists k, i < k <= i + len ts /\
    Contains (taskLines i ts) (dec k ++ ". " ++ Task_Description t ++ nl) = true.
Proof.
  induction ts as [|u ts IH]; intros i H; [destruct H|].
  destruct H as [<-|H].
  - exists (i + 1). split; [unfold len; simpl List.length; lia|].
    cbn [taskLines]. apply Contains_prefix.
    apply prefix_cong, prefix_cong, prefix_cong, prefix_append.
  - destruct (IH (i + 1) H) as (k & Hk & Hc). exists k.
    split; [unfold len in *; simpl List.length; lia|].
    cbn [taskLines].
    apply Contains_append_r, Contains_append_r, Contains_append_r, Contains_append_r, Hc.
Qed.

End Prompt.

Section Manifest.

Lemma map_get_set_same d k v : map_get (map_set d k v) k = v.
Proof.
  induction d as [|[k' v'] r IH]; simpl.
  - now rewrite String.eqb_refl.
  - destruct (String.eqb k' k) eqn:E; simpl; rewrite E; [reflexivity | exact IH].
Qed.

Lemma map_get_set_other d k v k0 : k0 <> k -> map_get (map_set d k v) k0 = map_get d k0.
Proof.
  intros Hne. induction d as [|[k' v'] r IH]; simpl.
  - destruct (String.eqb k k0) eqn:E; [apply String.eqb_eq in E; congruence | reflexivity].
  - destruct (String.eqb k' k) eqn:E; simpl.
    + apply String.eqb_eq in E. subst k'.
      destruct (String.eqb k k0) eqn:E0; [apply String.eqb_eq in E0; congruence | reflexivity].
    + rewrite IH. reflexivity.
Qed.

Lemma FileExists_in_snoc fs e q :
  FileExists_in (fs ++ [e]) q = FileExists_in fs q || String.eqb (Path e) q.
Proof.
  induction fs as [|f fs IH]; simpl.
  - destruct (String.eqb (Path e) q); reflexivity.
  - destruct (String.eqb (Path f) q); [reflexivity | exact IH].
Qed.

End Manifest.

Section Restart.

Variable rt : Runtime.

(** The times a successful Execute leaves: CompletedAt is set, and StartedAt
    is the one it found or, when it found none, the same time as
    CompletedAt. *)
Lemma Execute_Nil_StartedAt m m' :
  Execute rt m = (m', Nil) ->
  CompletedAt (State (plan m')) <> None /\
  StartedAt (State (plan m')) =
    match StartedAt (State (plan m)) with
    | Some t => Some t
    | None => CompletedAt (State (plan m'))
    end.
Proof.
  intros H. pose proof (Execute_after_loop rt m) as (_ & _ & HA).
  cbv zeta in HA.
  pose proof H as H'. apply Execute_Nil in H'. destruct H' as (m1 & Hloop & _).
  destruct (startup_plan rt m) as (HS & HP & _).
  unfold phaseLoop in HA. rewrite HS, HP in HA.
  change (CurrentPhase (state_started (State (plan m)) (clock (world m))))
    with (Z.max 0 (CurrentPhase (State (plan m)))) in HA.
  rewrite Hloop, H in HA. simpl in HA. destruct HA as [HC HSt].
  rewrite HC, HSt. split; [discriminate|].
  apply loop_completed in Hloop. destruct Hloop as (_ & _ & _ & HA1 & _).
  rewrite HA1, HS. simpl. destruct (StartedAt (State (plan m))); reflexivity.
Qed.

(** Every phase a successful Execute ran is completed, with its tasks. *)
Lemma Execute_Nil_phases m m' j ph' :
  Execute rt m = (m', Nil) ->
  Z.max 0 (CurrentPhase (State (plan m))) <= j ->
  index (Phases (plan m')) j = Some ph' ->
  Phase_Status ph' = PhaseStatusCompleted /\
  Forall (fun t => Task_Completed t = true) (Phase_Tasks ph').
Proof.
  intros H Hj Hi.
  pose proof (Execute_success rt _ _ H) as (_ & Hl & _).
  apply index_Some_range in Hi as Hr. rewrite Hl in Hr.
  apply Execute_Nil in H. destruct H as (m1 & Hloop & HP).
  destruct (loop_success rt _ _ _ _ _ eq_refl Hloop) as (_ & _ & _ & Hin).
  destruct (Hin j ltac:(lia)) as [(ph & a & w & req & resp & _ & _ & _ & _ & H5) _].
  rewrite HP, H5 in Hi. inversion Hi; subst ph'. split; [reflexivity|].
  simpl. apply Forall_forall. intros t Ht. apply in_map_iff in Ht.
  destruct Ht as (t0 & <- & _). reflexivity.
Qed.

End Restart.

Section CommandFacts.

Variable rt : Runtime.
Variable tx : Text.

Lemma SavePlanState_clock w p :
  clock (fst (SavePlanState rt w p)) = clock w /\
  asked (fst (SavePlanState rt w p)) = asked w /\
  ran (fst (SavePlanState rt w p)) = ran w.
Proof.
  unfold SavePlanState, os_MkdirAll, os_WriteFile.
  destruct (MkdirAll_error rt w _); simpl;
    destruct (json_MarshalIndent rt _); simpl; auto;
    destruct (WriteFile_error rt _ _ _); simpl; auto.
Qed.

(** What RequestApproval needs to return true. *)
Lemma RequestApproval_true stdin p stdin' p' err :
  RequestApproval rt tx stdin p = (stdin', p', (true, err)) ->
  err = None /\
  p' = update_State p (fun s => set_State_Status s ExecutionStatusApproved) /\
  exists line, stdin = (line, None) :: stdin' /\ yes rt tx line = true.
Proof.
  unfold RequestApproval, ReadString, yes.
  destruct stdin as [|[line [e|]] rest]; try (intros H; inversion H; fail).
  destruct (String.eqb (TrimSpace rt (ToLower tx line)) "y"
            || String.eqb (TrimSpace rt (ToLower tx line)) "yes") eqn:E.
  - intros H; inversion H; subst. repeat split. exists line. auto.
  - destruct (String.eqb (TrimSpace rt (ToLower tx line)) "e"
              || String.eqb (TrimSpace rt (ToLower tx line)) "edit");
      intros H; inversion H.
Qed.

(** The ways handleExecuteCommand goes. *)
Lemma handleExecuteCommand_cases cmd stdin e w :
  let s := handleExecuteCommand rt tx cmd stdin e w in
  (session_world s = w /\ session_executor s = e /\
   forall r, session_outcome s <> Executed r) \/
  exists plan0 stdin1 plan1 line,
    2 <= len (Fields tx cmd) /\
    LoadPlanState rt w (nth 1 (Fields tx cmd) "") = inl plan0 /\
    (if finished plan0
     then yes rt tx (fst (fst (ReadString stdin))) = true /\
          stdin1 = snd (ReadString stdin) /\ plan1 = reset plan0
     else stdin1 = stdin /\ plan1 = plan0) /\
    stdin1 = (line, None) :: session_stdin s /\ yes rt tx line = true /\
    let m0 := {| executor := e;
                 world := fst (SavePlanState rt w
                                 (update_State plan1
                                    (fun s => set_State_Status s ExecutionStatusApproved)));
                 plan := update_State plan1
                           (fun s => set_State_Status s ExecutionStatusApproved) |} in
    session_outcome s = Executed (snd (Execute rt m0)) /\
    session_executor s = executor (fst (Execute rt m0)) /\
    session_plan s = Some (plan (fst (Execute rt m0))) /\
    session_world s =
      match snd (Execute rt m0) with
      | Panic => world (fst (Execute rt m0))
      | _ => fst (SavePlanState rt (world (fst (Execute rt m0))) (plan (fst (Execute rt m0))))
      end.
Proof.
  cbv zeta. unfold handleExecuteCommand.
  destruct (Z.ltb_spec (len (Fields tx cmd)) 2) as [Hlt|Hge].
  { left. simpl. repeat split. discriminate. }
  destruct (LoadPlanState rt w (nth 1 (Fields tx cmd) "")) as [plan0|err] eqn:El.
  2:{ left. simpl. repeat split. discriminate. }
  assert (Hgo : forall stdin1 plan1,
    let s :=
      match RequestApproval rt tx stdin1 plan1 with
      | (stdin2, plan2, (_, Some err)) =>
          {| session_executor := e; session_world := w; session_stdin := stdin2;
             session_plan := Some plan2; session_outcome := ApprovalFailed err |}
      | (stdin2, plan2, (false, None)) =>
          {| session_executor := e; session_world := w; session_stdin := stdin2;
             session_plan := Some plan2; session_outcome := NotApproved |}
      | (stdin2, plan2, (true, None)) =>
          let '(w1, _) := SavePlanState rt w plan2 in
          match Execute rt {| executor := e; world := w1; plan := plan2 |} with
          | (m, Panic) =>
              {| session_executor := executor m; session_world := world m;
                 session_stdin := stdin2; session_plan := Some (plan m);
                 session_outcome := Executed Panic |}
          | (m, r) =>
              let '(w2, _) := SavePlanState rt (world m) (plan m) in
              {| session_executor := executor m; session_world := w2;
                 session_stdin := stdin2; session_plan := Some (plan m);
                 session_outcome := Executed r |}
          end
      end in
    (session_world s = w /\ session_executor s = e /\
     forall r, session_outcome s <> Executed r) \/
    exists line,
      stdin1 = (line, None) :: session_stdin s /\ yes rt tx line = true /\
      let m0 := {| executor := e;
                   world := fst (SavePlanState rt w
                                   (update_State plan1
                                      (fun s => set_State_Status s ExecutionStatusApproved)));
                   plan := update_State plan1
                             (fun s => set_State_Status s ExecutionStatusApproved) |} in
      session_outcome s = Executed (snd (Execute rt m0)) /\
      session_executor s = executor (fst (Execute rt m0)) /\
      session_plan s = Some (plan (fst (Execute rt m0))) /\
      session_world s =
        match snd (Execute rt m0) with
        | Panic => world (fst (Execute rt m0))
        | _ => fst (SavePlanState rt (world (fst (Execute rt m0)))
                      (plan (fst (Execute rt m0))))
        end).
  { intros stdin1 plan1. cbv zeta.
    destruct (RequestApproval rt tx stdin1 plan1) as [[stdin2 plan2] [ok err]] eqn:Ea.
    destruct err as [err|]; [destruct ok; left; simpl; repeat split; discriminate|].
    destruct ok; [|left; simpl; repeat split; discriminate].
    apply RequestApproval_true in Ea. destruct Ea as (_ & -> & line & -> & Hyes).
    right. exists line.
    destruct (SavePlanState rt w _) as [w1 e1] eqn:Es. simpl fst.
    destruct (Execute rt _) as [m r] eqn:Ee. simpl fst. simpl snd.
    destruct r; simpl; try (destruct (SavePlanState rt (world m) (plan m)) as [w2 e2]);
      simpl; repeat split; assumption. }
  destruct (finished plan0) eqn:Ef.
  - destruct (ReadString stdin) as [[response err0] stdin1] eqn:Er.
    destruct (yes rt tx response) eqn:Ey.
    + simpl negb. cbv iota.
      destruct (Hgo stdin1 (reset plan0)) as [Hl | (line & H1 & H2 & H3)]; [left; exact Hl|].
      right. exists plan0, stdin1, (reset plan0), line.
      rewrite Ef. simpl. auto 10.
    + left. simpl. repeat split. discriminate.
  - simpl negb. cbv iota.
    destruct (Hgo stdin plan0) as [Hl | (line & H1 & H2 & H3)]; [left; exact Hl|].
    right. exists plan0, stdin, plan0, line. rewrite Ef. auto 10.
Qed.

End CommandFacts.

Section Registry.

Variable rt : Runtime.

Lemma lookup_In {V} (t : list (string * V)) k v : lookup t k = Some v -> In (k, v) t.
Proof.
  induction t as [|[k' v'] r IH]; simpl; [discriminate|].
  destruct (String.eqb k' k) eqn:E.
  - apply String.eqb_eq in E. intros H; inversion H; subst. left. reflexivity.
  - intros H. right. apply IH, H.
Qed.

Lemma lookup_None {V} (t : list (string * V)) k : lookup t k = None -> ~ In k (map fst t).
Proof.
  induction t as [|[k' v'] r IH]; simpl; [tauto|].
  destruct (String.eqb k' k) eqn:E; [discriminate|].
  apply String.eqb_neq in E. intros H [Hk|Hk]; [contradiction | exact (IH H Hk)].
Qed.

Lemma table_set_fresh {V} (t : list (string * V)) k v :
  lookup t k = None -> table_set t k v = (t ++ [(k, v)])%list.
Proof.
  induction t as [|[k' v'] r IH]; simpl; [reflexivity|].
  destruct (String.eqb k' k); [discriminate|]. intros H. rewrite IH by exact H. reflexivity.
Qed.

Lemma find_agent_In l t a : find_agent l t = Some a -> In a l /\ Agent_Type a = t.
Proof.
  induction l as [|b r IH]; simpl; [discriminate|].
  destruct (String.eqb (Agent_Type b) t) eqn:E.
  - apply String.eqb_eq in E. intros H; inversion H; subst. auto.
  - intros H. destruct (IH H). auto.
Qed.

Lemma In_find_agent l a :
  NoDup (map Agent_Type l) -> In a l -> find_agent l (Agent_Type a) = Some a.
Proof.
  induction l as [|b r IH]; simpl; [intros _ []|].
  intros Hnd Hin. inversion Hnd as [|x xs Hx Hr]; subst.
  destruct (String.eqb (Agent_Type b) (Agent_Type a)) eqn:E.
  - destruct Hin as [->|Hin]; [reflexivity|].
    apply String.eqb_eq in E. contradiction Hx. rewrite E. apply in_map, Hin.
  - destruct Hin as [->|Hin]; [rewrite String.eqb_refl in E; discriminate|].
    apply IH; assumption.
Qed.

(** The scan of executePhase finds the same agent in every order. *)
Lemma find_agent_Permutation l l' t :
  NoDup (map Agent_Type l) -> Permutation l l' -> find_agent l t = find_agent l' t.
Proof.
  intros Hnd Hp.
  assert (Hnd' : NoDup (map Agent_Type l')).
  { eapply Permutation_NoDup; [apply Permutation_map, Hp | exact Hnd]. }
  destruct (find_agent l t) as [a|] eqn:E.
  - apply find_agent_In in E. destruct E as [Hin <-].
    symmetry. apply In_find_agent; [exact Hnd'|]. eapply Permutation_in; eauto.
  - destruct (find_agent l' t) as [a'|] eqn:E'; [|reflexivity].
    apply find_agent_In in E'. destruct E' as [Hin <-].
    rewrite (In_find_agent l a' Hnd) in E; [discriminate|].
    eapply Permutation_in; [apply Permutation_sym, Hp | exact Hin].
Qed.

Lemma registry_types o :
  registry_ok o -> map Agent_Type (map snd o) = map fst o.
Proof.
  intros [_ Hf]. induction o as [|[k a] r IH]; simpl; [reflexivity|].
  inversion Hf; subst. simpl in *. f_equal; auto.
Qed.

Lemma executePhase_agents e e' w p i :
  (forall t, find_agent (orchestrator e) t = find_agent (orchestrator e') t) ->
  executePhase rt e w p i = executePhase rt e' w p i.
Proof. intros H. unfold executePhase. destruct (index _ i); [rewrite H|]; reflexivity. Qed.

Lemma runPhase_agents i m m' :
  same_agents m m' ->
  snd (runPhase rt i m) = snd (runPhase rt i m') /\
  same_agents (fst (runPhase rt i m)) (fst (runPhase rt i m')).
Proof.
  intros (Hw & Hp & Hc & Hf). unfold runPhase. rewrite <- Hp, <- Hw.
  destruct (index (Phases (plan m)) i) as [ph|];
    [|split; [reflexivity | repeat split; auto]].
  destruct (areDependenciesMet (plan m) ph) as [[|]|];
    try (split; [reflexivity | repeat split; auto]).
  unfold createCheckpoint. simpl. rewrite <- Hc.
  set (e1 := {| orchestrator := orchestrator (executor m); checkpoints := _ |}).
  set (e2 := {| orchestrator := orchestrator (executor m'); checkpoints := _ |}).
  assert (He : executePhase rt e2 (set_clock (world m) (clock (world m) + 1)) (plan m) i
               = executePhase rt e1 (set_clock (world m) (clock (world m) + 1)) (plan m) i).
  { apply executePhase_agents. intros t. symmetry. apply Hf. }
  rewrite He.
  destruct (executePhase rt e1 _ (plan m) i) as [[w2 p2] re].
  destruct re; simpl; split; try reflexivity; repeat split; auto.
Qed.

Lemma loop_agents idxs : forall m m',
  same_agents m m' ->
  snd (for_each (runPhase rt) idxs m) = snd (for_each (runPhase rt) idxs m') /\
  same_agents (fst (for_each (runPhase rt) idxs m)) (fst (for_each (runPhase rt) idxs m')).
Proof.
  induction idxs as [|i r IH]; intros m m' H; simpl; [auto|].
  destruct (runPhase_agents i m m' H) as [Hr Hs].
  destruct (runPhase rt i m) as [m1 r1]; destruct (runPhase rt i m') as [m1' r1'].
  simpl in Hr, Hs. subst r1'. destruct r1; [auto|]. apply IH, Hs.
Qed.

Lemma startup_agents m m' : same_agents m m' -> same_agents (startup rt m) (startup rt m').
Proof.
  intros (Hw & Hp & Hc & Hf). unfold startup. rewrite <- Hw, <- Hp. simpl.
  destruct (initProjectStructure rt _ _). repeat split; auto.
Qed.

Lemma find_agent_registry o t :
  registry_ok o -> find_agent (map snd o) t = lookup o t.
Proof.
  intros [_ Hf]. induction o as [|[k a] r IH]; simpl; [reflexivity|].
  inversion Hf; subst. simpl in *. rewrite H1.
  destruct (String.eqb k t); [reflexivity | auto].
Qed.

Lemma GetAgents_find o agents t :
  registry_ok o -> GetAgents o agents -> find_agent agents t = lookup o t.
Proof.
  intros Hok Hp. rewrite <- (find_agent_registry o t Hok). unfold GetAgents in Hp.
  symmetry. apply find_agent_Permutation; [|apply Permutation_sym, Hp].
  rewrite (registry_types o Hok). apply Hok.
Qed.

Lemma Execute_agents m m' :
  same_agents m m' ->
  snd (Execute rt m) = snd (Execute rt m') /\
  same_agents (fst (Execute rt m)) (fst (Execute rt m')).
Proof.
  intros H. assert (Hp0 : plan m = plan m') by apply H.
  apply startup_agents in H. unfold Execute, phaseLoop. cbv zeta.
  destruct H as (Hw & Hp & Hc & Hf) eqn:EH. clear EH.
  rewrite <- Hp, <- Hp0.
  destruct (loop_agents (range (CurrentPhase (State (plan (startup rt m))))
                               (len (Phases (plan (startup rt m)))))
              (startup rt m) (startup rt m') (conj Hw (conj Hp (conj Hc Hf))))
    as [Hr (Hw1 & Hp1 & Hc1 & Hf1)].
  destruct (for_each (runPhase rt) _ (startup rt m)) as [m1 r1].
  destruct (for_each (runPhase rt) _ (startup rt m')) as [m1' r1'].
  simpl in *. subst r1'. destruct r1 as [r|].
  - simpl. repeat split; auto.
  - unfold finish. rewrite <- Hw1, <- Hp1. simpl.
    destruct (StartedAt (State (plan m))); simpl;
      try destruct (StartedAt (State (plan m1))); simpl; repeat split; auto.
Qed.

End Registry.

Section PlannerFacts.

Variable rt : Runtime.
Variable tx : Text.
Variable llm : Inference.

Lemma Index_from_bounds sub : forall s i,
  Index_from i s sub = -1 \/
  i <= Index_from i s sub <= i + Z.of_nat (String.length s).
Proof.
  induction s as [|c s IH]; intros i; cbn [Index_from].
  - destruct (String.prefix sub ""); [right; simpl; lia | left; reflexivity].
  - destruct (String.prefix sub (String c s));
      [right; cbn [String.length]; lia|].
    destruct (IH (i + 1)) as [H|H]; [left; exact H | right; cbn [String.length]; lia].
Qed.

Lemma LastIndex_from_bounds c sub : forall s i found,
  LastIndex_from i found s (String c sub) = found \/
  i <= LastIndex_from i found s (String c sub) < i + Z.of_nat (String.length s).
Proof.
  induction s as [|d s IH]; intros i found.
  - left. reflexivity.
  - cbn [LastIndex_from]. cbv zeta.
    destruct (String.prefix (String c sub) (String d s)).
    + destruct (IH (i + 1) i) as [H|H]; right; rewrite ?H; cbn [String.length]; lia.
    + destruct (IH (i + 1) found) as [H|H]; [left; exact H|].
      right. cbn [String.length]. lia.
Qed.

(** The slice [response[start : end+1]] of the planner panics exactly when
    the first opening brace comes after the byte that follows the last
    closing brace. *)
Lemma brace_slice (response : string) :
  Index response "{" <> -1 -> LastIndex response "}" <> -1 ->
  (slice response (Index response "{") (LastIndex response "}" + 1) = None <->
   LastIndex response "}" + 1 < Index response "{").
Proof.
  intros Hs He. unfold slice.
  destruct (Index_from_bounds "{" response 0) as [H|H]; [contradiction|].
  destruct (LastIndex_from_bounds "}" "" response 0 (-1)) as [H'|H']; [contradiction|].
  fold (Index response "{") in H. fold (LastIndex response "}") in H'.
  destruct (Z.leb_spec 0 (Index response "{")); [|lia].
  destruct (Z.leb_spec (LastIndex response "}" + 1) (Z.of_nat (String.length response)));
    [|lia].
  destruct (Z.leb_spec (Index response "{") (LastIndex response "}" + 1)); simpl.
  - split; [discriminate | lia].
  - split; [intros _; lia | reflexivity].
Qed.

Lemma normalizeAgentType_kinds agentStr :
  In (normalizeAgentType rt tx agentStr)
     [AgentTypeCode; AgentTypeData; AgentTypeInfra; AgentTypeSec].
Proof.
  unfold normalizeAgentType.
  repeat match goal with
         | |- context [if ?b then _ else _] => destruct b
         end; simpl; tauto.
Qed.

Lemma convertTasks_index i : forall rawTasks j k t,
  index (convertTasks i j rawTasks) k = Some t ->
  Task_ID t = "task-" ++ dec (i + 1) ++ "-" ++ dec (j + k + 1) /\
  Task_Completed t = false /\ Task_Result t = "" /\ Task_Error t = "" /\
  exists rawTask, index rawTasks k = Some rawTask /\
                  Task_Description t = RawTask_Description rawTask.
Proof.
  induction rawTasks as [|rawTask r IH]; intros j k t H.
  - apply index_Some_range in H. unfold len in H. simpl in H. lia.
  - apply index_Some_range in H as Hr.
    destruct (Z.eq_dec k 0) as [->|Hne].
    + unfold index in H. simpl in H. inversion H; subst t. simpl.
      rewrite Z.add_0_r. repeat split. exists rawTask. split; reflexivity.
    + assert (Hk : index (convertTasks i (j + 1) r) (k - 1) = Some t).
      { revert H. unfold index. simpl convertTasks.
        destruct (k <? 0) eqn:E1; [discriminate|].
        destruct (k - 1 <? 0) eqn:E2; [lia|].
        replace (Z.to_nat k) with (S (Z.to_nat (k - 1))) by lia. simpl. auto. }
      destruct (IH _ _ _ Hk) as (H1 & H2 & H3 & H4 & raw & H5 & H6).
      replace (j + 1 + (k - 1) + 1) with (j + k + 1) in H1 by lia.
      repeat (split; [assumption|]). exists raw. split; [|exact H6].
      revert H5. unfold index.
      destruct (k <? 0) eqn:E1; [lia|].
      destruct (k - 1 <? 0) eqn:E2; [lia|].
      replace (Z.to_nat k) with (S (Z.to_nat (k - 1))) by lia. simpl. auto.
Qed.

Lemma index_cons_pos {A} (x : A) l k : 0 < k -> index (x :: l) k = index l (k - 1).
Proof.
  intros Hk. unfold index.
  destruct (k <? 0) eqn:E1; [lia|]. destruct (k - 1 <? 0) eqn:E2; [lia|].
  replace (Z.to_nat k) with (S (Z.to_nat (k - 1))) by lia. reflexivity.
Qed.

Lemma convertPhases_len : forall rawPhases i,
  len (convertPhases rt tx i rawPhases) = len rawPhases.
Proof.
  unfold len. induction rawPhases as [|raw r IH]; intros i; simpl List.length;
    [reflexivity|]. specialize (IH (i + 1)). lia.
Qed.

Lemma convertPhases_index : forall rawPhases i j ph,
  index (convertPhases rt tx i rawPhases) j = Some ph ->
  Phase_ID ph = "phase-" ++ dec (i + j + 1) /\
  Phase_Status ph = PhaseStatusPending /\
  In (Phase_Agent ph) [AgentTypeCode; AgentTypeData; AgentTypeInfra; AgentTypeSec] /\
  exists rawPhase,
    index rawPhases j = Some rawPhase /\
    Phase_Name ph = RawPhase_Name rawPhase /\
    Phase_Dependencies ph = RawPhase_Dependencies rawPhase /\
    Phase_Tasks ph = convertTasks (i + j) 0 (RawPhase_Tasks rawPhase).
Proof.
  induction rawPhases as [|raw r IH]; intros i j ph H.
  - apply index_Some_range in H. unfold len in H. simpl in H. lia.
  - apply index_Some_range in H as Hr.
    destruct (Z.eq_dec j 0) as [->|Hne].
    + unfold index in H. simpl in H. inversion H; subst ph. simpl.
      rewrite !Z.add_0_r. split; [reflexivity|]. split; [reflexivity|].
      split; [apply normalizeAgentType_kinds|]. exists raw. repeat split.
    + cbn [convertPhases] in H. rewrite index_cons_pos in H by lia.
      destruct (IH _ _ _ H) as (H1 & H2 & H3 & raw' & H4 & H5 & H6 & H7).
      replace (i + 1 + (j - 1) + 1) with (i + j + 1) in H1 by lia.
      replace (i + 1 + (j - 1)) with (i + j) in H7 by lia.
      repeat (split; [assumption|]). exists raw'.
      rewrite index_cons_pos by lia. auto.
Qed.

Lemma convertPhases_ids : forall rawPhases i x,
  In x (map Phase_ID (convertPhases rt tx i rawPhases)) ->
  exists k, i <= k /\ x = "phase-" ++ dec (k + 1).
Proof.
  induction rawPhases as [|raw r IH]; intros i x; simpl; [intros []|].
  intros [<-|H].
  - exists i. split; [lia | reflexivity].
  - destruct (IH _ _ H) as (k & Hk & ->). exists k. split; [lia | reflexivity].
Qed.

(** The phases parsePlanResponse builds have ids that differ. *)
Lemma convertPhases_NoDup : forall rawPhases i,
  NoDup (map Phase_ID (convertPhases rt tx i rawPhases)).
Proof.
  induction rawPhases as [|raw r IH]; intros i; simpl; constructor; [|apply IH].
  intros H. apply convertPhases_ids in H. destruct H as (k & Hk & He).
  apply (append_inj_l "phase-") in He. apply dec_inj in He. lia.
Qed.

Lemma parsePlanResponse_Returned response query p :
  parsePlanResponse rt tx llm response query = Returned p ->
  exists rawPlan,
    p = {| ID := ""; Title := RawPlan_Title rawPlan;
           Description := RawPlan_Description rawPlan;
           FileStructure := RawPlan_FileStructure rawPlan;
           Phases := convertPhases rt tx 0 (RawPlan_Phases rawPlan);
           State := zero_ExecutionState; Manifest := None;
           CreatedAt := 0; UpdatedAt := 0 |}.
Proof.
  unfold parsePlanResponse. cbv zeta.
  destruct ((Index (unfenced rt response) "{" =? -1)
            || (LastIndex (unfenced rt response) "}" =? -1)); [discriminate|].
  destruct (slice _ _ _) as [jsonStr|]; [|discriminate].
  destruct (Unmarshal_rawPlan llm jsonStr) as [rawPlan|err]; [|discriminate].
  intros H; inversion H. exists rawPlan. reflexivity.
Qed.

Lemma parsePlanResponse_Panicked response query :
  parsePlanResponse rt tx llm response query = Panicked <->
  0 <= LastIndex (unfenced rt response) "}" /\
  LastIndex (unfenced rt response) "}" + 1 < Index (unfenced rt response) "{".
Proof.
  unfold parsePlanResponse. cbv zeta.
  set (r := unfenced rt response).
  destruct (Index_from_bounds "{" r 0) as [Hs|Hs];
    destruct (LastIndex_from_bounds "}" "" r 0 (-1)) as [He|He];
    fold (Index r "{") in Hs; fold (LastIndex r "}") in He.
  - rewrite Hs, He. simpl. split; [discriminate | lia].
  - rewrite Hs. simpl. split; [discriminate | lia].
  - rewrite He. rewrite orb_true_r. split; [discriminate | lia].
  - assert (H1 : Index r "{" <> -1) by lia. assert (H2 : LastIndex r "}" <> -1) by lia.
    destruct (Z.eqb_spec (Index r "{") (-1)); [contradiction|].
    destruct (Z.eqb_spec (LastIndex r "}") (-1)); [contradiction|]. simpl.
    pose proof (brace_slice r H1 H2) as Hb.
    destruct (slice r (Index r "{") (LastIndex r "}" + 1)) as [jsonStr|].
    + split.
      * destruct (Unmarshal_rawPlan llm jsonStr); discriminate.
      * intros [_ Hlt]. apply Hb in Hlt. discriminate.
    + split; [intros _; split; [lia | apply Hb; reflexivity] | reflexivity].
Qed.

End PlannerFacts.

(* ================================================================== *)
(** ** Extraction failures and phase failures; the start time *)

Section ExtractionErrors.

Variable rt : Runtime.

(** The errors processFileBlocks returns are the failures of os.MkdirAll and
    of os.WriteFile. *)
Lemma processFileBlocks_errors response w p phaseName e :
  snd (processFileBlocks rt response w p phaseName) = Err e ->
  exists w0 filename data err,
    MkdirAll_error rt w0 (Dir rt (Clean rt filename)) = Some err /\
    e = "failed to create directory for " ++ filename ++ ": " ++ err
    \/ WriteFile_error rt w0 (Clean rt filename) data = Some err /\
       e = "failed to write " ++ filename ++ ": " ++ err.
Proof.
  pose (Q := fun r : result => forall e, r = Err e ->
          exists w0 filename data err,
            MkdirAll_error rt w0 (Dir rt (Clean rt filename)) = Some err /\
            e = "failed to create directory for " ++ filename ++ ": " ++ err
            \/ WriteFile_error rt w0 (Clean rt filename) data = Some err /\
               e = "failed to write " ++ filename ++ ": " ++ err).
  assert (Hmatch : forall mt s s' r,
            processFileMatch rt phaseName mt s = (s', Some r) -> Q r).
  { intros mt [[w0 p0] fc0] s1 r. unfold processFileMatch, Q.
    destruct (len mt <? 4); [discriminate|].
    destruct (String.eqb (TrimSpace rt (nth 3 mt "")) ""); [discriminate|].
    destruct (HasPrefix _ ".." || HasPrefix _ "/"); [discriminate|].
    destruct (match Manifest p0 with Some m => FileExists m _ | None => false end);
      [discriminate|].
    destruct (negb (String.eqb (Dir rt (Clean rt (TrimSpace rt (nth 2 mt "")))) ".")
              && negb (String.eqb (Dir rt (Clean rt (TrimSpace rt (nth 2 mt "")))) "")).
    - unfold os_MkdirAll.
      destruct (MkdirAll_error rt w0 _) as [err|] eqn:Em.
      + intros H e0 ->. inversion H; subst.
        exists w0, (TrimSpace rt (nth 2 mt "")), "", err. left. auto.
      + unfold os_WriteFile.
        destruct (WriteFile_error rt _ _ _) as [err|] eqn:Ew.
        * intros H e0 ->. inversion H; subst.
          do 4 eexists. right. split; [exact Ew | reflexivity].
        * destruct (Manifest p0) as [mf|]; [|discriminate].
          destruct (AddFile rt _ p0 mf _ phaseName "") as [[w3 p3] []];
            intros H e0 ->; discriminate.
    - unfold os_WriteFile.
      destruct (WriteFile_error rt _ _ _) as [err|] eqn:Ew.
      + intros H e0 ->. inversion H; subst.
        do 4 eexists. right. split; [exact Ew | reflexivity].
      + destruct (Manifest p0) as [mf|]; [|discriminate].
        destruct (AddFile rt _ p0 mf _ phaseName "") as [[w3 p3] []];
          intros H e0 ->; discriminate. }
  assert (Hpattern : forall pattern s s' r,
            processFilePattern rt response phaseName pattern s = (s', Some r) -> Q r).
  { intros pattern s s' r H. unfold processFilePattern in H.
    exact (for_each_result (processFileMatch rt phaseName) Q Hmatch _ _ _ _ H). }
  unfold processFileBlocks.
  destruct (for_each (processFilePattern rt response phaseName) patterns (w, p, []))
    as [s [r|]] eqn:E; simpl; [|discriminate].
  intros ->.
  exact (for_each_result (processFilePattern rt response phaseName) Q Hpattern
           _ _ _ _ E e eq_refl).
Qed.

(** The errors processCommandBlocks returns are the failures of commands. *)
Lemma processCommandBlocks_errors response w e :
  snd (processCommandBlocks rt response w) = Err e ->
  exists w0 cmdStr err,
    Run_error rt w0 cmdStr = Some err /\
    e = "failed to execute '" ++ cmdStr ++ "': " ++ err.
Proof.
  pose (Q := fun r : result => forall e, r = Err e ->
          exists w0 cmdStr err,
            Run_error rt w0 cmdStr = Some err /\
            e = "failed to execute '" ++ cmdStr ++ "': " ++ err).
  assert (Hline : forall line s s' r,
            processCommandLine rt line s = (s', Some r) -> Q r).
  { intros line [w0 ce] s1 r. unfold processCommandLine, Q.
    destruct (String.eqb (TrimSpace rt line) "" || HasPrefix (TrimSpace rt line) "#");
      [discriminate|].
    destruct (isDangerousCommand (TrimSpace rt line)); [discriminate|].
    unfold cmd_Run. destruct (Run_error rt w0 (TrimSpace rt line)) as [err|] eqn:Er;
      [|discriminate].
    intros H e0 ->. inversion H; subst.
    exists w0, (TrimSpace rt line), err. auto. }
  assert (Hmatch : forall mt s s' r,
            processCommandMatch rt mt s = (s', Some r) -> Q r).
  { intros mt s s' r. unfold processCommandMatch.
    destruct (len mt <? 3); [discriminate|].
    destruct (String.eqb (TrimSpace rt (nth 2 mt "")) ""); [discriminate|].
    intros H. exact (for_each_result (processCommandLine rt) Q Hline _ _ _ _ H). }
  unfold processCommandBlocks.
  destruct (for_each (processCommandMatch rt) _ (w, [])) as [s [r|]] eqn:E; simpl;
    [|discriminate].
  intros ->.
  exact (for_each_result (processCommandMatch rt) Q Hmatch _ _ _ _ E e eq_refl).
Qed.

(** An iteration whose agent has answered and whose extraction does not
    panic completes the phase. *)
Lemma runPhase_answered i m ph a resp :
  index (Phases (plan m)) i = Some ph ->
  areDependenciesMet (plan m) ph = Some true ->
  find_agent (orchestrator (executor m)) (Phase_Agent ph) = Some a ->
  Agent_Execute a (call_world m) (phase_request (plan m) ph) = inl resp ->
  snd (file_extraction rt m i ph resp) <> Panic ->
  snd (runPhase rt i m) = None.
Proof.
  intros Hi Hd Ha He Hnp. unfold runPhase. rewrite Hi, Hd.
  unfold createCheckpoint. simpl.
  match goal with
  | |- context [executePhase rt ?e1 ?w1 (plan m) i] =>
      rewrite (executePhase_answered rt e1 w1 (plan m) i ph a resp Hi Ha He)
  end.
  unfold file_extraction, answered_world, call_world in Hnp. simpl in Hnp.
  destruct (processFileBlocks rt (Answer resp) _ _ _) as [[[w2 p2] fc] rf].
  simpl in Hnp.
  pose proof (processCommandBlocks_no_panic rt (Answer resp) w2) as Hnc.
  destruct (processCommandBlocks rt (Answer resp) w2) as [[w3 ce] rc]. simpl in Hnc.
  destruct rf; [| |contradiction Hnp; reflexivity];
    (destruct rc; [| |contradiction Hnc; reflexivity]); reflexivity.
Qed.

End ExtractionErrors.

(** C3 (as amended). A failure of a file write, of a directory creation or of
    a command during extraction does not fail the phase: when the agent of
    the phase has answered and either extraction step returns an error, the
    iteration goes on as after a success, the phase is completed and its
    index joins completedPhases, the plan is not marked failed, and what the
    iteration has written and run is what the two steps wrote and ran. The
    errors the two steps return are the failures of os.MkdirAll, of
    os.WriteFile and of the commands run. An iteration of the phase loop
    returns an error in three cases only: the dependency check of the phase
    fails (the machine is then left as it was), no agent of the phase's type
    is registered, or the call of the agent for this phase returns an error
    (in these two cases the plan is marked failed and the index joins
    failedPhases); and in each of the three no file has been written, no
    directory created and no command run in that iteration. *)
Theorem C3_extraction_failure_is_not_phase_failure (rt : Runtime) (i : Z) (m : Machine) :
  (forall ph a resp e,
     index (Phases (plan m)) i = Some ph ->
     areDependenciesMet (plan m) ph = Some true ->
     find_agent (orchestrator (executor m)) (Phase_Agent ph) = Some a ->
     Agent_Execute a (call_world m) (phase_request (plan m) ph) = inl resp ->
     snd (file_extraction rt m i ph resp) = Err e \/
     snd (file_extraction rt m i ph resp) = Nil /\
     snd (command_extraction rt m i ph resp) = Err e ->
     snd (runPhase rt i m) = None /\
     State (plan (fst (runPhase rt i m))) = state_completed (State (plan m)) i /\
     index (Phases (plan (fst (runPhase rt i m)))) i
       = Some (phase_completed ph (Answer resp)) /\
     world (fst (runPhase rt i m)) = fst (fst (command_extraction rt m i ph resp))) /\
  (forall ph resp e,
     (snd (file_extraction rt m i ph resp) = Err e ->
      exists w0 filename data err,
        MkdirAll_error rt w0 (Dir rt (Clean rt filename)) = Some err /\
        e = "failed to create directory for " ++ filename ++ ": " ++ err
        \/ WriteFile_error rt w0 (Clean rt filename) data = Some err /\
           e = "failed to write " ++ filename ++ ": " ++ err) /\
     (snd (command_extraction rt m i ph resp) = Err e ->
      exists w0 cmdStr err,
        Run_error rt w0 cmdStr = Some err /\
        e = "failed to execute '" ++ cmdStr ++ "': " ++ err)) /\
  (forall m' msg,
     runPhase rt i m = (m', Some (Err msg)) ->
     files (world m') = files (world m) /\
     dirs (world m') = dirs (world m) /\
     ran (world m') = ran (world m) /\
     exists ph, index (Phases (plan m)) i = Some ph /\
       (areDependenciesMet (plan m) ph = Some false /\
        msg = "dependencies not met for phase " ++ Phase_Name ph /\ m' = m
        \/ areDependenciesMet (plan m) ph = Some true /\
           State (plan m') = state_failed (State (plan m)) i /\
           (find_agent (orchestrator (executor m)) (Phase_Agent ph) = None /\
            msg = "phase " ++ dec (i + 1) ++ " failed: agent " ++ Phase_Agent ph
                  ++ " not found"
            \/ exists a err,
                 find_agent (orchestrator (executor m)) (Phase_Agent ph) = Some a /\
                 Agent_Execute a (call_world m) (phase_request (plan m) ph) = inr err /\
                 msg = "phase " ++ dec (i + 1) ++ " failed: " ++ err))).
Proof.
  split; [|split].
  - intros ph a resp e Hi Hd Ha He Hfail.
    assert (Hnp : snd (file_extraction rt m i ph resp) <> Panic).
    { destruct Hfail as [Hf | [Hf _]]; rewrite Hf; discriminate. }
    pose proof (runPhase_answered rt i m ph a resp Hi Hd Ha He Hnp) as Hnone.
    destruct (runPhase rt i m) as [m' r] eqn:E. simpl in Hnone. subst r. simpl.
    split; [reflexivity|].
    destruct (runPhase_done rt _ _ _ E)
      as (ph0 & a0 & w0 & req0 & resp0 & Hi0 & _ & Ha0 & _ & _ & _ & HS & _).
    split; [exact HS|].
    (* the answer in the tasks is the answer of this call, and the world is
       the one its extraction leaves *)
    revert E. unfold command_extraction, file_extraction, answered_world, call_world.
    unfold runPhase. rewrite Hi, Hd. unfold createCheckpoint. simpl.
    match goal with
    | |- context [executePhase rt ?e1 ?w1 (plan m) i] =>
        rewrite (executePhase_answered rt e1 w1 (plan m) i ph a resp Hi Ha He)
    end.
    destruct (processFileBlocks rt (Answer resp) _ _ _) as [[[w2 p2] fc] rf] eqn:Ef.
    pose proof (processFileBlocks_core rt _ _ _ _ _ _ _ _ Ef) as (_ & HP2 & _).
    simpl in HP2.
    assert (Hi2 : index (Phases p2) i = Some (set_Phase_Status ph PhaseStatusInProgress))
      by (rewrite HP2; eapply index_store_same, Hi).
    cbn [fst snd].
    destruct (processCommandBlocks rt (Answer resp) w2) as [[w3 ce] rc].
    assert (Hs1 : forall v, index (store (Phases p2) i v) i = Some v)
      by (intros v; eapply index_store_same, Hi2).
    assert (Hs2 : forall v1 v2,
               index (store (store (Phases p2) i v1) i v2) i = Some v2)
      by (intros v1 v2; eapply index_store_same, Hs1).
    destruct rf; (destruct rc; intros H; inversion H; subst; clear H; simpl);
      (split; [|reflexivity]);
      unfold update_phase; simpl; rewrite Hi2; simpl;
      rewrite Hs1; simpl; rewrite Hs2; reflexivity.
  - intros ph resp e. split.
    + apply processFileBlocks_errors.
    + apply processCommandBlocks_errors.
  - intros m' msg. unfold runPhase.
    destruct (index (Phases (plan m)) i) as [ph|] eqn:Hi; [|discriminate].
    destruct (areDependenciesMet (plan m) ph) as [[|]|] eqn:Hd; try discriminate.
    2:{ intros H; inversion H; subst. repeat split. exists ph.
        split; [reflexivity|]. left. auto. }
    unfold createCheckpoint. simpl.
    destruct (executePhase rt _ _ (plan m) i) as [[w2 p2] [| err |]] eqn:E;
      try discriminate.
    destruct (executePhase_plan rt _ _ _ _ _ _ _ _ Hi E) as (HS & _).
    apply executePhase_Err in E. destruct E as (Hf & Hdr & Hr & ph' & Hi' & Hwhy).
    rewrite Hi in Hi'. inversion Hi'; subst ph'. simpl in Hwhy.
    intros H; inversion H; subst. simpl in *.
    split; [exact Hf|]. split; [exact Hdr|]. split; [exact Hr|].
    exists ph. split; [reflexivity|]. right. split; [exact Hd|].
    split; [rewrite HS; reflexivity|].
    destruct Hwhy as [(Hn & ->) | (a & Ha & He)].
    + left. auto.
    + right. exists a, err. auto.
Qed.

(** A phase whose agent answers with one file block that cannot be written:
    the extraction step returns the error of os.WriteFile and the iteration
    completes the phase. *)
Lemma C3_witness :
  let file_answer :=
    Scenario.fence ++ "python a.py" ++ nl ++ "print(1)" ++ nl ++ Scenario.fence in
  let tbl := [ (nth 0 patterns "", file_answer,
                [[file_answer; "python"; "a.py"; "print(1)" ++ nl]]) ] in
  let rt := Scenario.runtime tbl [] ["a.py"] [] in
  let ph := Scenario.phase "phase-1" "one" [] in
  let m := Scenario.machine (Scenario.stub file_answer) (Scenario.plan_of [ph]) in
  let resp := {| AgentName := "CodeAgent"; Response_AgentType := "code";
                 Answer := file_answer |} in
  snd (file_extraction rt m 0 ph resp) = Err "failed to write a.py: permission denied" /\
  snd (runPhase rt 0 m) = None /\
  CompletedPhases (State (plan (fst (runPhase rt 0 m)))) = [0] /\
  FailedPhases (State (plan (fst (runPhase rt 0 m)))) = [] /\
  option_map Phase_Status (index (Phases (plan (fst (runPhase rt 0 m)))) 0)
    = Some PhaseStatusCompleted.
Proof.
  intros file_answer tbl rt ph m resp.
  assert (Hx : snd (file_extraction rt m 0 ph resp)
               = Err "failed to write a.py: permission denied")
    by (vm_compute; reflexivity).
  assert (Hi : index (Phases (plan m)) 0 = Some ph) by reflexivity.
  assert (Hd : areDependenciesMet (plan m) ph = Some true) by reflexivity.
  assert (Ha : find_agent (orchestrator (executor m)) (Phase_Agent ph)
               = Some (Scenario.stub file_answer)) by reflexivity.
  assert (He : Agent_Execute (Scenario.stub file_answer) (call_world m)
                 (phase_request (plan m) ph) = inl resp) by reflexivity.
  destruct (proj1 (C3_extraction_failure_is_not_phase_failure rt 0 m)
              ph (Scenario.stub file_answer) resp
              "failed to write a.py: permission denied" Hi Hd Ha He (or_introl Hx))
    as (Hn & HS & HP & _).
  split; [exact Hx|]. split; [exact Hn|].
  rewrite HS, HP. repeat split.
Defined.



(* ================================================================== *)
(** ** Further properties *)

(** X1. processCommandBlocks never panics. When it returns nil, the commands
    it started are exactly the commands it returns, in order. When it returns
    an error, it started the commands it returns and then one more, the one
    that failed and that the error names: nothing is started after the first
    failure. *)
Theorem X1_commands_stop_at_first_failure (rt : Runtime) (response : string) (w : World) :
  let w' := fst (fst (processCommandBlocks rt response w)) in
  let executed := snd (fst (processCommandBlocks rt response w)) in
  let r := snd (processCommandBlocks rt response w) in
  r <> Panic /\
  (r = Nil -> ran w' = (ran w ++ executed)%list) /\
  (forall msg, r = Err msg ->
     exists c e, ran w' = (ran w ++ executed ++ [c])%list /\
                 msg = "failed to execute '" ++ c ++ "': " ++ e).
Proof.
  cbv zeta. pose proof (processCommandBlocks_logged rt response w) as H.
  destruct (processCommandBlocks rt response w) as [[w' executed] r]. simpl in *.
  destruct r.
  - destruct H as (Hr & Hf & Hd).
    split; [discriminate|].
    split; [intros _; exact Hr | discriminate].
  - destruct H as (Hf & Hd & c & e & Hr & Hm).
    split; [discriminate|].
    split; [discriminate|]. intros msg' Hm'. inversion Hm'; subst msg'.
    exists c, e. split; [exact Hr | inversion Hm; reflexivity].
  - destruct H as (_ & _ & c & e & _ & Hm). discriminate.
Qed.

(** X2. Unless it panics, processFileBlocks starts no command, and the list
    of paths it returns is exactly the list of files it wrote, in the order
    it wrote them (also when it returns an error), and exactly the list of
    paths it appended to the manifest, when the plan has one. It does not
    panic when the plan has no manifest or a manifest whose file structure,
    its own map or the plan's, is not nil. *)
Theorem X2_files_returned_are_files_written
    (rt : Runtime) (response : string) (w : World) (p : ExecutionPlan) (phaseName : string) :
  let w' := fst (fst (fst (processFileBlocks rt response w p phaseName))) in
  let p' := snd (fst (fst (processFileBlocks rt response w p phaseName))) in
  let filesCreated := snd (fst (processFileBlocks rt response w p phaseName)) in
  let r := snd (processFileBlocks rt response w p phaseName) in
  (manifest_ok p -> r <> Panic) /\
  (r <> Panic ->
   ran w' = ran w /\
   map fst (files w') = (rev filesCreated ++ map fst (files w))%list /\
   (Manifest p <> None ->
    map Path (created p') = (map Path (created p) ++ filesCreated)%list) /\
   (manifest_ok p -> manifest_ok p')).
Proof.
  cbv zeta. pose proof (processFileBlocks_logged rt response w p phaseName) as H.
  destruct (processFileBlocks rt response w p phaseName) as [[[w' p'] fc] r]. simpl in *.
  destruct r.
  - destruct H as (Hf & Hr & Hn & Hm & Hok).
    split; [discriminate|]. intros _. repeat split; auto. intros Hp. apply Hm, Hp.
  - destruct H as (Hf & Hr & Hn & Hm & Hok).
    split; [discriminate|]. intros _. repeat split; auto. intros Hp. apply Hm, Hp.
  - split; [intros Hk Hr; exact (H Hk) | intros Hr; contradiction Hr; reflexivity].
Qed.


(** An answer with two file blocks, the second of which cannot be written. *)
Lemma X2_witness :
  let block1 := Scenario.fence ++ "python a.py" ++ nl ++ "print(1)" ++ nl ++ Scenario.fence in
  let block2 := Scenario.fence ++ "python b.py" ++ nl ++ "print(2)" ++ nl ++ Scenario.fence in
  let answer := block1 ++ nl ++ block2 in
  let tbl := [ (nth 0 patterns "", answer,
                [[block1; "python"; "a.py"; "print(1)" ++ nl];
                 [block2; "python"; "b.py"; "print(2)" ++ nl]]) ] in
  let rt := Scenario.runtime tbl [] ["b.py"] [] in
  let p := set_Manifest (Scenario.plan_of []) (Some (NewProjectManifest "demo" ".")) in
  snd (processFileBlocks rt answer Scenario.world0 p "one")
    = Err "failed to write b.py: permission denied" /\
  snd (fst (processFileBlocks rt answer Scenario.world0 p "one")) = ["a.py"] /\
  map fst (files (fst (fst (fst (processFileBlocks rt answer Scenario.world0 p "one")))))
    = ["a.py"] /\
  map Path (created (snd (fst (fst (processFileBlocks rt answer Scenario.world0 p "one")))))
    = ["a.py"].
Proof.
  intros block1 block2 answer tbl rt p.
  destruct (X2_files_returned_are_files_written rt answer Scenario.world0 p "one")
    as [_ H].
  split; [vm_compute; reflexivity|]. split; [vm_compute; reflexivity|].
  destruct H as (_ & Hf & Hm & _).
  - vm_compute. discriminate.
  - split.
    + rewrite Hf. vm_compute. reflexivity.
    + rewrite Hm by (vm_compute; discriminate). vm_compute. reflexivity.
Defined.

(** X3. When Execute returns nil, every phase from the one it was entered at
    is the phase of the plan it was given, completed: the agent registered
    for the phase's type answered the request that carries the phase's id,
    and every task of the phase is marked completed with that one answer as
    its result; ids, names, descriptions and dependencies are as they were. *)
Theorem X3_successful_execute_completes_every_task (rt : Runtime) (m m' : Machine) :
  Execute rt m = (m', Nil) ->
  forall j, Z.max 0 (CurrentPhase (State (plan m))) <= j < len (Phases (plan m)) ->
            phase_done m m' j.
Proof.
  intros H j Hj. apply Execute_Nil in H. destruct H as (m1 & Hloop & HP).
  destruct (loop_success rt _ _ _ _ _ eq_refl Hloop) as (_ & _ & _ & Hin).
  destruct (Hin j Hj) as [(ph & a & w & req & resp & H1 & H2 & H3 & H4 & H5) _].
  destruct (startup_plan rt m) as (_ & HP0 & HI0 & HE0 & _).
  exists ph, a, w, req, resp.
  rewrite HP0 in H1. rewrite HE0 in H2. unfold request_for in *. rewrite HI0 in H3.
  rewrite HP. auto.
Qed.

(** Two phases, the second of which depends on the first by name. *)
Lemma X3_witness :
  let rt := Scenario.runtime [] [] [] [] in
  let m := Scenario.machine (Scenario.stub "done")
             (Scenario.plan_of [Scenario.phase "a" "alpha" [];
                                Scenario.phase "b" "beta" ["alpha"]]) in
  snd (Execute rt m) = Nil /\ phase_done m (fst (Execute rt m)) 1.
Proof.
  intros rt m.
  assert (E : Execute rt m = (fst (Execute rt m), Nil)) by (vm_compute; reflexivity).
  split; [vm_compute; reflexivity|].
  apply (X3_successful_execute_completes_every_task rt m _ E).
  assert (Hl : len (Phases (plan m)) = 2) by (vm_compute; reflexivity).
  assert (Hc : CurrentPhase (State (plan m)) = 0) by reflexivity.
  rewrite Hl, Hc. lia.
Defined.

(** X4. Execute returns nil only if every dependency of every phase it runs
    names (by id or by name) a phase that was completed on entry or a phase
    that comes earlier in the run: with a dependency on a later phase, on the
    phase itself or on a name no phase has, Execute never returns nil. *)
Theorem X4_success_needs_dependencies_in_order (rt : Runtime) (m m' : Machine) :
  Execute rt m = (m', Nil) ->
  forall j ph D,
    Z.max 0 (CurrentPhase (State (plan m))) <= j ->
    index (Phases (plan m)) j = Some ph ->
    In D (Phase_Dependencies ph) ->
    dep_available (plan m) (Z.max 0 (CurrentPhase (State (plan m)))) j D.
Proof.
  intros H j ph D Hj Hi HD. apply Execute_Nil in H. destruct H as (m1 & Hloop & HP).
  destruct (loop_success rt _ _ _ _ _ eq_refl Hloop) as (_ & _ & _ & Hin).
  destruct (startup_plan rt m) as (HS0 & HP0 & _).
  apply index_Some_range in Hi as Hr.
  destruct (Hin j ltac:(lia)) as [_ Hdeps].
  rewrite <- HP0 in Hi.
  destruct (Hdeps ph D Hi HD) as (k & cp & Hk & Hc & Hkey).
  exists k, cp. rewrite HS0 in Hk. rewrite HP0 in Hc. auto.
Qed.

(** Two phases, the second of which depends on the first by name. *)
Lemma X4_witness :
  let rt := Scenario.runtime [] [] [] [] in
  let m := Scenario.machine (Scenario.stub "done")
             (Scenario.plan_of [Scenario.phase "a" "alpha" [];
                                Scenario.phase "b" "beta" ["alpha"]]) in
  snd (Execute rt m) = Nil /\ dep_available (plan m) 0 1 "alpha".
Proof.
  intros rt m.
  assert (E : Execute rt m = (fst (Execute rt m), Nil)) by (vm_compute; reflexivity).
  split; [vm_compute; reflexivity|].
  apply (X4_success_needs_dependencies_in_order rt m _ E 1
           (Scenario.phase "b" "beta" ["alpha"]) "alpha").
  - assert (Hc : CurrentPhase (State (plan m)) = 0) by reflexivity.
    rewrite Hc. lia.
  - reflexivity.
  - left. reflexivity.
Defined.

(** X5. Execute, called on an executor made by NewExecutor (its checkpoint
    table is a map that is there) whose agents answer a request with a
    response or with an error, does not panic when the completed indices of
    the plan are indices of its phases and the plan has no manifest or a
    manifest whose file structure, its own map or the plan's, is not nil. *)
Theorem X5_execute_does_not_panic (rt : Runtime) (m : Machine) :
  completed_valid (plan m) -> manifest_ok (plan m) -> snd (Execute rt m) <> Panic.
Proof. intros Hv Hok. apply Execute_no_panic; assumption. Qed.

(** A plan that is run for the first time. *)
Lemma X5_witness :
  let rt := Scenario.runtime [] [] [] [] in
  let m := Scenario.machine (Scenario.stub "done")
             (Scenario.plan_of [Scenario.phase "a" "alpha" [];
                                Scenario.phase "b" "beta" ["gamma"]]) in
  snd (Execute rt m) <> Panic /\
  snd (Execute rt m) = Err "dependencies not met for phase beta".
Proof.
  intros rt m. split; [|vm_compute; reflexivity].
  apply (X5_execute_does_not_panic rt m).
  - intros j [].
  - exact I.
Defined.

(** X6. Execute returns nil when it is given a well-formed plan in which
    every phase from the entry phase on has an agent registered for its type
    that answers, and dependencies that each name a phase completed on entry
    or an earlier phase of the run. *)
Theorem X6_execute_succeeds_when_phases_are_runnable (rt : Runtime) (m : Machine) :
  completed_valid (plan m) -> manifest_ok (plan m) ->
  (forall j ph,
     Z.max 0 (CurrentPhase (State (plan m))) <= j ->
     index (Phases (plan m)) j = Some ph ->
     runnable m (Z.max 0 (CurrentPhase (State (plan m)))) j ph) ->
  snd (Execute rt m) = Nil.
Proof.
  intros Hv Hok Hrun. apply Execute_loop_none.
  destruct (startup_plan rt m) as (HS & HP & HI & HE & _).
  assert (Hloop : snd (phaseLoop rt (startup rt m)) = None).
  { unfold phaseLoop. apply (loop_progress rt _ _ _ _ eq_refl).
    - rewrite HS. simpl. lia.
    - reflexivity.
    - unfold completed_valid. rewrite HS, HP. exact Hv.
    - apply startup_ok, Hok.
    - rewrite HS, HP. simpl. intros j ph Hj Hi.
      destruct (Hrun j ph ltac:(lia) Hi) as [(a & Ha & Hans) Hdeps].
      split.
      + exists a. rewrite HE. auto.
      + intros D HD. destruct (Hdeps D HD) as (k & cp & Hk & Hc & Hkey).
        exists k, cp. rewrite HS, HP. auto. }
  exact Hloop.
Qed.

(** Two phases, the second of which depends on the first by name. *)
Lemma X6_witness :
  let rt := Scenario.runtime [] [] [] [] in
  let m := Scenario.machine (Scenario.stub "done")
             (Scenario.plan_of [Scenario.phase "a" "alpha" [];
                                Scenario.phase "b" "beta" ["alpha"]]) in
  snd (Execute rt m) = Nil.
Proof.
  intros rt m.
  apply (X6_execute_succeeds_when_phases_are_runnable rt m).
  - intros j [].
  - exact I.
  - intros j ph Hj Hi.
    assert (Hc : CurrentPhase (State (plan m)) = 0) by reflexivity.
    rewrite Hc in *. apply index_Some_range in Hi as Hr.
    assert (Hl : len (Phases (plan m)) = 2) by (vm_compute; reflexivity).
    rewrite Hl in Hr.
    assert (Hj' : j = 0 \/ j = 1) by lia.
    destruct Hj' as [-> | ->]; vm_compute in Hi; inversion Hi; subst ph; split.
    + exists (Scenario.stub "done"). split; [reflexivity|].
      intros w req. eexists. reflexivity.
    + intros D [].
    + exists (Scenario.stub "done"). split; [reflexivity|].
      intros w req. eexists. reflexivity.
    + intros D [<- | []]. exists 0, (Scenario.phase "a" "alpha" []).
      split; [right; simpl; lia|]. split; [reflexivity | right; reflexivity].
Defined.

(** X7. When Execute returns nil, the executor holds, for every phase of the
    run, a checkpoint filed under the key made of the plan's id and the
    phase's index (the index printed in decimal, so the keys of two phases
    differ), with that plan id, that index and no git stash; every other key
    of the checkpoint table holds what it held before. *)
Theorem X7_one_checkpoint_per_phase (rt : Runtime) (m m' : Machine) :
  Execute rt m = (m', Nil) ->
  (forall j, Z.max 0 (CurrentPhase (State (plan m))) <= j < len (Phases (plan m)) ->
     exists cp,
       lookup (checkpoints (executor m')) (checkpoint_key (ID (plan m)) j) = Some cp /\
       Checkpoint_ID cp = checkpoint_key (ID (plan m)) j /\
       Checkpoint_PlanID cp = ID (plan m) /\ PhaseIndex cp = j /\ GitStash cp = "") /\
  (forall k,
     (forall j, Z.max 0 (CurrentPhase (State (plan m))) <= j < len (Phases (plan m)) ->
                k <> checkpoint_key (ID (plan m)) j) ->
     lookup (checkpoints (executor m')) k = lookup (checkpoints (executor m)) k).
Proof.
  intros H.
  assert (He : executor m' = executor (fst (phaseLoop rt (startup rt m)))).
  { revert H. unfold Execute.
    destruct (phaseLoop rt (startup rt m)) as [m1 [r|]]; [intros H; inversion H; reflexivity|].
    cbv zeta. destruct (StartedAt (State (plan (finish _ m1))));
      intros H; inversion H; reflexivity. }
  apply Execute_Nil in H. destruct H as (m1 & Hloop & _).
  destruct (startup_plan rt m) as (HS & HP & HI & HE & _).
  assert (Hm1 : fst (phaseLoop rt (startup rt m)) = m1).
  { unfold phaseLoop. rewrite HS, HP.
    change (CurrentPhase (state_started (State (plan m)) (clock (world m))))
      with (Z.max 0 (CurrentPhase (State (plan m)))).
    rewrite Hloop. reflexivity. }
  rewrite He, Hm1.
  destruct (loop_checkpoints rt _ _ _ _ _ eq_refl Hloop) as (Hin & Hout).
  rewrite HI, HE in *. auto.
Qed.

(** Two phases: two checkpoints. *)
Lemma X7_witness :
  let rt := Scenario.runtime [] [] [] [] in
  let m := Scenario.machine (Scenario.stub "done")
             (Scenario.plan_of [Scenario.phase "a" "alpha" [];
                                Scenario.phase "b" "beta" ["alpha"]]) in
  snd (Execute rt m) = Nil /\
  map fst (checkpoints (executor (fst (Execute rt m))))
    = ["checkpoint-p1-phase-0"; "checkpoint-p1-phase-1"] /\
  exists cp,
    lookup (checkpoints (executor (fst (Execute rt m)))) "checkpoint-p1-phase-1" = Some cp /\
    PhaseIndex cp = 1.
Proof.
  intros rt m.
  assert (E : Execute rt m = (fst (Execute rt m), Nil)) by (vm_compute; reflexivity).
  split; [vm_compute; reflexivity|]. split; [vm_compute; reflexivity|].
  destruct (X7_one_checkpoint_per_phase rt m _ E) as [Hin _].
  destruct (Hin 1) as (cp & Hl & _ & _ & Hi & _).
  - assert (Hl : len (Phases (plan m)) = 2) by (vm_compute; reflexivity).
    assert (Hc : CurrentPhase (State (plan m)) = 0) by reflexivity.
    rewrite Hl, Hc. lia.
  - exists cp. split; [exact Hl | exact Hi].
Defined.

(** X8. The prompt buildPhaseQuery writes for a phase starts with the phase's
    name, has one numbered line for each task of the phase (numbered from 1),
    lists every file the manifest has recorded as created, with the phase
    that created it, and carries the success criteria and, at its end, the
    instructions on the file output format. *)
Theorem X8_prompt_lists_tasks_and_created_files (p : ExecutionPlan) (ph : Phase) :
  HasPrefix (buildPhaseQuery p ph) ("Phase: " ++ Phase_Name ph ++ nl ++ nl) = true /\
  (forall t, In t (Phase_Tasks ph) ->
     exists k, 1 <= k <= len (Phase_Tasks ph) /\
       Contains (buildPhaseQuery p ph)
                (dec k ++ ". " ++ Task_Description t ++ nl) = true) /\
  (forall f, In f (created p) ->
     Contains (buildPhaseQuery p ph) (created_line f) = true) /\
  Contains (buildPhaseQuery p ph)
           ("Success Criteria: " ++ Phase_SuccessCriteria ph ++ nl ++ fileOutputFormat) = true.
Proof.
  unfold buildPhaseQuery, created.
  set (head := "Phase: " ++ Phase_Name ph ++ nl ++ nl).
  set (ctx := match Manifest p with
              | Some m =>
                  (if String.eqb (GetFileStructureForContext (FileStructure p) m) ""
                   then ""
                   else GetFileStructureForContext (FileStructure p) m ++ nl) ++
                  (if String.eqb (GetCreatedFilesForContext m) ""
                   then ""
                   else GetCreatedFilesForContext m ++ nl)
              | None => ""
              end).
  split; [|split; [|split]].
  - unfold HasPrefix. apply prefix_append.
  - intros t Ht. destruct (taskLines_In t _ 0 Ht) as (k & Hk & Hc).
    exists k. split; [lia|].
    apply Contains_append_r, Contains_append_r, Contains_append_r, Contains_append_l, Hc.
  - intros f Hf. apply Contains_append_r, Contains_append_l. unfold ctx.
    destruct (Manifest p) as [m|]; [|destruct Hf].
    apply Contains_append_r.
    pose proof (GetCreatedFilesForContext_lists m f Hf) as Hc.
    destruct (String.eqb (GetCreatedFilesForContext m) "") eqn:E.
    + apply String.eqb_eq in E. rewrite E in Hc. discriminate.
    + apply Contains_append_l, Hc.
  - apply Contains_append_r, Contains_append_r, Contains_append_r, Contains_append_r.
    generalize fileOutputFormat. intros fmt. rewrite !append_assoc.
    apply Contains_append_r, Contains_append_r, Contains_prefix, prefix_same.
Qed.

(** X9. AddFile on the manifest of a plan always appends one entry, also for
    a path the manifest has already: it does not look for duplicates. After
    it FileExists answers true for the path and as before for every other
    path. When the manifest's file structure is a map that exists, the base
    name of the path is appended to the list of its directory (the
    manifest's base directory for a path without one) and the other lists
    are as before; when the manifest shares the plan's map, it is the plan's
    file structure that has changed. *)
Theorem X9_AddFile_records_the_file
    (rt : Runtime) (w : World) (p : ExecutionPlan) (m : ProjectManifest)
    (path phase purpose : string) :
  Manifest p = Some m ->
  let p' := snd (fst (AddFile rt w p m path phase purpose)) in
  exists m',
    Manifest p' = Some m' /\
    len (CreatedFiles m') = len (CreatedFiles m) + 1 /\
    FileExists m' path = true /\
    (forall q, q <> path -> FileExists m' q = FileExists m q) /\
    (forall d, structure_of (FileStructure p) m = Some d ->
       exists d',
         structure_of (FileStructure p') m' = Some d' /\
         map_get d' (listed_dir rt m path)
           = (map_get d (listed_dir rt m path) ++ [Base rt path])%list /\
         (forall k, k <> listed_dir rt m path -> map_get d' k = map_get d k) /\
         (Manifest_FileStructure m = PlanStructure -> FileStructure p' = Some d') /\
         (Manifest_FileStructure m <> PlanStructure -> FileStructure p' = FileStructure p)).
Proof.
  intros Hm. unfold AddFile, structure_of, listed_dir, FileExists. simpl.
  set (e := {| Path := path; Entry_Phase := phase; Purpose := purpose;
               Size := _; Entry_CreatedAt := clock w |}).
  set (dir := if String.eqb (Dir rt path) "" || String.eqb (Dir rt path) "."
              then BaseDir m else Dir rt path).
  assert (Hlen : len (CreatedFiles m ++ [e])%list = len (CreatedFiles m) + 1).
  { unfold len. rewrite length_app. simpl List.length. lia. }
  assert (Hex : FileExists_in (CreatedFiles m ++ [e])%list path = true).
  { rewrite FileExists_in_snoc. simpl. rewrite String.eqb_refl. apply orb_true_r. }
  assert (Hoth : forall q, q <> path ->
            FileExists_in (CreatedFiles m ++ [e])%list q = FileExists_in (CreatedFiles m) q).
  { intros q Hq. rewrite FileExists_in_snoc. simpl.
    destruct (String.eqb path q) eqn:E; [apply String.eqb_eq in E; congruence|].
    apply orb_false_r. }
  destruct (Manifest_FileStructure m) as [|d0|] eqn:Es;
    [destruct (FileStructure p) as [d0|] eqn:Ef| |];
    simpl; eexists; (split; [reflexivity|]); simpl; rewrite ?Es;
    (split; [exact Hlen|]); (split; [exact Hex|]); (split; [exact Hoth|]).
  - intros d Hd. inversion Hd; subst d. eexists. split; [reflexivity|].
    split; [apply map_get_set_same|]. split; [intros k Hk; apply map_get_set_other, Hk|].
    split; [reflexivity | intros Hn; contradiction Hn; reflexivity].
  - intros d Hd. discriminate.
  - intros d Hd. inversion Hd; subst d. eexists. split; [reflexivity|].
    split; [apply map_get_set_same|]. split; [intros k Hk; apply map_get_set_other, Hk|].
    split; [discriminate | reflexivity].
  - intros d Hd. discriminate.
Qed.

(** The same path recorded twice in a fresh manifest. *)
Lemma X9_witness :
  let rt := Scenario.runtime [] [] [] [] in
  let m0 := NewProjectManifest "demo" "." in
  let p0 := set_Manifest (Scenario.plan_of []) (Some m0) in
  let p1 := snd (fst (AddFile rt Scenario.world0 p0 m0 "src/a.py" "one" "")) in
  exists m1 m2,
    Manifest p1 = Some m1 /\
    Manifest (snd (fst (AddFile rt Scenario.world0 p1 m1 "src/a.py" "two" ""))) = Some m2 /\
    len (CreatedFiles m2) = 2 /\ FileExists m2 "src/a.py" = true /\
    FileExists m2 "src/b.py" = false /\
    Manifest_FileStructure m2 = OwnMap [("src", ["a.py"; "a.py"])].
Proof.
  intros rt m0 p0 p1.
  destruct (X9_AddFile_records_the_file rt Scenario.world0 p0 m0 "src/a.py" "one" ""
              eq_refl) as (m1 & H1 & Hl1 & _).
  fold p1 in H1.
  destruct (X9_AddFile_records_the_file rt Scenario.world0 p1 m1 "src/a.py" "two" "" H1)
    as (m2 & H2 & Hl2 & He2 & Ho2 & _).
  exists m1, m2. split; [exact H1|]. split; [exact H2|].
  assert (E1 : m1 = match Manifest p1 with Some x => x | None => m0 end)
    by (rewrite H1; reflexivity).
  assert (E2 : m2 = match Manifest (snd (fst (AddFile rt Scenario.world0 p1 m1
                                                "src/a.py" "two" ""))) with
                    | Some x => x | None => m0 end)
    by (rewrite H2; reflexivity).
  split; [rewrite Hl2, Hl1; reflexivity|]. split; [exact He2|].
  split.
  - rewrite Ho2 by discriminate. rewrite E1. vm_compute. reflexivity.
  - rewrite E2, E1. vm_compute. reflexivity.
Defined.

(** X10. handleExecuteCommand changes nothing (no file, not the saved state of
    the plan, no command, no request to an agent, no checkpoint) unless it
    gets as far as calling Execute; and it calls Execute only when the
    command has a second field, the plan of that id loads, the answer read at
    the approval prompt, read without error, is y or yes once lowered and
    trimmed, and, for a plan that is completed or failed, the answer read
    before at the restart prompt is y or yes too. In particular a plan that
    is declined is not saved as cancelled. *)
Theorem X10_nothing_is_run_without_approval
    (rt : Runtime) (tx : Text) (cmd : string) (stdin : Stdin) (e : Executor) (w : World) :
  let s := handleExecuteCommand rt tx cmd stdin e w in
  ((forall r, session_outcome s <> Executed r) ->
   session_world s = w /\ session_executor s = e) /\
  (forall r, session_outcome s = Executed r ->
     exists plan0 line,
       2 <= len (Fields tx cmd) /\
       LoadPlanState rt w (nth 1 (Fields tx cmd) "") = inl plan0 /\
       yes rt tx line = true /\
       if finished plan0
       then yes rt tx (fst (fst (ReadString stdin))) = true /\
            snd (ReadString stdin) = (line, None) :: session_stdin s
       else stdin = (line, None) :: session_stdin s).
Proof.
  cbv zeta.
  destruct (handleExecuteCommand_cases rt tx cmd stdin e w)
    as [(Hw & He & Hn) | (plan0 & stdin1 & plan1 & line & Hlen & Hl & Hsel & Hs & Hy & Hrest)].
  - split; [auto|]. intros r Hr. contradiction (Hn r).
  - cbv zeta in Hrest. destruct Hrest as (Ho & _). split.
    + intros Hn. contradiction (Hn _ Ho).
    + intros r _. exists plan0, line. repeat (split; [assumption|]).
      destruct (finished plan0).
      * destruct Hsel as (H1 & H2 & _). split; [exact H1 | congruence].
      * destruct Hsel as (H1 & _). congruence.
Qed.

(** X11. When handleExecuteCommand restarts a plan that is completed or
    failed and Execute then returns nil, the plan it ends with has every
    phase completed with all its tasks, completedPhases = 0, 1, ..., n-1,
    failedPhases empty, currentPhase = n, status completed, and a startedAt
    that is set and reads as completedAt (the reset has cleared it, and
    Execute points both at the variable that holds the time of completion):
    the reset makes Execute run the plan from its first phase, whatever the
    lists held before. *)
Theorem X11_restart_runs_the_plan_from_its_first_phase
    (rt : Runtime) (tx : Text) (cmd : string) (stdin : Stdin) (e : Executor) (w : World)
    (plan0 p' : ExecutionPlan) :
  let s := handleExecuteCommand rt tx cmd stdin e w in
  LoadPlanState rt w (nth 1 (Fields tx cmd) "") = inl plan0 ->
  finished plan0 = true ->
  session_outcome s = Executed Nil ->
  session_plan s = Some p' ->
  State_Status (State p') = ExecutionStatusCompleted /\
  CompletedPhases (State p') = range 0 (len (Phases plan0)) /\
  FailedPhases (State p') = [] /\
  CurrentPhase (State p') = len (Phases plan0) /\
  (StartedAt (State p') = CompletedAt (State p') /\
   CompletedAt (State p') <> None) /\
  len (Phases p') = len (Phases plan0) /\
  forall j ph', index (Phases p') j = Some ph' ->
    Phase_Status ph' = PhaseStatusCompleted /\
    Forall (fun t => Task_Completed t = true) (Phase_Tasks ph').
Proof.
  cbv zeta. intros Hl Hf Ho Hp.
  destruct (handleExecuteCommand_cases rt tx cmd stdin e w)
    as [(_ & _ & Hn) | (pl & stdin1 & plan1 & line & _ & Hl' & Hsel & _ & _ & Hrest)].
  { contradiction (Hn _ Ho). }
  rewrite Hl in Hl'. inversion Hl'; subst pl. rewrite Hf in Hsel.
  destruct Hsel as (_ & _ & ->). cbv zeta in Hrest.
  destruct Hrest as (Ho' & _ & Hp' & _).
  rewrite Ho in Ho'. rewrite Hp in Hp'. inversion Hp'; subst p'. clear Hp'.
  set (m0 := {| executor := e; world := _; plan := _ |}) in *.
  assert (E : Execute rt m0 = (fst (Execute rt m0), Nil)).
  { destruct (Execute rt m0) as [m r]. simpl in *. inversion Ho'. reflexivity. }
  assert (Hlen : len (Phases (plan m0)) = len (Phases plan0)).
  { unfold m0, len. simpl. rewrite length_map. reflexivity. }
  pose proof (Execute_success rt _ _ E) as (H1 & H2 & H3 & H4 & H5).
  pose proof (Execute_Nil_StartedAt rt _ _ E) as (H7 & H6).
  rewrite Hlen in *.
  assert (Hlnn : 0 <= len (Phases plan0)) by (unfold len; lia).
  split; [exact H1|]. split; [exact H3|]. split; [exact H4|].
  split; [rewrite H5; simpl; lia|]. split.
  - split; [exact H6 | exact H7].
  - split; [exact H2|]. intros j ph' Hi.
    apply (Execute_Nil_phases rt _ _ j ph' E); [|exact Hi].
    apply index_Some_range in Hi. simpl. lia.
Qed.

(** A plan of two phases that failed in its second phase, restarted. *)
Lemma X11_witness :
  let plan0 :=
    {| ID := "p1"; Title := "demo"; Description := ""; FileStructure := None;
       Phases := [set_Phase_Status (Scenario.phase "phase-1" "one" []) PhaseStatusCompleted;
                  set_Phase_Status (Scenario.phase "phase-2" "two" ["one"])
                                   PhaseStatusInProgress];
       State := {| State_Status := ExecutionStatusFailed; CurrentPhase := 1;
                   CompletedPhases := [0]; FailedPhases := [1]; LastCheckpoint := "";
                   StartedAt := Some 7; CompletedAt := None |};
       Manifest := None; CreatedAt := 5; UpdatedAt := 6 |} in
  let rt := Scenario.with_document (Scenario.runtime [] [] [] [])
              (marshal_ExecutionPlan plan0) "(the text of the plan)" in
  let w := {| clock := 1000;
              files := [("/home/user/.quantumflow/state/p1.json", "(the text of the plan)")];
              dirs := []; ran := []; asked := [] |} in
  let s := handleExecuteCommand rt Console.text "/execute p1"
             [("Y" ++ nl, None); (" yes" ++ nl, None)]
             (NewExecutor [Scenario.stub "done"]) w in
  session_outcome s = Executed Nil /\
  exists p', session_plan s = Some p' /\
    CompletedPhases (State p') = [0; 1] /\ FailedPhases (State p') = [] /\
    StartedAt (State p') = CompletedAt (State p').
Proof.
  intros plan0 rt w s.
  assert (Ho : session_outcome s = Executed Nil) by (vm_compute; reflexivity).
  assert (Hp : session_plan s =
               Some (match session_plan s with Some p => p | None => plan0 end))
    by (vm_compute; reflexivity).
  assert (Hl : LoadPlanState rt w (nth 1 (Fields Console.text "/execute p1") "") = inl plan0)
    by (vm_compute; reflexivity).
  assert (Hf : finished plan0 = true) by (vm_compute; reflexivity).
  assert (Hn : range 0 (len (Phases plan0)) = [0; 1]) by (vm_compute; reflexivity).
  split; [exact Ho|].
  exists (match session_plan s with Some p => p | None => plan0 end).
  split; [exact Hp|].
  pose proof (X11_restart_runs_the_plan_from_its_first_phase rt Console.text "/execute p1"
                [("Y" ++ nl, None); (" yes" ++ nl, None)]
                (NewExecutor [Scenario.stub "done"]) w plan0
                (match session_plan s with Some p => p | None => plan0 end)
                Hl Hf Ho Hp) as (_ & Hc & Hfl & _ & (Hs & _) & _).
  rewrite Hn in Hc. auto.
Defined.

(** X12. RegisterAgent keeps one agent per type: on a registry with every key
    once and every agent under its own type it leaves such a registry; it
    never replaces or removes a registered agent; it returns nil exactly for
    an agent that is not nil and whose type has no agent yet, which is then
    the agent of its type; when it returns an error the registry is
    unchanged, so the first agent registered for a type stays. *)
Theorem X12_register_keeps_one_agent_per_type (o : Registry) (agent : option Agent) :
  registry_ok o ->
  let o' := fst (RegisterAgent o agent) in
  let err := snd (RegisterAgent o agent) in
  registry_ok o' /\
  (forall t a, lookup o t = Some a -> lookup o' t = Some a) /\
  (err = None <-> exists a, agent = Some a /\ lookup o (Agent_Type a) = None) /\
  (err = None -> forall a, agent = Some a -> lookup o' (Agent_Type a) = Some a) /\
  (err <> None -> o' = o).
Proof.
  intros Hok. cbv zeta. unfold RegisterAgent.
  destruct agent as [a|]; simpl.
  2:{ split; [exact Hok|]. split; [auto|]. split; [|split; [discriminate | reflexivity]].
      split; [discriminate | intros (a & Ha & _); discriminate]. }
  destruct (lookup o (Agent_Type a)) as [b|] eqn:El; simpl.
  - split; [exact Hok|]. split; [auto|]. split; [|split; [discriminate | reflexivity]].
    split; [discriminate|]. intros (a' & Ha & Hl). inversion Ha; subst a'. congruence.
  - split; [|split; [|split; [|split]]].
    + rewrite (table_set_fresh _ _ _ El). destruct Hok as [Hnd Hf]. split.
      * rewrite map_app. simpl. apply NoDup_app; [exact Hnd | repeat constructor; tauto|].
        intros x Hx [<-|[]]. exact (lookup_None _ _ El Hx).
      * apply Forall_app. split; [exact Hf | repeat constructor].
    + intros t b Hb. rewrite lookup_table_set_other; [exact Hb | congruence].
    + split; [intros _; exists a; auto | reflexivity].
    + intros _ a' Ha. inversion Ha; subst a'. apply lookup_table_set_same.
    + intros Hn. contradiction Hn. reflexivity.
Qed.

(** A second agent of type code is refused. *)
Lemma X12_witness :
  let o := fst (RegisterAgent [] (Some (Scenario.stub "first"))) in
  registry_ok o /\
  snd (RegisterAgent o (Some (Scenario.stub "second")))
    = Some "agent of type code already registered" /\
  fst (RegisterAgent o (Some (Scenario.stub "second"))) = o.
Proof.
  intros o.
  assert (H0 : registry_ok []) by (split; constructor).
  destruct (X12_register_keeps_one_agent_per_type [] (Some (Scenario.stub "first")) H0)
    as (Hok & _).
  split; [exact Hok|]. split; [reflexivity|].
  destruct (X12_register_keeps_one_agent_per_type o (Some (Scenario.stub "second")) Hok)
    as (_ & _ & _ & _ & Hsame).
  apply Hsame. discriminate.
Defined.

(** X13. GetAgents returns the agents in the unspecified order of a map
    range, and executePhase takes the first agent of the phase's type in that
    order. Because a registry holds one agent per type, the order does not
    matter: the agent found for a type is the agent registered for it, and
    Execute returns the same result and leaves the same plan, the same world
    and the same checkpoints for every order GetAgents may return. *)
Theorem X13_execute_does_not_depend_on_agent_order
    (rt : Runtime) (o : Registry) (agents agents' : list Agent)
    (cps : list (string * Checkpoint)) (w : World) (p : ExecutionPlan) :
  registry_ok o -> GetAgents o agents -> GetAgents o agents' ->
  let m := {| executor := {| orchestrator := agents; checkpoints := cps |};
              world := w; plan := p |} in
  let m' := {| executor := {| orchestrator := agents'; checkpoints := cps |};
               world := w; plan := p |} in
  (forall t, find_agent agents t = lookup o t) /\
  snd (Execute rt m) = snd (Execute rt m') /\
  world (fst (Execute rt m)) = world (fst (Execute rt m')) /\
  plan (fst (Execute rt m)) = plan (fst (Execute rt m')) /\
  checkpoints (executor (fst (Execute rt m))) = checkpoints (executor (fst (Execute rt m'))).
Proof.
  intros Hok Hg Hg'. cbv zeta.
  split; [intros t; apply GetAgents_find; assumption|].
  match goal with
  | |- snd (Execute rt ?m) = snd (Execute rt ?m') /\ _ =>
      assert (Hs : same_agents m m')
  end.
  { repeat split. simpl. intros t.
    rewrite (GetAgents_find o agents t Hok Hg), (GetAgents_find o agents' t Hok Hg').
    reflexivity. }
  apply (Execute_agents rt) in Hs. destruct Hs as (Hr & Hw & Hp & Hc & _). auto.
Qed.

(** Two agents of different types, in the two orders. *)
Lemma X13_witness :
  let rt := Scenario.runtime [] [] [] [] in
  let data := {| Agent_Name := "DataAgent"; Agent_Type := "data";
                 Agent_Execute := fun _ _ => inr "no data" |} in
  let o := [("code", Scenario.stub "done"); ("data", data)] in
  let p := Scenario.plan_of [Scenario.phase "a" "alpha" []] in
  snd (Execute rt {| executor := {| orchestrator := [data; Scenario.stub "done"];
                                    checkpoints := [] |};
                     world := Scenario.world0; plan := p |}) = Nil.
Proof.
  intros rt data o p.
  assert (Hok : registry_ok o).
  { split; [|repeat constructor].
    repeat constructor; simpl; intuition discriminate. }
  destruct (X13_execute_does_not_depend_on_agent_order rt o
              [Scenario.stub "done"; data] [data; Scenario.stub "done"] []
              Scenario.world0 p Hok (Permutation_refl _) (perm_swap _ _ _))
    as (_ & Hr & _).
  rewrite <- Hr. vm_compute. reflexivity.
Defined.

(** X14. A plan parsePlanResponse returns has no id, the zero state and no
    manifest; its phases have the ids phase-1, phase-2, ... in order, which
    all differ, the status pending and an agent type among code, data, infra
    and sec, whatever the answer named; the tasks of phase i have the ids
    task-i-1, task-i-2, ... and are not completed. *)
Theorem X14_parsed_plan_is_well_formed
    (rt : Runtime) (tx : Text) (llm : Inference) (response query : string)
    (p : ExecutionPlan) :
  parsePlanResponse rt tx llm response query = Returned p ->
  ID p = "" /\ State p = zero_ExecutionState /\ Manifest p = None /\
  NoDup (map Phase_ID (Phases p)) /\
  forall j ph, index (Phases p) j = Some ph ->
    Phase_ID ph = "phase-" ++ dec (j + 1) /\
    Phase_Status ph = PhaseStatusPending /\
    In (Phase_Agent ph) [AgentTypeCode; AgentTypeData; AgentTypeInfra; AgentTypeSec] /\
    forall k t, index (Phase_Tasks ph) k = Some t ->
      Task_ID t = "task-" ++ dec (j + 1) ++ "-" ++ dec (k + 1) /\
      Task_Completed t = false /\ Task_Result t = "".
Proof.
  intros H. apply parsePlanResponse_Returned in H. destruct H as (rawPlan & ->). simpl.
  split; [reflexivity|]. split; [reflexivity|]. split; [reflexivity|].
  split; [apply convertPhases_NoDup|].
  intros j ph Hj. apply convertPhases_index in Hj.
  destruct Hj as (H1 & H2 & H3 & raw & _ & _ & _ & H4). simpl in H1, H4.
  split; [exact H1|]. split; [exact H2|]. split; [exact H3|].
  intros k t Hk. rewrite H4 in Hk. apply convertTasks_index in Hk.
  destruct Hk as (Hid & Hc & Hr & _). simpl in Hid. auto.
Qed.

(** An answer in a json fence, with an agent name that is not a type. *)
Lemma X14_witness :
  let rt := Scenario.runtime [] [] [] [] in
  let body := "{" ++ dq ++ "title" ++ dq ++ ":" ++ dq ++ "demo" ++ dq ++ "}" in
  let llm := Oracle.model "" body Oracle.doc in
  let answer := Scenario.fence ++ "json" ++ nl ++ body ++ nl ++ Scenario.fence in
  exists p,
    parsePlanResponse rt Console.text llm answer "a demo" = Returned p /\
    map Phase_ID (Phases p) = ["phase-1"; "phase-2"] /\
    map Phase_Agent (Phases p) = ["code"; "code"] /\
    NoDup (map Phase_ID (Phases p)).
Proof.
  intros rt body llm answer.
  assert (E : parsePlanResponse rt Console.text llm answer "a demo" =
              Returned (match parsePlanResponse rt Console.text llm answer "a demo" with
                        | Returned p => p
                        | _ => zero_ExecutionPlan
                        end)) by (vm_compute; reflexivity).
  eexists. split; [exact E|].
  split; [vm_compute; reflexivity|]. split; [vm_compute; reflexivity|].
  exact (proj1 (proj2 (proj2 (proj2
           (X14_parsed_plan_is_well_formed rt Console.text llm answer "a demo" _ E))))).
Defined.

(** X15. parsePlanResponse panics exactly on an answer in which, once trimmed
    and without its fence, the first opening brace comes after the byte that
    follows the last closing brace: the slice between the two is then out of
    range. The first stage of Generate takes the same slice of its answer,
    and its panic is not one of the errors Generate falls back from: such a
    first answer makes Generate panic. *)
Theorem X15_planner_panics_on_braces_out_of_order
    (rt : Runtime) (tx : Text) (llm : Inference) :
  (forall response query,
     parsePlanResponse rt tx llm response query = Panicked <->
     0 <= LastIndex (unfenced rt response) "}" /\
     LastIndex (unfenced rt response) "}" + 1 < Index (unfenced rt response) "{") /\
  (forall w query result,
     GenerateSync llm w (fileStructurePrompt query) = inl result ->
     0 <= LastIndex (TrimSpace rt result) "}" ->
     LastIndex (TrimSpace rt result) "}" + 1 < Index (TrimSpace rt result) "{" ->
     Generate rt tx llm w query = (w, Panicked)).
Proof.
  split; [apply parsePlanResponse_Panicked|].
  intros w query result Hg He Hlt.
  unfold Generate, generateFileStructure. rewrite Hg. cbv zeta.
  set (r := TrimSpace rt result) in *.
  destruct (Z.eqb_spec (Index r "{") (-1)); [lia|].
  destruct (Z.eqb_spec (LastIndex r "}") (-1)); [lia|]. simpl.
  assert (Hs : slice r (Index r "{") (LastIndex r "}" + 1) = None).
  { apply brace_slice; [assumption | assumption | exact Hlt]. }
  rewrite Hs. reflexivity.
Qed.

(** A first answer that closes a brace before it opens one. *)
Lemma X15_witness :
  let rt := Scenario.runtime [] [] [] [] in
  let llm := Oracle.model "}  {" "{}" Oracle.doc in
  Generate rt Console.text llm Scenario.world0 "a demo" = (Scenario.world0, Panicked).
Proof.
  intros rt llm.
  apply (proj2 (X15_planner_panics_on_braces_out_of_order rt Console.text llm)
           Scenario.world0 "a demo" "}  {").
  - reflexivity.
  - vm_compute. discriminate.
  - vm_compute. reflexivity.
Defined.

(** X16. A plan Generate returns is ready for Execute: its state is pending
    with currentPhase 0, no completed and no failed phase and no start time,
    it has no manifest, its file structure is the one of the first stage (an
    empty map when that stage returned an error), never the one in the second
    answer, its id is plan_ followed by the time printed, its phase ids all
    differ and its phases are pending with agent types among code, data,
    infra and sec; and it has no completed index out of range and no
    manifest with a nil map, which is what Execute asks of a plan not to
    panic on it. *)
Theorem X16_generated_plan_is_ready_to_execute
    (rt : Runtime) (tx : Text) (llm : Inference) (w w' : World) (query : string)
    (p : ExecutionPlan) :
  Generate rt tx llm w query = (w', Returned p) ->
  State p = {| State_Status := ExecutionStatusPending; CurrentPhase := 0;
               CompletedPhases := []; FailedPhases := []; LastCheckpoint := "";
               StartedAt := None; CompletedAt := None |} /\
  Manifest p = None /\
  FileStructure p = match generateFileStructure rt llm w query with
                    | Returned dirs => dirs
                    | _ => Some []
                    end /\
  ID p = "plan_" ++ Format llm (clock w) /\
  CreatedAt p = clock w + 1 /\ UpdatedAt p = clock w + 2 /\ clock w' = clock w + 3 /\
  NoDup (map Phase_ID (Phases p)) /\
  (forall ph, In ph (Phases p) ->
     Phase_Status ph = PhaseStatusPending /\
     In (Phase_Agent ph) [AgentTypeCode; AgentTypeData; AgentTypeInfra; AgentTypeSec]) /\
  completed_valid p /\ manifest_ok p.
Proof.
  unfold Generate.
  set (stage1 := generateFileStructure rt llm w query).
  set (fs := match stage1 with Returned dirs => dirs | _ => Some [] end).
  assert (Hmain :
    match generatePhasesCompact rt tx llm w query fs with
    | Panicked => (w, Panicked)
    | Failed err => (w, Failed ("phase generation failed: " ++ err))
    | Returned plan0 =>
        let '(t1, w1) := time_Now w in
        let '(t2, w2) := time_Now w1 in
        let '(t3, w3) := time_Now w2 in
        (w3,
         Returned
           {| ID := "plan_" ++ Format llm t1; Title := Title plan0;
              Description := Description plan0; FileStructure := fs;
              Phases := Phases plan0;
              State := {| State_Status := ExecutionStatusPending; CurrentPhase := 0;
                          CompletedPhases := []; FailedPhases := [];
                          LastCheckpoint := ""; StartedAt := None;
                          CompletedAt := None |};
              Manifest := Manifest plan0; CreatedAt := t2; UpdatedAt := t3 |})
    end = (w', Returned p) ->
    State p = {| State_Status := ExecutionStatusPending; CurrentPhase := 0;
                 CompletedPhases := []; FailedPhases := []; LastCheckpoint := "";
                 StartedAt := None; CompletedAt := None |} /\
    Manifest p = None /\ FileStructure p = fs /\
    ID p = "plan_" ++ Format llm (clock w) /\
    CreatedAt p = clock w + 1 /\ UpdatedAt p = clock w + 2 /\ clock w' = clock w + 3 /\
    NoDup (map Phase_ID (Phases p)) /\
    (forall ph, In ph (Phases p) ->
       Phase_Status ph = PhaseStatusPending /\
       In (Phase_Agent ph) [AgentTypeCode; AgentTypeData; AgentTypeInfra; AgentTypeSec]) /\
    completed_valid p /\ manifest_ok p).
  { unfold generatePhasesCompact.
    destruct (GenerateSync llm w _) as [result|err]; [|discriminate].
    destruct (parsePlanResponse rt tx llm result query) as [plan0| |] eqn:Ep;
      try discriminate.
    apply parsePlanResponse_Returned in Ep. destruct Ep as (rawPlan & ->).
    simpl. intros H; inversion H; subst; clear H. simpl.
    repeat (split; [reflexivity || lia|]).
    split; [apply convertPhases_NoDup|]. split.
    - intros ph Hin. apply In_nth_error in Hin. destruct Hin as [n Hn].
      assert (Hi : index (convertPhases rt tx 0 (RawPlan_Phases rawPlan)) (Z.of_nat n)
                   = Some ph).
      { unfold index. destruct (Z.ltb_spec (Z.of_nat n) 0); [lia|].
        rewrite Nat2Z.id. exact Hn. }
      apply convertPhases_index in Hi. destruct Hi as (_ & H2 & H3 & _). auto.
    - split; [intros j []|exact I]. }
  destruct stage1; try exact Hmain. discriminate.
Qed.

(** A first answer with a structure and a second answer with two phases. *)
Lemma X16_witness :
  let rt := Scenario.runtime [] [] [] [] in
  let body := "{" ++ dq ++ "title" ++ dq ++ ":" ++ dq ++ "demo" ++ dq ++ "}" in
  let llm := Oracle.model "{}" body Oracle.doc in
  exists w' p,
    Generate rt Console.text llm Scenario.world0 "a demo" = (w', Returned p) /\
    ID p = "plan_20260117_140530" /\
    FileStructure p = Some [("demo/", ["main.py"])] /\
    map Phase_ID (Phases p) = ["phase-1"; "phase-2"] /\
    CurrentPhase (State p) = 0 /\ Manifest p = None.
Proof.
  intros rt body llm.
  set (g := Generate rt Console.text llm Scenario.world0 "a demo").
  assert (E : g = (fst g, Returned (match snd g with
                                    | Returned p => p
                                    | _ => zero_ExecutionPlan
                                    end))) by (vm_compute; reflexivity).
  assert (Hs : generateFileStructure rt llm Scenario.world0 "a demo"
               = Returned (Some [("demo/", ["main.py"])])) by (vm_compute; reflexivity).
  assert (Hi : map Phase_ID (Phases (match snd g with
                                     | Returned p => p
                                     | _ => zero_ExecutionPlan
                                     end)) = ["phase-1"; "phase-2"])
    by (vm_compute; reflexivity).
  destruct (X16_generated_plan_is_ready_to_execute rt Console.text llm Scenario.world0
              (fst g) "a demo" _ E) as (HS & HM & HF & HI & _).
  exists (fst g). eexists. split; [exact E|].
  split; [exact HI|]. split; [rewrite HF, Hs; reflexivity|].
  split; [exact Hi|]. split; [rewrite HS; reflexivity | exact HM].
Defined.
